(** * Maxwell: hybrid search, synthesis and duplicate analysis

    A shallow embedding of the algorithmic core of the Maxwell knowledge
    base: the duplicate/uniqueness analyzer, the pattern-first search
    front ends, the query cache, the reference importer and the pattern
    synthesizer.  Python code is rendered as Rocq functions; code that
    can raise returns a [Res]; loops that accumulate into a list while
    they may raise are written with [for_each]; the SQLite store is an
    explicit [Store] value.

    Conventions.
    - A Python [str] is a [string]; a character is a code point below
      256, so [isspace] and [lower] follow Python on Latin-1.
    - The topic-overlap score is computed as Python computes it, in
      IEEE 754 binary64 arithmetic (the operations of [SpecFloat],
      rounding to nearest, ties to even); a record keeps the rational
      the score denotes.  The uniqueness percentage and the response
      times are exact rationals ([Q]).
    - A Python [set] is a list without repeats that stands for the
      set: [list(s)] lists a set in an order that varies with the hash
      seed of the interpreter, and no property depends on the order of
      such a list.
    - [datetime.now()] reads an explicit clock; [hashlib.md5], the
      builtin [hash], the [re] module and the FTS5 ranking function are
      parameters, since their code lives outside the repository. *)

From Stdlib Require Import String Ascii List ZArith QArith Bool Lia DecimalString.
From Stdlib Require Import SpecFloat.
Import ListNotations.
Local Open Scope string_scope.
Local Open Scope list_scope.

(** ** Python: exceptions *)

Inductive exn : Type :=
| UnboundLocalError
| ValueError
| ZeroDivisionError
| OSError
| OperationalError.

Inductive Res (A : Type) : Type :=
| Ok (a : A)
| Raise (e : exn).

Arguments Ok {A} a.
Arguments Raise {A} e.

Definition bind {A B : Type} (m : Res A) (k : A -> Res B) : Res B :=
  match m with
  | Ok a => k a
  | Raise e => Raise e
  end.

Notation "x <- m ;; k" := (bind m (fun x => k))
  (at level 61, m at next level, right associativity).

(** A statement of a loop body: it updates the variables [S] the loop
    writes to and may raise; the updates made before the exception
    stay, as they do in Python. *)
Fixpoint for_each {A S : Type} (xs : list A) (body : A -> S -> S * option exn)
  (s : S) : S * option exn :=
  match xs with
  | [] => (s, None)
  | x :: xs' =>
      match body x s with
      | (s', None) => for_each xs' body s'
      | (s', Some e) => (s', Some e)
      end
  end.

(** Reading a local variable: a name the function assigns somewhere is
    local to it from its first line on, and reading it before the
    assignment has run raises [UnboundLocalError]. *)
Definition load_local {A : Type} (slot : option A) : Res A :=
  match slot with
  | Some v => Ok v
  | None => Raise UnboundLocalError
  end.

(** Unpacking a sequence into exactly three targets. *)
Definition unpack3 {A : Type} (t : list A) : Res (A * A * A) :=
  match t with
  | [a; b; c] => Ok (a, b, c)
  | _ => Raise ValueError
  end.

(** ** Python: strings *)

Definition nl : ascii := ascii_of_nat 10.

(** [str.isspace] on one character. *)
Definition isspace (c : ascii) : bool :=
  let n := nat_of_ascii c in
  ((9 <=? n) && (n <=? 13) || (28 <=? n) && (n <=? 32)
   || (n =? 133) || (n =? 160))%nat.

Fixpoint lstrip (s : string) : string :=
  match s with
  | EmptyString => EmptyString
  | String c s' => if isspace c then lstrip s' else s
  end.

Fixpoint rstrip (s : string) : string :=
  match s with
  | EmptyString => EmptyString
  | String c s' =>
      match rstrip s' with
      | EmptyString => if isspace c then EmptyString else String c EmptyString
      | r => String c r
      end
  end.

Definition strip (s : string) : string := rstrip (lstrip s).

(** [re.sub(r'\s+', ' ', s)]: every maximal run of whitespace becomes
    one space.  [in_run] says the previous character was whitespace. *)
Fixpoint collapse_ws (in_run : bool) (s : string) : string :=
  match s with
  | EmptyString => EmptyString
  | String c s' =>
      if isspace c
      then if in_run then collapse_ws true s'
           else String " "%char (collapse_ws true s')
      else String c (collapse_ws false s')
  end.

Definition normalize_ws (content : string) : string :=
  collapse_ws false (strip content).

(** [s.split()]: the maximal runs of non-whitespace, in order. *)
Fixpoint split_ws (word : string) (s : string) : list string :=
  match s with
  | EmptyString => if String.eqb word "" then [] else [word]
  | String c s' =>
      if isspace c
      then if String.eqb word "" then split_ws "" s' else word :: split_ws "" s'
      else split_ws (word ++ String c "") s'
  end.

Definition split (s : string) : list string := split_ws "" s.

(** [s.split(sep)] for a one-character separator: never empty. *)
Fixpoint split_on_aux (sep : ascii) (piece : string) (s : string) : list string :=
  match s with
  | EmptyString => [piece]
  | String c s' =>
      if Ascii.eqb c sep then piece :: split_on_aux sep "" s'
      else split_on_aux sep (piece ++ String c "") s'
  end.

Definition split_on (sep : ascii) (s : string) : list string :=
  split_on_aux sep "" s.

Definition lower_char (c : ascii) : ascii :=
  let n := nat_of_ascii c in
  if ((65 <=? n) && (n <=? 90)
      || (192 <=? n) && (n <=? 222) && negb (n =? 215))%nat
  then ascii_of_nat (n + 32) else c.

Fixpoint lower (s : string) : string :=
  match s with
  | EmptyString => EmptyString
  | String c s' => String (lower_char c) (lower s')
  end.

Definition startswith (s p : string) : bool := String.prefix p s.

(** [sub in s]. *)
Fixpoint contains (sub s : string) : bool :=
  match s with
  | EmptyString => String.prefix sub EmptyString
  | String _ s' => String.prefix sub s || contains sub s'
  end.

(** [s[:n]] and [s[n:]]. *)
Fixpoint take (n : nat) (s : string) : string :=
  match n, s with
  | S n', String c s' => String c (take n' s')
  | _, _ => EmptyString
  end.

Fixpoint drop (n : nat) (s : string) : string :=
  match n, s with
  | S n', String _ s' => drop n' s'
  | _, _ => s
  end.

(** [s.replace(c, ' ')] for a one-character [c]. *)
Fixpoint replace_char (c : ascii) (s : string) : string :=
  match s with
  | EmptyString => EmptyString
  | String d s' =>
      String (if Ascii.eqb d c then " "%char else d) (replace_char c s')
  end.

(** [sep.join(parts)]. *)
Fixpoint join (sep : string) (parts : list string) : string :=
  match parts with
  | [] => ""
  | [p] => p
  | p :: rest => p ++ sep ++ join sep rest
  end.

(** [str(n)] for an integer. *)
Definition str_of_Z (n : Z) : string := NilZero.string_of_int (Z.to_int n).

(** ** Python: sets of strings and insertion-ordered dicts *)

Definition set_mem (x : string) (s : list string) : bool :=
  existsb (String.eqb x) s.

Definition set_add (x : string) (s : list string) : list string :=
  if set_mem x s then s else s ++ [x].

Definition set_update (s : list string) (xs : list string) : list string :=
  fold_left (fun acc x => set_add x acc) xs s.

Definition set_of (xs : list string) : list string := set_update [] xs.

Definition set_inter (a b : list string) : list string :=
  filter (fun x => set_mem x b) a.

(** [d[k] = v]: a key already present keeps its place. *)
Fixpoint dict_set {K V : Type} (eqb : K -> K -> bool) (k : K) (v : V)
  (d : list (K * V)) : list (K * V) :=
  match d with
  | [] => [(k, v)]
  | (k', v') :: d' =>
      if eqb k' k then (k', v) :: d' else (k', v') :: dict_set eqb k v d'
  end.

Fixpoint dict_get {K V : Type} (eqb : K -> K -> bool) (k : K)
  (d : list (K * V)) : option V :=
  match d with
  | [] => None
  | (k', v) :: d' => if eqb k' k then Some v else dict_get eqb k d'
  end.

(** [del d[k]]: a dict holds a key once. *)
Fixpoint dict_del {K V : Type} (eqb : K -> K -> bool) (k : K)
  (d : list (K * V)) : list (K * V) :=
  match d with
  | [] => []
  | (k', v) :: d' => if eqb k' k then d' else (k', v) :: dict_del eqb k d'
  end.

(** ** Python: numbers *)

Definition Qgt_bool (x y : Q) : bool := negb (Qle_bool x y).

Definition Q_of_nat (n : nat) : Q := inject_Z (Z.of_nat n).

(** [a / b] on numbers. *)
Definition truediv (a b : Q) : Res Q :=
  if Qeq_bool b 0 then Raise ZeroDivisionError else Ok (a / b)%Q.

(** ** Python: floats

    A [float] is an IEEE 754 binary64 number: 53 bits of precision,
    and every operation returns the float nearest to the exact result,
    ties to even. *)

Definition float : Type := spec_float.

Definition prec : Z := 53.
Definition emax : Z := 1024.

(** [0.0]. *)
Definition float_zero : float := S754_zero false.

(** [float(n)] for a count [n]; exact below 2^53. *)
Definition float_of_nat (n : nat) : float :=
  binary_normalize prec emax (Z.of_nat n) 0 false.

Definition float_add (x y : float) : float := SFadd prec emax x y.
Definition float_mul (x y : float) : float := SFmul prec emax x y.

(** [x / y] on floats: dividing by zero raises. *)
Definition float_div (x y : float) : Res float :=
  if SFeqb y float_zero then Raise ZeroDivisionError
  else Ok (SFdiv prec emax x y).

(** [a / b] on two counts: the float nearest to the quotient.  A count
    (the length of a list) is below 2^53, so it is a float as it
    stands and the quotient of the two floats is that float. *)
Definition count_truediv (a b : nat) : Res float :=
  float_div (float_of_nat a) (float_of_nat b).

(** The literal [0.d] for a digit [d]: the float nearest to [d/10]. *)
Definition tenths (d : nat) : float :=
  SFdiv prec emax (float_of_nat d) (float_of_nat 10).

(** [x > y] on floats. *)
Definition float_gt (x y : float) : bool := SFltb y x.

(** The rational a finite float denotes. *)
Definition float_value (x : float) : Q :=
  match x with
  | S754_finite negative m e =>
      let magnitude := (inject_Z (Z.pos m) * (2 # 1) ^ e)%Q in
      if negative then (- magnitude)%Q else magnitude
  | _ => 0%Q
  end.

(** ** The store

    One SQLite file with the legacy [knowledge] table, the [patterns]
    and [reference] tables and one FTS5 shadow index per table.  A table
    that has not been created is [None]; rows are kept in rowid order.
    Only the columns the modelled code reads or writes are kept (the
    timestamp columns are left out).  A [tags] column holds the output
    of [json.dumps] on a list of strings, and is kept decoded. *)

Record KnowledgeRow : Type := mkKnowledgeRow {
  kn_rowid : Z;
  kn_id : string;
  kn_title : string;
  kn_content : string;
  kn_folder : string;
  kn_tags : list string
}.

Record PatternRow : Type := mkPatternRow {
  pat_rowid : Z;
  pat_id : string;
  pat_title : string;
  pat_content : string;
  pat_folder : string;
  pat_folder_path : string;
  pat_doc_type : string;
  pat_library : string;
  pat_summary : string;
  pat_tags : list string;
  pat_word_count : nat
}.

Record ReferenceRow : Type := mkReferenceRow {
  ref_rowid : Z;
  ref_id : string;
  ref_title : string;
  ref_content : string;
  ref_folder_path : string;
  ref_doc_type : string;
  ref_library : string;
  ref_file_path : string;
  ref_word_count : nat;
  ref_summary : string;
  ref_tags : list string
}.

(** One row of an FTS5 index: the rowid it is aligned with and the
    text of its indexed columns. *)
Record FtsEntry : Type := mkFtsEntry {
  fts_rowid : Z;
  fts_columns : list string
}.

(** [patterns_unique_id] records whether the [patterns] table carries a
    uniqueness constraint on [id]: a table made by
    [CREATE TABLE patterns AS SELECT ...] carries none.  The [reference]
    and [knowledge] tables are declared with [id TEXT PRIMARY KEY]. *)
Record Store : Type := mkStore {
  knowledge : option (list KnowledgeRow);
  knowledge_fts : option (list FtsEntry);
  patterns : option (list PatternRow);
  patterns_unique_id : bool;
  patterns_fts : option (list FtsEntry);
  reference : option (list ReferenceRow);
  reference_fts : option (list FtsEntry)
}.

(** A database file in which no table has been created yet. *)
Definition empty_store : Store :=
  mkStore None None None false None None None.

(** A [SELECT] over a table that does not exist raises
    [sqlite3.OperationalError]. *)
Definition from_table {R : Type} (t : option (list R)) : Res (list R) :=
  match t with
  | Some rows => Ok rows
  | None => Raise OperationalError
  end.

(** [SELECT DISTINCT]: the values in order of first appearance. *)
Definition distinct (xs : list string) : list string := set_of xs.

(** ** The files under a documentation directory *)

(** [rglob_md root] is [None] when [root] does not exist, and otherwise
    the [(path, relative_path)] of every [*.md] file below it;
    [read_text path] is [open(path).read()]. *)
Record FileSystem : Type := mkFileSystem {
  rglob_md : string -> option (list (string * string));
  read_text : string -> Res string
}.

(** ** tools/duplicate_detector.py: [DuplicateDetector] *)

Module DuplicateDetector.

(** One entry of [_get_document_files]. *)
Record FileInfo : Type := mkFileInfo {
  path : string;
  relative_path : string;
  size : nat;
  word_count : nat;
  hash : string;
  title : string;
  tags : list string;
  content_preview : string
}.

(** One entry of the exact-duplicate pass.  [existing_title] is the
    loop variable of that name, which the loop binds to a key of the
    dict it walks, a [(title, content)] pair. *)
Record ExactDuplicate : Type := mkExactDuplicate {
  ed_new_file : string;
  ed_existing_title : string * string;
  ed_existing_library : string;
  ed_existing_path : string;
  ed_match_type : string
}.

(** One entry of the topic-overlap pass; [to_overlap_score] is the
    rational the float score denotes. *)
Record TopicOverlap : Type := mkTopicOverlap {
  to_new_file : string;
  to_existing_library : string;
  to_overlap_score : Q;
  to_common_tags : list string
}.

(** The library-conflict pass appends nothing, so its entries have no
    shape. *)
Inductive LibraryConflict : Type := .

Record VersionConflict : Type := mkVersionConflict {
  vc_new_file : string;
  vc_existing_title : string;
  vc_old_version : string;
  vc_new_version : string;
  vc_conflict_type : string
}.

(** The value of [_calculate_unique_content]. *)
Record UniqueContent : Type := mkUniqueContent {
  uc_total_files : nat;
  uc_excluded_files : nat;
  uc_unique_files : nat;
  uc_uniqueness_percentage : Q
}.

(** The lines of [_generate_recommendations], without their wording. *)
Inductive Recommendation : Type :=
| SkipExactDuplicates (n : nat)
| ReviewHighOverlap (n : nat)
| UpdateNewerVersions (n : nat)
| ImportUnique (n : nat) (percentage : Q)
| LowUniqueness
| HighUniqueness
| ModerateUniqueness.

Record Analysis : Type := mkAnalysis {
  total_files : nat;
  exact_duplicates : list ExactDuplicate;
  topic_overlaps : list TopicOverlap;
  library_conflicts : list LibraryConflict;
  version_conflicts : list VersionConflict;
  new_unique_content : UniqueContent;
  recommendations : list Recommendation;
  library_name : string
}.

Definition _extract_title (content : string) : string :=
  let lines := split_on nl content in
  match
    find (fun line => startswith line "# ") (map strip (firstn 10 lines))
  with
  | Some line => strip (drop 2 line)
  | None => "Untitled"
  end.

Definition tech_tags : list string :=
  ["swift"; "swiftui"; "uikit"; "combinable"; "tca"; "visionos"; "arkit";
   "realitykit"; "coredata"; "cloudkit"; "metal"; "shareplay";
   "spatial persona"; "systemcoordinator"].

Definition _extract_tags (content : string) : list string :=
  let content_lower := lower content in
  filter (fun tag => contains tag content_lower) tech_tags.

(** [SELECT title, content, folder_path, library FROM reference]: one
    4-tuple per row. *)
Definition select_title_content_folder_library (db : Store)
  : Res (list (list string)) :=
  rows <- from_table (reference db) ;;
  Ok (map (fun r => [ref_title r; ref_content r; ref_folder_path r;
                     ref_library r]) rows).

Definition key_eqb (a b : string * string) : bool :=
  String.eqb (fst a) (fst b) && String.eqb (snd a) (snd b).

(** [{(row[0], row[1]): row for row in rows}]. *)
Definition dict_by_title_content (rows : list (list string))
  : list ((string * string) * list string) :=
  fold_left
    (fun d row => dict_set key_eqb (nth 0 row "", nth 1 row "") row d)
    rows [].

(** The [try] block of [_find_exact_duplicates]: the list of duplicates
    it has appended, and the exception that ended it, if any. *)
Definition find_exact_duplicates_try (db : Store) (fs : FileSystem)
  (new_files : list FileInfo) : list ExactDuplicate * option exn :=
  match select_title_content_folder_library db with
  | Raise e => ([], Some e)
  | Ok rows =>
      let existing_content := dict_by_title_content rows in
      for_each new_files
        (fun new_file duplicates =>
           match read_text fs (path new_file) with
           | Raise e => (duplicates, Some e)
           | Ok content =>
               let normalized_new := normalize_ws content in
               for_each existing_content
                 (fun item duplicates =>
                    let existing_title := fst item in
                    match unpack3 (snd item) with
                    | Raise e => (duplicates, Some e)
                    | Ok (existing_content, folder_path, library) =>
                        let normalized_existing :=
                          normalize_ws existing_content in
                        if String.eqb normalized_new normalized_existing
                        then (duplicates ++
                                [mkExactDuplicate (relative_path new_file)
                                   existing_title library folder_path
                                   "exact_content"], None)
                        else (duplicates, None)
                    end)
                 duplicates
           end)
        []
  end.

(** [except Exception] only prints: the list built so far is returned. *)
Definition _find_exact_duplicates (db : Store) (fs : FileSystem)
  (new_files : list FileInfo) : list ExactDuplicate :=
  fst (find_exact_duplicates_try db fs new_files).

(** [SELECT content FROM reference WHERE library = ? LIMIT 5]. *)
Definition select_sample_content (db : Store) (existing_lib : string)
  : Res (list string) :=
  rows <- from_table (reference db) ;;
  Ok (firstn 5
        (map ref_content
           (filter (fun r => String.eqb (ref_library r) existing_lib) rows))).

(** The [try] block of [_calculate_overlap_score]: the score is a
    float, and every step rounds as Python's does.  The second
    division, by the number of sample documents, raises when the
    library has none. *)
Definition calculate_overlap_score_try (db : Store) (content : string)
  (tags : list string) (existing_lib : string) : Res float :=
  existing_samples <- select_sample_content db existing_lib ;;
  let score := float_zero in
  let existing_tags :=
    fold_left (fun acc sample => set_update acc (_extract_tags sample))
      existing_samples [] in
  let tag_overlap := length (set_inter (set_of tags) existing_tags) in
  score <-
    (if (0 <? length tags)%nat
     then
       tag_share <- count_truediv tag_overlap (length tags) ;;
       Ok (float_add score (float_mul tag_share (tenths 4)))
     else Ok score) ;;
  let content_overlap :=
    fold_left
      (fun n sample =>
         (n + length (set_inter (set_of (split (lower content)))
                        (set_of (split (lower sample)))))%nat)
      existing_samples 0%nat in
  if (0 <? length (split content))%nat
  then
    per_word <- count_truediv content_overlap (length (split content)) ;;
    content_score <-
      float_div per_word (float_of_nat (length existing_samples)) ;;
    Ok (float_add score (float_mul content_score (tenths 6)))
  else Ok score.

(** [except Exception] returns [0.0]. *)
Definition _calculate_overlap_score (db : Store) (content : string)
  (tags : list string) (existing_lib : string) : float :=
  match calculate_overlap_score_try db content tags existing_lib with
  | Ok score => score
  | Raise _ => float_zero
  end.

(** [SELECT DISTINCT tags FROM reference WHERE library = ? AND tags IS
    NOT NULL], each value decoded and added to one set.  The value is
    [list(set(new_tags) & existing_tags)]: the list stands for that
    set, which Python lists in an order of its own. *)
Definition _find_common_tags (db : Store) (new_tags : list string)
  (existing_lib : string) : list string :=
  match from_table (reference db) with
  | Raise _ => []
  | Ok rows =>
      let existing_tags :=
        fold_left (fun acc r => set_update acc (ref_tags r))
          (filter (fun r => String.eqb (ref_library r) existing_lib) rows)
          [] in
      set_inter (set_of new_tags) existing_tags
  end.

(** Neither helper raises, so the two loops always run to their end;
    only the first query can end the [try] block early.  The score is
    compared with the float [0.3]; the record keeps the rational it
    denotes. *)
Definition _find_topic_overlaps (db : Store) (new_files : list FileInfo)
  (library_name : string) : list TopicOverlap :=
  match from_table (reference db) with
  | Raise _ => []
  | Ok rows =>
      let existing_libraries := distinct (map ref_library rows) in
      flat_map
        (fun new_file =>
           let new_content := content_preview new_file in
           let new_tags := tags new_file in
           flat_map
             (fun existing_lib =>
                let overlap_score :=
                  _calculate_overlap_score db new_content new_tags
                    existing_lib in
                if float_gt overlap_score (tenths 3)
                then [mkTopicOverlap (relative_path new_file) existing_lib
                        (float_value overlap_score)
                        (_find_common_tags db new_tags existing_lib)]
                else [])
             existing_libraries)
        new_files
  end.

Definition _find_library_conflicts (new_files : list FileInfo)
  (library_name : string) : list LibraryConflict := [].

Definition _calculate_unique_content (new_files : list FileInfo)
  (analysis : Analysis) : UniqueContent :=
  let excluded_files :=
    fold_left (fun acc dup => set_add (ed_new_file dup) acc)
      (exact_duplicates analysis) [] in
  let excluded_files :=
    fold_left
      (fun acc overlap =>
         if Qgt_bool (to_overlap_score overlap) (7#10)
         then set_add (to_new_file overlap) acc else acc)
      (topic_overlaps analysis) excluded_files in
  let unique_files :=
    filter (fun f => negb (set_mem (relative_path f) excluded_files))
      new_files in
  mkUniqueContent
    (length new_files)
    (length excluded_files)
    (length unique_files)
    (match new_files with
     | [] => 0
     | _ => (Q_of_nat (length unique_files) / Q_of_nat (length new_files))
            * 100
     end)%Q.

Definition _generate_recommendations (analysis : Analysis)
  : list Recommendation :=
  let unique := new_unique_content analysis in
  let pct := uc_uniqueness_percentage unique in
  (match exact_duplicates analysis with
   | [] => []
   | dups => [SkipExactDuplicates (length dups)]
   end)
  ++ (match
        filter (fun o => Qgt_bool (to_overlap_score o) (7#10))
          (topic_overlaps analysis)
      with
      | [] => []
      | high_overlap => [ReviewHighOverlap (length high_overlap)]
      end)
  ++ (match version_conflicts analysis with
      | [] => []
      | vs => [UpdateNewerVersions (length vs)]
      end)
  ++ (if (0 <? uc_unique_files unique)%nat
      then [ImportUnique (uc_unique_files unique) pct] else [])
  ++ [if Qgt_bool 50 pct then LowUniqueness
      else if Qgt_bool pct 80 then HighUniqueness
      else ModerateUniqueness].

Section Detector.

(** [hashlib.md5(s.encode()).hexdigest()]. *)
Variable md5_hex : string -> string.

(** The version-conflict pass: its whole body sits in
    [try ... except Exception], so it always returns a list.  Its
    version-token matching is not modelled. *)
Variable _find_version_conflicts :
  Store -> list FileInfo -> string -> list VersionConflict.

Definition _calculate_content_hash (content : string) : string :=
  let normalized := normalize_ws content in
  take 16 (md5_hex normalized).

(** A file that cannot be read is reported and skipped. *)
Definition _get_document_files (fs : FileSystem) (docs_path : string)
  : list FileInfo :=
  match rglob_md fs docs_path with
  | None => []
  | Some found =>
      flat_map
        (fun md_file =>
           match read_text fs (fst md_file) with
           | Raise _ => []
           | Ok content =>
               [mkFileInfo (fst md_file) (snd md_file)
                  (String.length content)
                  (length (split content))
                  (_calculate_content_hash content)
                  (_extract_title content)
                  (_extract_tags content)
                  (take 500 content ++
                     (if (500 <? String.length content)%nat
                      then "..." else ""))]
           end)
        found
  end.

(** The dict display on the right of [analysis = {...}] is evaluated
    before the assignment, entry by entry; two of its entries read
    [analysis] itself. *)
Definition analyze_content (db : Store) (fs : FileSystem)
  (docs_path library_name : string) : Res Analysis :=
  let new_files := _get_document_files fs docs_path in
  let exact_duplicates := _find_exact_duplicates db fs new_files in
  let topic_overlaps := _find_topic_overlaps db new_files library_name in
  let library_conflicts := _find_library_conflicts new_files library_name in
  let version_conflicts :=
    _find_version_conflicts db new_files library_name in
  let analysis : option Analysis := None in
  a1 <- load_local analysis ;;
  let new_unique_content := _calculate_unique_content new_files a1 in
  a2 <- load_local analysis ;;
  let recommendations := _generate_recommendations a2 in
  Ok (mkAnalysis (length new_files) exact_duplicates topic_overlaps
        library_conflicts version_conflicts new_unique_content
        recommendations library_name).

End Detector.

End DuplicateDetector.

(** ** SQLite FTS5: the query string of [MATCH]

    The tokenizer of FTS5 query strings, after [fts5ExprGetToken]: white
    space separates tokens; ten punctuation characters are tokens of
    their own; a double quote opens a string in which a doubled quote
    stands for one quote; any other character must be a bareword
    character (a letter, a digit, an underscore, the substitute
    character or a non-ASCII byte), or the query is a syntax error. *)

Inductive Fts5Token : Type :=
| FTS5_LP | FTS5_RP | FTS5_LCP | FTS5_RCP | FTS5_COLON | FTS5_COMMA
| FTS5_PLUS | FTS5_STAR | FTS5_MINUS | FTS5_CARET
| FTS5_OR | FTS5_NOT | FTS5_AND
| FTS5_STRING (text : string).

Definition fts5_isspace (c : ascii) : bool :=
  let n := nat_of_ascii c in
  ((n =? 32) || (n =? 9) || (n =? 10) || (n =? 13))%nat.

Definition fts5_isbareword (c : ascii) : bool :=
  let n := nat_of_ascii c in
  ((128 <=? n) || (48 <=? n) && (n <=? 57) || (65 <=? n) && (n <=? 90)
   || (97 <=? n) && (n <=? 122) || (n =? 95) || (n =? 26))%nat.

Definition fts5_punctuation (c : ascii) : option Fts5Token :=
  match nat_of_ascii c with
  | 40 => Some FTS5_LP
  | 41 => Some FTS5_RP
  | 123 => Some FTS5_LCP
  | 125 => Some FTS5_RCP
  | 58 => Some FTS5_COLON
  | 44 => Some FTS5_COMMA
  | 43 => Some FTS5_PLUS
  | 42 => Some FTS5_STAR
  | 45 => Some FTS5_MINUS
  | 94 => Some FTS5_CARET
  | _ => None
  end%nat.

Definition fts5_word (w : string) : Fts5Token :=
  if String.eqb w "OR" then FTS5_OR
  else if String.eqb w "NOT" then FTS5_NOT
  else if String.eqb w "AND" then FTS5_AND
  else FTS5_STRING w.

(** Where the tokenizer stands: between tokens, inside a bareword,
    inside a quoted string, or just after a quote met inside a quoted
    string (which closes it unless another quote follows). *)
Inductive Fts5Lex : Type :=
| Between
| InBareword (w : string)
| InQuoted (text : string)
| AfterQuote (text : string).

Definition is_dquote (c : ascii) : bool := (nat_of_ascii c =? 34)%nat.
Definition is_nul (c : ascii) : bool := (nat_of_ascii c =? 0)%nat.

(** A character met between tokens: the tokens it completes and the
    next state, [None] for a syntax error; [inr] ends the input (NUL). *)
Definition fts5_between (c : ascii) : option (list Fts5Token * Fts5Lex + unit) :=
  if is_nul c then Some (inr tt)
  else if fts5_isspace c then Some (inl ([], Between))
  else match fts5_punctuation c with
       | Some t => Some (inl ([t], Between))
       | None =>
           if is_dquote c then Some (inl ([], InQuoted ""))
           else if fts5_isbareword c
                then Some (inl ([], InBareword (String c "")))
                else None
       end.

Fixpoint fts5_tokens (st : Fts5Lex) (s : string) : option (list Fts5Token) :=
  match s with
  | EmptyString =>
      match st with
      | Between => Some []
      | InBareword w => Some [fts5_word w]
      | InQuoted _ => None
      | AfterQuote text => Some [FTS5_STRING text]
      end
  | String c s' =>
      let continue_with (done : list Fts5Token) :=
        match fts5_between c with
        | None => None
        | Some (inr _) => Some done
        | Some (inl (emitted, st')) =>
            option_map (fun rest => done ++ emitted ++ rest)
              (fts5_tokens st' s')
        end in
      match st with
      | Between => continue_with []
      | InBareword w =>
          if fts5_isbareword c then fts5_tokens (InBareword (w ++ String c "")) s'
          else continue_with [fts5_word w]
      | InQuoted text =>
          if is_dquote c then fts5_tokens (AfterQuote text) s'
          else if is_nul c then None
          else fts5_tokens (InQuoted (text ++ String c "")) s'
      | AfterQuote text =>
          if is_dquote c then fts5_tokens (InQuoted (text ++ String c "")) s'
          else continue_with [FTS5_STRING text]
      end
  end.

(** What the engine does with a token sequence is not fixed here: which
    sequences its grammar accepts, which index rows match (best first,
    as [ORDER BY bm25] lists them) and the text [snippet] returns. *)
Record Fts5Engine : Type := mkFts5Engine {
  fts5_grammar_ok : list Fts5Token -> bool;
  fts5_ranked : list Fts5Token -> list FtsEntry -> list FtsEntry;
  fts5_snippet : list Fts5Token -> FtsEntry -> string
}.

(** [... WHERE index MATCH query ORDER BY bm25(index)]: a query string
    the tokenizer or the grammar rejects raises
    [sqlite3.OperationalError]. *)
Definition fts5_match (E : Fts5Engine) (query : string)
  (index : list FtsEntry) : Res (list (FtsEntry * string)) :=
  match fts5_tokens Between query with
  | None => Raise OperationalError
  | Some toks =>
      if fts5_grammar_ok E toks
      then Ok (map (fun e => (e, fts5_snippet E toks e))
                 (fts5_ranked E toks index))
      else Raise OperationalError
  end.

(** [JOIN t ON t.rowid = index.rowid], in the order of the index hits. *)
Definition join_rowid {R : Type} (rowid : R -> Z) (rows : list R)
  (hits : list (FtsEntry * string)) : list (R * string) :=
  flat_map
    (fun hit =>
       map (fun r => (r, snd hit))
         (filter (fun r => Z.eqb (rowid r) (fts_rowid (fst hit))) rows))
    hits.

(** [LIMIT n]: a negative [n] is no limit. *)
Definition sql_limit {A : Type} (n : Z) (l : list A) : list A :=
  if (n <? 0)%Z then l else firstn (Z.to_nat n) l.

(** The full-text query each front end runs, over an index and the
    table it shadows. *)
Definition fts5_select {R : Type} (E : Fts5Engine) (rowid : R -> Z)
  (index : option (list FtsEntry)) (table : option (list R))
  (query : string) (limit : Z) : Res (list (R * string)) :=
  entries <- from_table index ;;
  rows <- from_table table ;;
  hits <- fts5_match E query entries ;;
  Ok (sql_limit limit (join_rowid rowid rows hits)).

(** ** The clock *)

(** [clock n] is what the [n]-th call of [datetime.now()] returns, in
    seconds. *)
Definition Clock : Type := nat -> Q.

(** ** knowledge/maxwell-hybrid-search.py: [MaxwellHybridKnowledgeBase] *)

Module HybridSearch.

(** A result row of [_search_patterns]; the rows of the legacy query
    have no [snippet] key. *)
Record PatternHit : Type := mkPatternHit {
  ph_id : string;
  ph_title : string;
  ph_content : string;
  ph_folder : string;
  ph_tags : list string;
  ph_snippet : option string
}.

Record ReferenceHit : Type := mkReferenceHit {
  rh_id : string;
  rh_title : string;
  rh_content : string;
  rh_folder_path : string;
  rh_library : string;
  rh_doc_type : string;
  rh_summary : string;
  rh_tags : list string;
  rh_snippet : string
}.

Record Stats : Type := mkStats {
  total_queries : nat;
  pattern_hits : nat;
  reference_hits : nat;
  response_times : list Q
}.

(** The object's mutable state, and how often the clock was read. *)
Record KB : Type := mkKB {
  stats : Stats;
  ticks : nat
}.

(** The dict [search] returns; a key a branch does not set is [None]. *)
Record Result : Type := mkResult {
  status : string;
  solution : option string;
  source : option string;
  response_time : Q;
  reasoning : string;
  tags : option (list string);
  folder_path : option string;
  library : option string;
  knowledge_type : string
}.

(** The legacy statement names [knowledge_fts] in [WHERE] and [ORDER BY]
    but selects [FROM knowledge] alone: it fails to compile whether or
    not the [knowledge] table exists. *)
Definition select_legacy (db : Store) (query : string) (limit : Z)
  : Res (list KnowledgeRow) :=
  _ <- from_table (knowledge db) ;;
  Raise OperationalError.

Definition _search_patterns (E : Fts5Engine) (db : Store) (query : string)
  (limit : Z) : Res (list PatternHit) :=
  match fts5_select E pat_rowid (patterns_fts db) (patterns db) query limit with
  | Ok rows =>
      Ok (map (fun row =>
                 mkPatternHit (pat_id (fst row)) (pat_title (fst row))
                   (pat_content (fst row)) (pat_folder (fst row))
                   (pat_tags (fst row)) (Some (snd row)))
            rows)
  | Raise OperationalError =>
      rows <- select_legacy db query limit ;;
      Ok (map (fun r =>
                 mkPatternHit (kn_id r) (kn_title r) (kn_content r)
                   (kn_folder r) (kn_tags r) None)
            rows)
  | Raise e => Raise e
  end.

Definition _search_reference (E : Fts5Engine) (db : Store) (query : string)
  (limit : Z) : Res (list ReferenceHit) :=
  match
    fts5_select E ref_rowid (reference_fts db) (reference db) query limit
  with
  | Ok rows =>
      Ok (map (fun row =>
                 let r := fst row in
                 mkReferenceHit (ref_id r) (ref_title r) (ref_content r)
                   (ref_folder_path r) (ref_library r) (ref_doc_type r)
                   (ref_summary r) (ref_tags r) (snd row))
            rows)
  | Raise OperationalError => Ok []
  | Raise e => Raise e
  end.

Section Search.

Variable clock : Clock.

(** The two answer formatters only lay out the text of the answer. *)
Variable _format_pattern_response : PatternHit -> string.
Variable _format_reference_response : ReferenceHit -> string.

Definition search (E : Fts5Engine) (db : Store) (kb : KB) (query : string)
  (limit : Z) : Res (Result * KB) :=
  let start_time := clock (ticks kb) in
  let st := stats kb in
  let st := mkStats (S (total_queries st)) (pattern_hits st)
              (reference_hits st) (response_times st) in
  pattern_results <- _search_patterns E db query limit ;;
  match pattern_results with
  | best :: _ =>
      let response_time := (clock (S (ticks kb)) - start_time)%Q in
      let st := mkStats (total_queries st) (S (pattern_hits st))
                  (reference_hits st)
                  (response_times st ++ [response_time]) in
      Ok (mkResult "pattern_found"
            (Some (_format_pattern_response best))
            (Some (ph_title best))
            response_time
            "Found relevant solution in Maxwell patterns database"
            (Some (ph_tags best)) None None "pattern",
          mkKB st (2 + ticks kb))
  | [] =>
      reference_results <- _search_reference E db query limit ;;
      match reference_results with
      | result :: _ =>
          let response_time := (clock (S (ticks kb)) - start_time)%Q in
          let st := mkStats (total_queries st) (pattern_hits st)
                      (S (reference_hits st))
                      (response_times st ++ [response_time]) in
          Ok (mkResult "reference_found"
                (Some (_format_reference_response result))
                (Some (rh_title result))
                response_time
                ("Found comprehensive reference in " ++ rh_library result
                   ++ " documentation")
                (Some (rh_tags result))
                (Some (rh_folder_path result))
                (Some (rh_library result)) "reference",
              mkKB st (2 + ticks kb))
      | [] =>
          let response_time := (clock (S (ticks kb)) - start_time)%Q in
          Ok (mkResult "no_knowledge_found" None None response_time
                "No relevant information found in Maxwell knowledge base"
                None None None "none",
              mkKB st (2 + ticks kb))
      end
  end.

End Search.

End HybridSearch.

(** ** knowledge/maxwell-token-optimized.py: [MaxwellTokenOptimized] *)

Module TokenOptimized.

Record PatternHit : Type := mkPatternHit {
  ph_id : string;
  ph_title : string;
  ph_content : string;
  ph_tags : list string;
  ph_snippet : string
}.

Record ReferenceHit : Type := mkReferenceHit {
  rh_id : string;
  rh_title : string;
  rh_summary : string;
  rh_library : string;
  rh_folder_path : string;
  rh_tags : list string;
  rh_snippet : string
}.

(** The dict [search] returns; a key a branch does not set is [None]. *)
Record Result : Type := mkResult {
  status : string;
  summary : option string;
  key_points : option (list string);
  code_examples : option (list string);
  solution : option string;
  content_preview : option string;
  source : option string;
  response_time : Q;
  reasoning : string;
  tags : option (list string);
  library : option string;
  folder_path : option string;
  knowledge_type : string;
  has_more_details : option bool;
  detail_available : option (list string)
}.

Definition _search_patterns (E : Fts5Engine) (db : Store) (query : string)
  (limit : Z) : list PatternHit :=
  match fts5_select E pat_rowid (patterns_fts db) (patterns db) query limit with
  | Ok rows =>
      map (fun row =>
             mkPatternHit (pat_id (fst row)) (pat_title (fst row))
               (pat_content (fst row)) (pat_tags (fst row)) (snd row))
        rows
  | Raise _ => []
  end.

Definition _search_reference (E : Fts5Engine) (db : Store) (query : string)
  (limit : Z) : list ReferenceHit :=
  match
    fts5_select E ref_rowid (reference_fts db) (reference db) query limit
  with
  | Ok rows =>
      map (fun row =>
             let r := fst row in
             mkReferenceHit (ref_id r) (ref_title r) (ref_summary r)
               (ref_library r) (ref_folder_path r) (ref_tags r) (snd row))
        rows
  | Raise _ => []
  end.

Section Search.

Variable clock : Clock.

(** The helpers that cut the answer down to a detail level. *)
Variable _create_summary : PatternHit -> string.
Variable _extract_key_points : PatternHit -> list string.
Variable _extract_code_examples : PatternHit -> list string.
Variable _create_detailed_solution : PatternHit -> string.
Variable _extract_content_preview : ReferenceHit -> string.

(** The value of the last branch of [search], which reads the clock
    once more. *)
Definition no_knowledge_found (start_time : Q) (now : Q) : Result :=
  mkResult "no_knowledge_found" None None None None None None
    (now - start_time)%Q
    "No relevant information found in knowledge base"
    None None None "none" (Some false) None.

(** Step 2 and step 3 of [search]: a reference hit answers at the
    detail levels [summary] and [full] only. *)
Definition search_reference_step (E : Fts5Engine) (db : Store)
  (query : string) (detail_level : string) (start_time : Q)
  (reads : nat) : Result :=
  match _search_reference E db query 3 with
  | best_match :: _ =>
      let response_time := (clock reads - start_time)%Q in
      let reason :=
        ("Found " ++ rh_library best_match ++ " reference documentation")%string
      in
      if String.eqb detail_level "summary" then
        mkResult "reference_found" (Some (rh_summary best_match))
          None None None None (Some (rh_title best_match)) response_time
          reason (Some (rh_tags best_match))
          (Some (rh_library best_match)) (Some (rh_folder_path best_match))
          "reference" (Some true)
          (Some ["full_content"; "section_highlights"])
      else if String.eqb detail_level "full" then
        mkResult "reference_found" (Some (rh_summary best_match))
          None None None (Some (_extract_content_preview best_match))
          (Some (rh_title best_match)) response_time
          reason (Some (rh_tags best_match))
          (Some (rh_library best_match)) (Some (rh_folder_path best_match))
          "reference" (Some true) (Some ["full_content"])
      else no_knowledge_found start_time (clock (S reads))
  | [] => no_knowledge_found start_time (clock reads)
  end.

(** [max_tokens] is accepted and never read. *)
Definition search (E : Fts5Engine) (db : Store) (ticks : nat)
  (query : string) (max_tokens : Z) (detail_level : string) : Result :=
  let start_time := clock ticks in
  match _search_patterns E db query 3 with
  | best_match :: _ =>
      let response_time := (clock (S ticks) - start_time)%Q in
      if String.eqb detail_level "summary" then
        mkResult "pattern_found" (Some (_create_summary best_match))
          None None None None (Some (ph_title best_match)) response_time
          "Found pattern in first-line defense"
          (Some (ph_tags best_match)) None None "pattern" (Some true)
          (Some ["key_points"; "code_examples"; "full_pattern"])
      else if String.eqb detail_level "details" then
        mkResult "pattern_found" (Some (_create_summary best_match))
          (Some (_extract_key_points best_match)) None None None
          (Some (ph_title best_match)) response_time
          "Found pattern with key points"
          (Some (ph_tags best_match)) None None "pattern" None None
      else if String.eqb detail_level "full" then
        mkResult "pattern_found" (Some (_create_summary best_match))
          (Some (_extract_key_points best_match))
          (Some (_extract_code_examples best_match))
          (Some (_create_detailed_solution best_match)) None
          (Some (ph_title best_match)) response_time
          "Complete pattern details provided"
          (Some (ph_tags best_match)) None None "pattern" None None
      else search_reference_step E db query detail_level start_time
             (2 + ticks)
  | [] => search_reference_step E db query detail_level start_time (S ticks)
  end.

End Search.

End TokenOptimized.

(** ** knowledge/maxwell-knowledge-base.py: [MaxwellKnowledgeBase] *)

Module KnowledgeBase.

Record KnowledgeHit : Type := mkKnowledgeHit {
  kh_id : string;
  kh_title : string;
  kh_content : string;
  kh_folder : string;
  kh_tags : list string;
  kh_snippet : string
}.

(** The dict [solve_developer_problem] returns and caches; [tags] is
    [None] where the dict has no such key. *)
Record Result : Type := mkResult {
  status : string;
  solution : string;
  source : string;
  response_time : Q;
  reasoning : string;
  tags : option (list string)
}.

Record Stats : Type := mkStats {
  total_queries : nat;
  kb_hits : nat;
  cache_hits : nat;
  response_times : list Q
}.

(** The object's mutable state: [cache] is a dict, so it lists its keys
    in insertion order. *)
Record KB : Type := mkKB {
  stats : Stats;
  cache : list (string * Result);
  ticks : nat
}.

Definition cache_limit : nat := 50.

Definition clean_query (query : string) : string :=
  replace_char "."%char
    (replace_char ")"%char
       (replace_char "("%char
          (replace_char ":"%char (replace_char "@"%char query)))).

Definition _search_knowledge (E : Fts5Engine) (db : Store) (query : string)
  (limit : Z) : Res (list KnowledgeHit) :=
  rows <- fts5_select E kn_rowid (knowledge_fts db) (knowledge db)
            (clean_query query) limit ;;
  Ok (map (fun row =>
             let r := fst row in
             mkKnowledgeHit (kn_id r) (kn_title r) (kn_content r)
               (kn_folder r) (kn_tags r) (snd row))
        rows).

Definition _cache_result (cache : list (string * Result)) (key : string)
  (result : Result) : list (string * Result) :=
  let cache :=
    if (cache_limit <=? length cache)%nat
    then match cache with
         | (oldest_key, _) :: _ => dict_del String.eqb oldest_key cache
         | [] => cache
         end
    else cache in
  dict_set String.eqb key result cache.

Section Solve.

Variable clock : Clock.

(** [hashlib.md5(s.encode()).hexdigest()]. *)
Variable md5_hex : string -> string.

(** The four fixed texts of [_reason_about_problem]. *)
Variable compilation_advice memory_advice tca_advice general_advice : string.

Definition _reason_about_problem (query : string) : string :=
  let query_lower := lower query in
  if contains "error" query_lower || contains "compilation" query_lower
  then compilation_advice
  else if contains "memory" query_lower || contains "leak" query_lower
  then memory_advice
  else if contains "tca" query_lower || contains "reducer" query_lower
  then tca_advice
  else general_advice.

Definition _get_cache_key (query : string) : string := md5_hex query.

Definition solve_developer_problem (E : Fts5Engine) (db : Store) (kb : KB)
  (query : string) : Res (Result * KB) :=
  let st := stats kb in
  let st := mkStats (S (total_queries st)) (kb_hits st) (cache_hits st)
              (response_times st) in
  let start_time := clock (ticks kb) in
  let cache_key := _get_cache_key query in
  match dict_get String.eqb cache_key (cache kb) with
  | Some cached_result =>
      let st := mkStats (total_queries st) (kb_hits st) (S (cache_hits st))
                  (response_times st) in
      Ok (mkResult (status cached_result) (solution cached_result)
            (source cached_result) (response_time cached_result)
            (reasoning cached_result) None,
          mkKB st (cache kb) (S (ticks kb)))
  | None =>
      kb_results <- _search_knowledge E db query 5 ;;
      let search_time := (clock (S (ticks kb)) - start_time)%Q in
      let hit_or_miss :=
        match kb_results with
        | best_match :: _ =>
            (mkResult "knowledge_found" (kh_content best_match)
               (kh_title best_match) search_time
               "Found relevant solution in knowledge base"
               (Some (kh_tags best_match)),
             mkStats (total_queries st) (S (kb_hits st)) (cache_hits st)
               (response_times st))
        | [] =>
            (mkResult "reasoning_required" (_reason_about_problem query)
               "general_reasoning" search_time
               "Applied general development principles and best practices"
               None,
             st)
        end in
      let result := fst hit_or_miss in
      let st := snd hit_or_miss in
      let cache := _cache_result (cache kb) cache_key result in
      let total_time := (clock (S (S (ticks kb))) - start_time)%Q in
      let st := mkStats (total_queries st) (kb_hits st) (cache_hits st)
                  (response_times st ++ [total_time]) in
      Ok (result, mkKB st cache (3 + ticks kb))
  end.

End Solve.

End KnowledgeBase.

(** ** Writing to the store *)

Definition set_reference (db : Store) (rows : list ReferenceRow) : Store :=
  mkStore (knowledge db) (knowledge_fts db) (patterns db)
    (patterns_unique_id db) (patterns_fts db) (Some rows) (reference_fts db).

Definition set_reference_fts (db : Store) (idx : list FtsEntry) : Store :=
  mkStore (knowledge db) (knowledge_fts db) (patterns db)
    (patterns_unique_id db) (patterns_fts db) (reference db) (Some idx).

Definition set_patterns (db : Store) (rows : list PatternRow) : Store :=
  mkStore (knowledge db) (knowledge_fts db) (Some rows)
    (patterns_unique_id db) (patterns_fts db) (reference db)
    (reference_fts db).

Definition set_patterns_fts (db : Store) (idx : list FtsEntry) : Store :=
  mkStore (knowledge db) (knowledge_fts db) (patterns db)
    (patterns_unique_id db) (Some idx) (reference db) (reference_fts db).

(** The rowid SQLite gives a row inserted without one: one more than
    the largest in the table. *)
Definition next_rowid {R : Type} (rowid : R -> Z) (rows : list R) : Z :=
  (1 + fold_right Z.max 0 (map rowid rows))%Z.

(** [INSERT OR REPLACE] under a uniqueness constraint on [id]: the rows
    that hold the new row's id are deleted, then the row is inserted. *)
Definition insert_or_replace {R : Type} (id : R -> string) (row : R)
  (rows : list R) : list R :=
  filter (fun r => negb (String.eqb (id r) (id row))) rows ++ [row].

(** [SELECT COUNT( * ) FROM reference] and the same for [patterns]. *)
Definition reference_count (db : Store) : Res nat :=
  rows <- from_table (reference db) ;; Ok (length rows).

Definition patterns_count (db : Store) : Res nat :=
  rows <- from_table (patterns db) ;; Ok (length rows).

(** ** Paths *)

(** [PurePath.name], [str(PurePath.parent)] and [PurePath.stem] of a
    relative POSIX path. *)
Definition path_name (p : string) : string := last (split_on "/"%char p) "".

Definition path_parent (p : string) : string :=
  match removelast (split_on "/"%char p) with
  | [] => "."
  | parts => join "/" parts
  end.

Definition path_stem (p : string) : string :=
  let name := path_name p in
  let pieces := split_on "."%char name in
  let before := join "." (removelast pieces) in
  if negb (String.eqb before "") && negb (String.eqb (last pieces "") "")
  then before else name.

(** ** knowledge/migrate-database.py: [MaxwellDatabaseMigrator] *)

Module Migrator.

Definition _classify_document_type (folder_path content : string) : string :=
  let folder_lower := lower folder_path in
  if contains "article" folder_lower || contains "articles" folder_lower
  then "article"
  else if contains "extension" folder_lower
          || contains "extensions" folder_lower
  then "extension"
  else if contains "api" folder_lower || contains "reference" folder_lower
  then "api"
  else if contains "tutorial" folder_lower || contains "guide" folder_lower
  then "tutorial"
  else if startswith content "#"
          && existsb (fun word => contains word (lower (take 200 content)))
               ["method"; "function"; "property"; "class"]
  then "api"
  else "documentation".

(** The loop of [_generate_summary]: the title found so far, and the
    first paragraph, at which the loop stops. *)
Fixpoint summary_scan (title : string) (lines : list string)
  : string * string :=
  match lines with
  | [] => (title, "")
  | line :: rest =>
      let line := strip line in
      if startswith line "# " && String.eqb title ""
      then summary_scan (strip (drop 2 line)) rest
      else if negb (String.eqb line "") && negb (startswith line "#")
              && (20 <? String.length line)%nat
      then (title,
            if (100 <? String.length line)%nat
            then (take 100 line ++ "...")%string else line)
      else summary_scan title rest
  end.

Definition _generate_summary (content : string) : string :=
  let found := summary_scan "" (split_on nl content) in
  let title := fst found in
  let first_paragraph := snd found in
  if negb (String.eqb title "") && negb (String.eqb first_paragraph "")
  then (title ++ ": " ++ first_paragraph)%string
  else if negb (String.eqb title "") then title
  else if negb (String.eqb first_paragraph "") then first_paragraph
  else if (80 <? String.length content)%nat
       then (take 80 content ++ "...")%string else content.

Definition _extract_title (content : string) : string :=
  let lines := split_on nl content in
  match
    find (fun line => startswith line "# ") (map strip (firstn 10 lines))
  with
  | Some line => strip (drop 2 line)
  | None =>
      let first := hd "" lines in
      if (50 <? String.length first)%nat
      then (take 50 first ++ "...")%string else first
  end.

Definition _extract_tags (content library_name doc_type : string)
  : list string :=
  let content_lower := lower content in
  let tag_if (word tag : string) : list string :=
    if contains word content_lower then [tag] else [] in
  set_of
    ([lower library_name; lower doc_type]
       ++ tag_if "sqlite" "sqlite"
       ++ tag_if "swift" "swift"
       ++ tag_if "database" "database"
       ++ tag_if "query" "querying"
       ++ tag_if "migration" "migration"
       ++ tag_if "sync" "synchronization"
       ++ tag_if "cloudkit" "cloudkit"
       ++ tag_if "grdb" "grdb"
       ++ tag_if "delete" "deletion"
       ++ tag_if "insert" "insertion"
       ++ tag_if "update" "update"
       ++ (if contains "fetch" content_lower
              || contains "select" content_lower
           then ["fetching"] else [])).

Section ImportRun.

(** The builtin [hash] on strings.  CPython salts it with a value drawn
    when the interpreter starts (unless [PYTHONHASHSEED] fixes it), so
    it is one function for the length of a process and another in the
    next. *)
Variable py_hash : string -> Z.

Definition doc_id (library_name relative_path : string) : string :=
  library_name ++ "_" ++ path_stem relative_path ++ "_"
    ++ str_of_Z (py_hash relative_path mod 10000).

(** The body of the loop over the files: whatever raises inside it is
    reported and the loop goes on; a statement that ran before the
    exception keeps its effect, the final [commit] covers it. *)
Definition import_file (fs : FileSystem) (library_name : string)
  (db : Store) (md_file : string * string) : Store :=
  match read_text fs (fst md_file) with
  | Raise _ => db
  | Ok content =>
      let relative_path := snd md_file in
      let folder_path :=
        if String.eqb (path_parent relative_path) "." then "root"
        else path_parent relative_path in
      let doc_type := _classify_document_type folder_path content in
      let summary := _generate_summary content in
      let tags := _extract_tags content library_name doc_type in
      let doc_id := doc_id library_name relative_path in
      match reference db with
      | None => db
      | Some rows =>
          let rowid := next_rowid ref_rowid rows in
          let row :=
            mkReferenceRow rowid doc_id (_extract_title content) content
              folder_path doc_type library_name relative_path
              (length (split content)) summary tags in
          let db := set_reference db (insert_or_replace ref_id row rows) in
          match reference_fts db with
          | None => db
          | Some idx =>
              set_reference_fts db
                (idx ++ [mkFtsEntry rowid
                           [content; _extract_title content; folder_path;
                            doc_type; library_name; summary]])
          end
      end
  end.

Definition import_reference_documentation (fs : FileSystem) (db : Store)
  (docs_path library_name : string) : bool * Store :=
  match rglob_md fs docs_path with
  | None => (false, db)
  | Some found => (true, fold_left (import_file fs library_name) found db)
  end.

End ImportRun.

End Migrator.

(** ** JSON text of a list of strings *)

(** From here on [++] joins strings unless a list is expected. *)
Local Open Scope string_scope.

Definition dquote : string := String (ascii_of_nat 34) "".
Definition backslash : string := String (ascii_of_nat 92) "".

Definition hex_digit (n : nat) : ascii :=
  ascii_of_nat (if (n <? 10)%nat then 48 + n else 87 + n).

(** One character inside a JSON string, as [json.dumps] writes it with
    its default [ensure_ascii]. *)
Definition json_char (c : ascii) : string :=
  let n := nat_of_ascii c in
  if (n =? 34)%nat then backslash ++ dquote
  else if (n =? 92)%nat then backslash ++ backslash
  else if (n =? 10)%nat then backslash ++ "n"
  else if (n =? 13)%nat then backslash ++ "r"
  else if (n =? 9)%nat then backslash ++ "t"
  else if (n =? 8)%nat then backslash ++ "b"
  else if (n =? 12)%nat then backslash ++ "f"
  else if ((n <? 32) || (127 <? n))%nat
  then backslash ++ "u00"
         ++ String (hex_digit (n / 16)) (String (hex_digit (n mod 16)) "")
  else String c "".

Fixpoint json_chars (s : string) : string :=
  match s with
  | EmptyString => ""
  | String c s' => json_char c ++ json_chars s'
  end.

Definition json_dumps (items : list string) : string :=
  "[" ++ join ", " (map (fun s => dquote ++ json_chars s ++ dquote) items)
    ++ "]".

(** ** The [re] module

    The patterns are handed to the engine as the source writes them.
    [findall] returns the matches (the text of group 1 when the pattern
    has a group); [search_group1] is [re.search(..., re.IGNORECASE)]
    followed by [.group(1)]. *)
Record Regex : Type := mkRegex {
  findall : string -> string -> list string;
  search_group1 : string -> string -> option string
}.

(** [re.match(r'^\d+\.', line)]. *)
Definition is_digit (c : ascii) : bool :=
  let n := nat_of_ascii c in ((48 <=? n) && (n <=? 57))%nat.

Fixpoint after_digits (s : string) : string :=
  match s with
  | String c s' => if is_digit c then after_digits s' else s
  | EmptyString => s
  end.

Definition match_numbered (line : string) : bool :=
  match line with
  | String c _ => is_digit c && startswith (after_digits line) "."
  | EmptyString => false
  end.

(** [s.strip('#')]. *)
Fixpoint lstrip_hash (s : string) : string :=
  match s with
  | String c s' => if Ascii.eqb c "#"%char then lstrip_hash s' else s
  | EmptyString => s
  end.

Fixpoint rstrip_hash (s : string) : string :=
  match s with
  | EmptyString => EmptyString
  | String c s' =>
      match rstrip_hash s' with
      | EmptyString =>
          if Ascii.eqb c "#"%char then EmptyString else String c EmptyString
      | r => String c r
      end
  end.

Definition strip_hash (s : string) : string := rstrip_hash (lstrip_hash s).

(** ** knowledge/synthesize-patterns.py: [SQLiteDataPatternSynthesizer] *)

Module Synthesizer.

(** A synthesized pattern.  The last six keys exist for some pattern
    types only; where a dict has no such key the field is [None]. *)
Record Pattern : Type := mkPattern {
  id : string;
  title : string;
  problem : string;
  solution : string;
  pattern_type : string;
  folder : string;
  tags : list string;
  content : string;
  source_document : string;
  folder_path : string;
  code_examples : option (list string);
  performance_indicators : option (list string);
  migration_steps : option (list string);
  do_list : option (list string);
  dont_list : option (list string);
  functions_used : option (list string)
}.

(** The loop of [_split_into_sections]. *)
Fixpoint sections_scan (current_title current_section : string)
  (lines : list string) : list (string * string) :=
  let saved :=
    if String.eqb (strip current_section) "" then []
    else [(current_title, strip current_section)] in
  match lines with
  | [] => saved
  | line :: rest =>
      if startswith line "##" || startswith line "#"
      then saved ++ sections_scan (strip (strip_hash line)) "" rest
      else sections_scan current_title
             (current_section ++ line ++ String nl "") rest
  end.

Definition _split_into_sections (content : string) : list (string * string) :=
  sections_scan "Introduction" "" (split_on nl content).

(** The loop of [_extract_code_blocks]; an unclosed block is dropped. *)
Fixpoint code_blocks_scan (in_code_block : bool) (current_block : string)
  (lines : list string) : list string :=
  match lines with
  | [] => []
  | line :: rest =>
      if startswith line "```"
      then if in_code_block
           then strip current_block :: code_blocks_scan false "" rest
           else code_blocks_scan true current_block rest
      else if in_code_block
           then code_blocks_scan true
                  (current_block ++ line ++ String nl "") rest
           else code_blocks_scan false current_block rest
  end.

Definition _extract_code_blocks (content : string) : list string :=
  code_blocks_scan false "" (split_on nl content).

(** [pattern.get(key)] used as a condition: the key is there and its
    list is not empty. *)
Definition truthy (l : option (list string)) : list string :=
  match l with
  | Some items => items
  | None => []
  end.

Definition _format_pattern_content (pattern : Pattern) : string :=
  let n := String nl "" in
  let of_type (t : string) := String.eqb (pattern_type pattern) t in
  let bullets (items : list string) :=
    join n (map (fun item => "- " ++ item) items) in
  let section (cond : bool) (items : list string) (text : string) :=
    match items with
    | [] => ""
    | _ => if cond then text else ""
    end in
  "# " ++ title pattern ++ n ++ n
  ++ "## Problem" ++ n ++ problem pattern ++ n ++ n
  ++ "## Solution" ++ n ++ solution pattern ++ n ++ n
  ++ "## Pattern Type" ++ n ++ pattern_type pattern ++ n ++ n
  ++ "## Tags" ++ n ++ join ", " (tags pattern) ++ n ++ n
  ++ "## Source Document" ++ n ++ source_document pattern
  ++ " (Location: " ++ folder_path pattern ++ ")" ++ n ++ n
  ++ section (of_type "performance") (truthy (performance_indicators pattern))
       (n ++ "## Performance Indicators" ++ n
          ++ join ", " (truthy (performance_indicators pattern)) ++ n)
  ++ section (of_type "migration") (truthy (migration_steps pattern))
       (n ++ "## Migration Steps" ++ n
          ++ bullets (truthy (migration_steps pattern)) ++ n)
  ++ section (of_type "best_practice") (truthy (do_list pattern))
       (n ++ "## Do's" ++ n ++ bullets (truthy (do_list pattern)) ++ n)
  ++ section (of_type "best_practice") (truthy (dont_list pattern))
       (n ++ "## Don'ts" ++ n ++ bullets (truthy (dont_list pattern)) ++ n)
  ++ section (of_type "api_usage") (truthy (functions_used pattern))
       (n ++ "## Functions Used" ++ n
          ++ join ", " (truthy (functions_used pattern)) ++ n)
  ++ section true (truthy (code_examples pattern))
       (n ++ "## Code Examples" ++ n
          ++ join (n ++ n)
               (map (fun example => "```swift" ++ n ++ example ++ n ++ "```")
                  (firstn 2 (truthy (code_examples pattern))))
          ++ n)
  ++ n ++ "## Original Content" ++ n ++ take 1000 (content pattern)
  ++ "..." ++ n.

Section Synthesis.

(** The builtin [hash] on strings, salted per process. *)
Variable py_hash : string -> Z.

Variable re : Regex.

(** [f"{prefix}{hash(title) % 10000}"]. *)
Definition synthetic_id (prefix title : string) : string :=
  prefix ++ str_of_Z (py_hash title mod 10000).

Definition _create_performance_pattern (title content folder_path : string)
  : Pattern :=
  let numbers :=
    findall re "\d+(?:\.\d+)?x?\s*(?:times?|faster|slower|ms|seconds?)"
      content in
  let problem :=
    match search_group1 re "(?:problem|issue|challenge)[:\s]*([^.\n]+)"
            content with
    | Some g => strip g
    | None => "Performance optimization needed"
    end in
  let solution :=
    match search_group1 re "(?:solution|fix|recommendation)[:\s]*([^.\n]+)"
            content with
    | Some g => strip g
    | None => "Optimize database queries"
    end in
  mkPattern (synthetic_id "sqlitedata-perf-" title)
    ("Performance Pattern: " ++ title) problem solution "performance"
    "SQLiteData/Performance"
    ["sqlitedata"; "performance"; "optimization"; "database"; "swift"]
    content title folder_path
    (Some (_extract_code_blocks content)) (Some numbers)
    None None None None.

Definition _create_migration_pattern (title content folder_path : string)
  : Pattern :=
  let steps :=
    map strip
      (filter (fun line => match_numbered line || startswith (strip line) "-")
         (split_on nl content)) in
  mkPattern (synthetic_id "sqlitedata-migration-" title)
    ("Migration Pattern: " ++ title)
    "Need to migrate existing data or database structure"
    "Follow systematic migration process with proper validation"
    "migration" "SQLiteData/Migration"
    ["sqlitedata"; "migration"; "database"; "swift"; "data-migration"]
    content title folder_path
    None None (Some steps) None None None.

Definition _create_best_practice_pattern (title content folder_path : string)
  : Pattern :=
  let lines := map strip (split_on nl content) in
  let starts (line : string) (words : list string) :=
    existsb (startswith (lower line)) words in
  let dos := filter (fun line => starts line ["do "; "use "; "implement "])
               lines in
  let donts :=
    filter (fun line => negb (starts line ["do "; "use "; "implement "])
                        && starts line ["don't"; "avoid "; "never "])
      lines in
  mkPattern (synthetic_id "sqlitedata-best-practice-" title)
    ("Best Practice: " ++ title)
    "Need to follow established patterns for reliable implementation"
    "Apply best practices to avoid common pitfalls"
    "best_practice" "SQLiteData/BestPractices"
    ["sqlitedata"; "best-practices"; "swift"; "database"; "patterns"]
    content title folder_path
    None None None (Some dos) (Some donts) None.

(** [functions] is [list(set(...))]: the names without repeats. *)
Definition _create_api_pattern (title code_block folder_path : string)
  : Pattern :=
  let functions :=
    set_of (findall re "(?:func|let|var)\s+(\w+)" code_block) in
  mkPattern (synthetic_id "sqlitedata-api-" title)
    ("API Pattern: " ++ title)
    ("Need to use " ++ title ++ " correctly")
    ("Follow proper " ++ title ++ " usage pattern")
    "api_usage" "SQLiteData/API"
    ["sqlitedata"; "api"; "swift"; "extension"; hd "" functions]
    code_block title folder_path
    None None None None None (Some functions).

Definition _create_swift_pattern (title content folder_path : string)
  : Pattern :=
  mkPattern (synthetic_id "sqlitedata-swift-" title)
    ("Swift Pattern: " ++ title)
    "Need proper Swift implementation" "Follow Swift best practices"
    "swift_implementation" "SQLiteData/Swift"
    ["sqlitedata"; "swift"; "implementation"]
    content title folder_path
    None None None None None None.

Definition mentions (text : string) (keywords : list string) : bool :=
  existsb (fun keyword => contains keyword (lower text)) keywords.

Definition _extract_article_patterns (doc_id title content folder_path : string)
  : list Pattern :=
  flat_map
    (fun section =>
       let section_title := fst section in
       let section_content := snd section in
       let name := title ++ ": " ++ section_title in
       ((if mentions section_content
              ["performance"; "efficient"; "optimize"; "fast"; "slow"]
         then [_create_performance_pattern name section_content folder_path]
         else [])
        ++ (if mentions section_content
                 ["migration"; "migrate"; "convert"; "upgrade"]
            then [_create_migration_pattern name section_content folder_path]
            else [])
        ++ (if mentions section_content
                 ["best practice"; "recommend"; "should"; "avoid"]
            then [_create_best_practice_pattern name section_content
                    folder_path]
            else []))%list)
    (_split_into_sections content).

Definition _extract_extension_patterns
  (doc_id title content folder_path : string) : list Pattern :=
  map (fun code_block => _create_api_pattern title code_block folder_path)
    (filter
       (fun code_block =>
          contains "SQLiteData" code_block || contains "FetchAll" code_block
          || contains "FetchOne" code_block)
       (_extract_code_blocks content)).

Definition _extract_general_patterns
  (doc_id title content folder_path : string) : list Pattern :=
  if contains "```swift" content
  then [_create_swift_pattern title content folder_path] else [].

(** [SELECT id, title, content, folder_path, doc_type FROM reference
    WHERE library = 'SQLiteData'] and the dispatch on [doc_type]. *)
Definition extract_patterns_from_reference (db : Store) : Res (list Pattern) :=
  rows <- from_table (reference db) ;;
  Ok (flat_map
        (fun r =>
           let extract :=
             if String.eqb (ref_doc_type r) "article"
             then _extract_article_patterns
             else if String.eqb (ref_doc_type r) "extension"
             then _extract_extension_patterns
             else _extract_general_patterns in
           extract (ref_id r) (ref_title r) (ref_content r)
             (ref_folder_path r))
        (filter (fun r => String.eqb (ref_library r) "SQLiteData") rows)).

End Synthesis.

(** One turn of the loop of [save_synthesized_patterns]. *)
Definition save_pattern (db : Store) (pattern : Pattern) : Res Store :=
  let content := _format_pattern_content pattern in
  rows <- from_table (patterns db) ;;
  let rowid := next_rowid pat_rowid rows in
  let row :=
    mkPatternRow rowid (id pattern) (title pattern) content
      (folder pattern) (folder_path pattern) "synthesized_pattern"
      "SQLiteData" (problem pattern ++ ": " ++ solution pattern)
      (tags pattern) (length (split content)) in
  let db :=
    set_patterns db
      (if patterns_unique_id db then insert_or_replace pat_id row rows
       else rows ++ [row]) in
  idx <- from_table (patterns_fts db) ;;
  Ok (set_patterns_fts db
        (idx ++ [mkFtsEntry rowid
                   [content; title pattern; folder pattern;
                    json_dumps (tags pattern)]])).

(** Nothing is committed unless every turn went through. *)
Fixpoint save_synthesized_patterns (db : Store) (patterns : list Pattern)
  : Res Store :=
  match patterns with
  | [] => Ok db
  | pattern :: rest =>
      db' <- save_pattern db pattern ;;
      save_synthesized_patterns db' rest
  end.

(** [main]: extract, and save when anything was extracted. *)
Definition synthesize (py_hash : string -> Z) (re : Regex) (db : Store)
  : Res Store :=
  patterns <- extract_patterns_from_reference py_hash re db ;;
  match patterns with
  | [] => Ok db
  | _ => save_synthesized_patterns db patterns
  end.

End Synthesizer.

(** ** knowledge/synthesize-composable-patterns.py: the conceptual pattern *)

Module ComposableSynthesizer.

Record ConceptualPattern : Type := mkConceptualPattern {
  id : string;
  title : string;
  problem : string;
  solution : string;
  pattern_type : string;
  folder : string;
  tags : list string;
  content : string;
  key_concepts : list string;
  main_concept : string;
  source_document : string;
  folder_path : string
}.

(** [s.replace(" ", with_)] for a replacement of at most one character. *)
Fixpoint replace_space (with_ : string) (s : string) : string :=
  match s with
  | EmptyString => EmptyString
  | String c s' =>
      (if Ascii.eqb c " "%char then with_ else String c "")
        ++ replace_space with_ s'
  end.

Definition _create_conceptual_pattern (py_hash : string -> Z)
  (title content folder_path : string) : ConceptualPattern :=
  let concepts :=
    map strip
      (filter
         (fun line =>
            existsb (fun keyword => contains keyword (lower line))
              ["should"; "recommend"; "principle"; "pattern"; "approach"]
            && (20 <? String.length line)%nat
            && (String.length line <? 150)%nat)
         (split_on nl content)) in
  let main_concept :=
    if contains "state" (lower title) then "State Management"
    else if contains "composition" (lower title) then "Feature Composition"
    else if contains "testing" (lower title) then "Testing Strategy"
    else if contains "navigation" (lower title) then "Navigation Pattern"
    else "TCA Concept" in
  mkConceptualPattern
    ("tca-concept-" ++ str_of_Z (py_hash title mod 10000))
    ("TCA Concept: " ++ title)
    ("Need to understand and apply " ++ main_concept ++ " in TCA")
    ("Follow " ++ main_concept
       ++ " principles for consistent TCA implementation")
    "tca_concept"
    ("ComposableArchitecture/" ++ replace_space "" main_concept)
    ["tca"; "concept"; "architecture"; "composable-architecture";
     replace_space "-" (lower main_concept)]
    content (firstn 5 concepts) main_concept title folder_path.

End ComposableSynthesizer.

(** ** Vocabulary of the properties *)

Module DetectorSpec.

Import DuplicateDetector.


(** [hits] out of [total], and 0 out of nothing. *)
Definition fraction (hits total : nat) : Q :=
  if (total =? 0)%nat then 0%Q else (Q_of_nat hits / Q_of_nat total)%Q.

Fixpoint Qsum (qs : list Q) : Q :=
  match qs with
  | [] => 0%Q
  | q :: rest => (q + Qsum rest)%Q
  end.

(** The sample of a library: the content of its first five documents. *)
Definition sample_of (db : Store) (existing_lib : string) : list string :=
  match select_sample_content db existing_lib with
  | Ok samples => samples
  | Raise _ => []
  end.

Definition existing_libraries (db : Store) : list string :=
  match reference db with
  | Some rows => distinct (map ref_library rows)
  | None => []
  end.

(** The tags found in the sample. *)
Definition sample_tags (db : Store) (existing_lib : string) : list string :=
  set_of (flat_map _extract_tags (sample_of db existing_lib)).

(** The share of the candidate's tags that the sample has too. *)
Definition tag_fraction (db : Store) (tags : list string)
  (existing_lib : string) : Q :=
  fraction (length (filter (fun t => set_mem t (sample_tags db existing_lib))
                      (set_of tags)))
    (length tags).

(** The claimed content term: of the candidate's words, the share that
    occurs in a sample document, averaged over the sample documents. *)
Definition words_present (content sample : string) : nat :=
  length (filter (fun w => set_mem w (split (lower sample)))
            (split (lower content))).

Definition claimed_content_fraction (db : Store) (content : string)
  (existing_lib : string) : Q :=
  let samples := sample_of db existing_lib in
  match samples with
  | [] => 0%Q
  | _ =>
      (Qsum (map (fun sample =>
                    fraction (words_present content sample)
                      (length (split content)))
               samples)
       / Q_of_nat (length samples))%Q
  end.

Definition claimed_overlap_score (db : Store) (content : string)
  (tags : list string) (existing_lib : string) : Q :=
  ((4#10) * tag_fraction db tags existing_lib
   + (6#10) * claimed_content_fraction db content existing_lib)%Q.

(** The same with every word counted once: of the candidate's distinct
    words, the share that occurs in a sample document. *)
Definition distinct_words_present (content sample : string) : nat :=
  length (filter (fun w => set_mem w (split (lower sample)))
            (set_of (split (lower content)))).

Definition claimed_distinct_fraction (db : Store) (content : string)
  (existing_lib : string) : Q :=
  let samples := sample_of db existing_lib in
  match samples with
  | [] => 0%Q
  | _ =>
      (Qsum (map (fun sample =>
                    fraction (distinct_words_present content sample)
                      (length (set_of (split (lower content)))))
               samples)
       / Q_of_nat (length samples))%Q
  end.

Definition claimed_distinct_score (db : Store) (content : string)
  (tags : list string) (existing_lib : string) : Q :=
  ((4#10) * tag_fraction db tags existing_lib
   + (6#10) * claimed_distinct_fraction db content existing_lib)%Q.

(** The files the topic-overlap pass reports, each with the library it
    is reported against. *)
Definition reported_against (overlaps : list TopicOverlap)
  : list (string * string) :=
  map (fun o => (to_new_file o, to_existing_library o)) overlaps.

End DetectorSpec.

(** ** Vocabulary of the properties: keyed tables *)

(** How many rows of a table hold the id [x]. *)
Definition occurrences {R : Type} (id : R -> string) (x : string)
  (rows : list R) : nat :=
  length (filter (fun r => String.eqb (id r) x) rows).

(** [rows'] comes from [rows] by one [INSERT OR REPLACE] per id of
    [ids], in that order, each of some row that holds the id. *)
Inductive Upserts {R : Type} (id : R -> string)
  : list string -> list R -> list R -> Prop :=
| upserts_done (rows : list R) : Upserts id [] rows rows
| upserts_step (row : R) (ids : list string) (rows rows' : list R) :
    Upserts id ids (insert_or_replace id row rows) rows' ->
    Upserts id (id row :: ids) rows rows'.

(** The ids one import run writes, in order: one per file it could
    read. *)
Definition imported_ids (py_hash : string -> Z) (fs : FileSystem)
  (library_name : string) (found : list (string * string)) : list string :=
  flat_map
    (fun md_file =>
       match read_text fs (fst md_file) with
       | Ok _ => [Migrator.doc_id py_hash library_name (snd md_file)]
       | Raise _ => []
       end)
    found.

(** The ids of the rows of the reference table, and of the patterns
    table. *)
Definition reference_ids (db : Store) : list string :=
  match reference db with
  | Some rows => map ref_id rows
  | None => []
  end.

Definition pattern_ids (db : Store) : list string :=
  match patterns db with
  | Some rows => map pat_id rows
  | None => []
  end.

(** What a run leaves behind in the store, [db] itself when it raised
    (nothing was committed). *)
Definition committed (db : Store) (run : Res Store) : Store :=
  match run with
  | Ok db' => db'
  | Raise _ => db
  end.

(** ** Vocabulary of the properties: search *)

(** The detail levels at which a pattern hit, and a reference hit, is
    answered by the token-optimized search. *)
Definition known_for_patterns (detail_level : string) : bool :=
  String.eqb detail_level "summary" || String.eqb detail_level "details"
  || String.eqb detail_level "full".

Definition known_for_reference (detail_level : string) : bool :=
  String.eqb detail_level "summary" || String.eqb detail_level "full".

(** The characters [clean_query] replaces. *)
Definition listed_char (c : ascii) : bool :=
  existsb (Ascii.eqb c) ["@"; ":"; "("; ")"; "."]%char.

(** ** Sample stores and directories *)

Module Fixtures.

(** A reference row with the given key columns; the other columns are
    what the importer derives for a file at the top of its directory. *)
Definition reference_row (rowid : Z) (id title content library file : string)
  : ReferenceRow :=
  mkReferenceRow rowid id title content "root" "documentation" library file
    (length (split content)) content [].

(** A directory [docs] that holds the one file [name] with the given
    content. *)
Definition one_file (name content : string) : FileSystem :=
  mkFileSystem
    (fun root =>
       if String.eqb root "docs" then Some [("docs/" ++ name, name)]
       else None)
    (fun path =>
       if String.eqb path ("docs/" ++ name) then Ok content
       else Raise OSError).

(** A store whose reference table holds one document of library [Lib],
    with the given content. *)
Definition store_with (content : string) : Store :=
  mkStore None None None false None
    (Some [reference_row 1 "Lib_a_1" "A" content "Lib" "a.md"])
    (Some [mkFtsEntry 1 [content; "A"; "root"; "documentation"; "Lib";
                         content]]).

(** A note that repeats its words: 11 words, 4 of them distinct, and
    no technology tag. *)
Definition repeated_note : string :=
  "retry the request then retry the request then retry the request".

(** A list of four technologies, each word followed by punctuation. *)
Definition four_technologies : string := "Swift, UIKit, Metal, ARKit.".

(** A stand-in for [md5_hex], the identity: the duplicate analyzer
    stores the digest of a file and never reads it, and the cache only
    needs one key per query. *)
Definition stub_md5 (s : string) : string := s.

(** The same text as ["a b"], with a longer gap and two line ends. *)
Definition spaced_a_b : string :=
  "a  b" ++ String nl (String nl "").

(** An engine that accepts every token sequence and matches every
    index row, in index order. *)
Definition match_all : Fts5Engine :=
  mkFts5Engine (fun _ => true) (fun _ index => index) (fun _ _ => "").

(** The clock that reads 0, 1, 2, ... seconds. *)
Definition seconds : Clock := fun n => Q_of_nat n.

(** A store with one pattern and one reference document, both indexed. *)
Definition store_with_pattern : Store :=
  mkStore None None
    (Some [mkPatternRow 1 "p1" "Swift basics" "Use structs." "swift" "swift"
             "pattern" "maxwell" "" ["swift"] 2])
    true
    (Some [mkFtsEntry 1 ["Use structs."; "Swift basics"; "swift"; "swift"]])
    (Some [reference_row 1 "Lib_a_1" "A" "Use structs." "Lib" "a.md"])
    (Some [mkFtsEntry 1 ["Use structs."; "A"; "root"; "documentation"; "Lib";
                         "Use structs."]]).

(** A store as [MaxwellKnowledgeBase] sets it up, with one document. *)
Definition store_with_knowledge : Store :=
  mkStore
    (Some [mkKnowledgeRow 1 "swift.md" "Swift basics" "Use structs." "swift"
             ["swift"]])
    (Some [mkFtsEntry 1 ["Use structs."; "Swift basics"; "swift"; "swift"]])
    None false None None None.

(** Answer formatters that return the title. *)
Definition title_only_pattern (hit : HybridSearch.PatternHit) : string :=
  HybridSearch.ph_title hit.

Definition title_only_reference (hit : HybridSearch.ReferenceHit) : string :=
  HybridSearch.rh_title hit.

(** A session of [MaxwellHybridKnowledgeBase] that has answered
    nothing. *)
Definition fresh_hybrid_kb : HybridSearch.KB :=
  HybridSearch.mkKB (HybridSearch.mkStats 0 0 0 []) 0.

(** Helpers of the token-optimized search that return the title. *)
Definition title_only (hit : TokenOptimized.PatternHit) : string :=
  TokenOptimized.ph_title hit.

Definition no_points (hit : TokenOptimized.PatternHit) : list string := [].

Definition no_preview (hit : TokenOptimized.ReferenceHit) : string := "".

(** A session of [MaxwellKnowledgeBase] that has answered nothing. *)
Definition fresh_kb : KnowledgeBase.KB :=
  KnowledgeBase.mkKB (KnowledgeBase.mkStats 0 0 0 []) [] 0.

(** A session whose cache holds 50 entries, under the keys [0] to
    [49], oldest first. *)
Definition cached_answer : KnowledgeBase.Result :=
  KnowledgeBase.mkResult "reasoning_required" "" "general_reasoning" 0
    "Applied general development principles and best practices" None.

Definition full_kb : KnowledgeBase.KB :=
  KnowledgeBase.mkKB (KnowledgeBase.mkStats 50 0 0 [])
    (map (fun n => (str_of_Z (Z.of_nat n), cached_answer)) (seq 0 50)) 150.

(** [solve_developer_problem("swift")] over the one-document store,
    with the four advice texts left empty. *)
Definition solve_swift (kb : KnowledgeBase.KB)
  : Res (KnowledgeBase.Result * KnowledgeBase.KB) :=
  KnowledgeBase.solve_developer_problem seconds stub_md5 "" "" "" ""
    match_all store_with_knowledge kb "swift".

(** The builtin [hash] of CPython 3.11 on the strings used below, in an
    interpreter started with [PYTHONHASHSEED=1] and in one started with
    [PYTHONHASHSEED=2]; no other string is hashed below. *)
Definition hash_seed_1 (s : string) : Z :=
  if String.eqb s "guide.md" then 5444346576856950855
  else if String.eqb s "Queries: Introduction" then 271245904856172696
  else if String.eqb s "Managing State" then (-7239272779769931896)
  else 0.

Definition hash_seed_2 (s : string) : Z :=
  if String.eqb s "guide.md" then 5453766447660779482
  else if String.eqb s "Queries: Introduction" then 1949906476869327081
  else if String.eqb s "Managing State" then (-1020902986252991252)
  else 0.

(** A directory [docs] with the one file [guide.md]. *)
Definition guide_directory : FileSystem :=
  one_file "guide.md" "# Guide".

(** A store with an empty reference table and its index. *)
Definition store_without_documents : Store :=
  mkStore None None None false None (Some []) (Some []).

(** A regex engine that finds nothing; on the article below that is
    what [re] finds, since it holds no digit and none of the words the
    two search patterns look for. *)
Definition finds_nothing : Regex :=
  mkRegex (fun _ _ => []) (fun _ _ => None).

(** A store with one [SQLiteData] article and an empty patterns table
    that carries the uniqueness constraint on [id]. *)
Definition store_with_article : Store :=
  mkStore None None (Some []) true (Some [])
    (Some [mkReferenceRow 1 "SQLiteData_queries_1" "Queries"
             "Fast queries need an index." "Articles" "article"
             "SQLiteData" "Articles/queries.md" 5 "Queries"
             ["sqlitedata"; "article"]])
    (Some []).

End Fixtures.

(** ** tools/duplicate_detector.py: titles of one content type *)

Module DetectorVersions.

(** [set(title.lower().replace('-', ' ').split())]. *)
Definition title_words (title : string) : list string :=
  set_of (split (replace_char "-"%char (lower title))).

(** [len(common) >= 3 or (len(common) > 0 and len(common) / min(...) >
    0.5)]: the division is reached only when a word is shared. *)
Definition _is_same_content_type (title1 title2 : string) : Res bool :=
  let words1 := title_words title1 in
  let words2 := title_words title2 in
  let common_words := set_inter words1 words2 in
  if (3 <=? length common_words)%nat then Ok true
  else if (0 <? length common_words)%nat
  then
    ratio <- truediv (Q_of_nat (length common_words))
               (Q_of_nat (Nat.min (length words1) (length words2))) ;;
    Ok (Qgt_bool ratio (1#2))
  else Ok false.

End DetectorVersions.

(** ** knowledge/maxwell-token-optimized.py: the detail helpers *)

Module TokenDetails.

(** [line.startswith((p1, p2, ...))]. *)
Definition startswith_any (line : string) (prefixes : list string) : bool :=
  existsb (startswith line) prefixes.

(** [_extract_key_points], on the [content] of the hit.  The tuple of
    list markers of the source also holds the bullet U+2022, which no
    string of this model starts with. *)
Definition _extract_key_points (content : string) : list string :=
  let key_points :=
    flat_map
      (fun line =>
         let line := strip line in
         if startswith_any line ["1."; "2."; "3."; "-"]
         then [if (80 <? String.length line)%nat
               then take 77 line ++ "..." else line]
         else if startswith_any line ["Problem:"; "Solution:"; "Key Points:"]
         then [line]
         else [])
      (firstn 20 (split_on nl content)) in
  firstn 5 key_points.

Definition _extract_detailed_key_points (content : string) : list string :=
  let key_points :=
    filter
      (fun line =>
         startswith_any line ["##"; "###"]
         || startswith_any (lower line)
              ["note:"; "important:"; "remember:"; "consider:"]
         || startswith_any line
              ["1."; "2."; "3."; "4."; "5."; "6."; "7."; "8."; "9."]
            && (String.length line <? 100)%nat)
      (map strip (split_on nl content)) in
  firstn 10 key_points.

(** The dict [expand_details] returns: [content] is a list of lines or
    a text, [None] where the source writes [None]; a key the dict does
    not hold is [None] as well. *)
Inductive DetailContent : Type :=
| Lines (items : list string)
| Text (text : string).

Record Detail : Type := mkDetail {
  detail_type : string;
  content : option DetailContent;
  source_id : option string;
  error : option string
}.

(** [SELECT * FROM patterns WHERE id = ?] and [fetchone()]: the first
    row that holds the id.  The callers read the [content] of the dict
    only, the third column of the table. *)
Definition _get_pattern_by_id (db : Store) (pattern_id : string)
  : Res (option PatternRow) :=
  rows <- from_table (patterns db) ;;
  Ok (find (fun r => String.eqb (pat_id r) pattern_id) rows).

Definition _get_reference_by_id (db : Store) (reference_id : string)
  : Res (option ReferenceRow) :=
  rows <- from_table (reference db) ;;
  Ok (find (fun r => String.eqb (ref_id r) reference_id) rows).

Section Expand.

(** [re.findall(r'```swift\n(.*?)\n```', content, re.DOTALL)]. *)
Variable swift_blocks : string -> list string.

Definition _extract_code_examples (content : string) : list string :=
  map (fun block =>
         if (200 <? String.length block)%nat
         then join (String nl "") (firstn 3 (split_on nl block))
                ++ String nl "..."
         else block)
    (firstn 3 (swift_blocks content)).

Definition not_found (detail_type : string) : Detail :=
  mkDetail detail_type None None (Some "Detail not found").

(** [query] is accepted and never read. *)
Definition expand_details (db : Store) (query detail_type source_id : string)
  : Res Detail :=
  let is_pattern_id :=
    startswith_any source_id ["sqlitedata-"; "structured-queries-"] in
  if String.eqb detail_type "key_points" then
    if is_pattern_id then
      pattern_result <- _get_pattern_by_id db source_id ;;
      match pattern_result with
      | Some row =>
          Ok (mkDetail "key_points"
                (Some (Lines (_extract_detailed_key_points (pat_content row))))
                (Some source_id) None)
      | None => Ok (not_found detail_type)
      end
    else Ok (not_found detail_type)
  else if String.eqb detail_type "code_examples" then
    if is_pattern_id then
      pattern_result <- _get_pattern_by_id db source_id ;;
      match pattern_result with
      | Some row =>
          Ok (mkDetail "code_examples"
                (Some (Lines (_extract_code_examples (pat_content row))))
                (Some source_id) None)
      | None => Ok (not_found detail_type)
      end
    else Ok (not_found detail_type)
  else if String.eqb detail_type "full_content" then
    reference_result <- _get_reference_by_id db source_id ;;
    match reference_result with
    | Some row =>
        Ok (mkDetail "full_content" (Some (Text (ref_content row)))
              (Some source_id) None)
    | None => Ok (not_found detail_type)
    end
  else Ok (not_found detail_type).

End Expand.

End TokenDetails.

(** ** knowledge/maxwell-knowledge-base.py: [_extract_metadata] *)

Module KnowledgeImport.

(** [line.split(':', 1)] when [':' in line]: the text before the first
    separator and the text after it. *)
Fixpoint split_once (sep : ascii) (s : string) : option (string * string) :=
  match s with
  | EmptyString => None
  | String c s' =>
      if Ascii.eqb c sep then Some ("", s')
      else match split_once sep s' with
           | Some (before, after) => Some (String c before, after)
           | None => None
           end
  end.

(** [s.strip(chars)]. *)
Fixpoint lstrip_chars (chars : ascii -> bool) (s : string) : string :=
  match s with
  | String c s' => if chars c then lstrip_chars chars s' else s
  | EmptyString => s
  end.

Fixpoint rstrip_chars (chars : ascii -> bool) (s : string) : string :=
  match s with
  | EmptyString => EmptyString
  | String c s' =>
      match rstrip_chars chars s' with
      | EmptyString => if chars c then EmptyString else String c EmptyString
      | r => String c r
      end
  end.

Definition strip_chars (chars : ascii -> bool) (s : string) : string :=
  rstrip_chars chars (lstrip_chars chars s).

(** The double and the single quote, the characters [value.strip]
    is given. *)
Definition is_quote (c : ascii) : bool :=
  let n := nat_of_ascii c in ((n =? 34) || (n =? 39))%nat.

Definition endswith (s suffix : string) : bool :=
  (String.length suffix <=? String.length s)%nat
  && String.eqb (drop (String.length s - String.length suffix) s) suffix.

(** [s.replace(c, '')] for a one-character [c]. *)
Fixpoint remove_char (c : ascii) (s : string) : string :=
  match s with
  | EmptyString => EmptyString
  | String d s' =>
      if Ascii.eqb d c then remove_char c s' else String d (remove_char c s')
  end.

(** One line of the front matter, on the three variables it may set. *)
Definition frontmatter_line (vars : string * string * list string)
  (line : string) : string * string * list string :=
  let '(title, folder, tags) := vars in
  let line := strip line in
  match split_once ":"%char line with
  | None => vars
  | Some (key, value) =>
      let key := strip key in
      let value := strip value in
      if String.eqb key "title" then (strip_chars is_quote value, folder, tags)
      else if String.eqb key "category" then (title, strip value, tags)
      else if String.eqb key "tags" then
        if startswith value "[" && endswith value "]"
        then
          let tags_str := take (String.length value - 2) (drop 1 value) in
          (title, folder,
           map (fun tag => strip_chars is_quote (strip tag))
             (filter (fun tag => negb (String.eqb (strip tag) ""))
                (split_on ","%char tags_str)))
        else (title, folder, [strip value])
      else vars
  end.

(** The chain of [any(term in filename_lower or term in content_lower
    ...)] tests that chooses a folder. *)
Definition any_term (filename_lower content_lower : string)
  (terms : list string) : bool :=
  existsb
    (fun term => contains term filename_lower || contains term content_lower)
    terms.

Definition folder_by_terms (filename_lower content_lower : string) : string :=
  let any := any_term filename_lower content_lower in
  if any ["tca"; "reducer"; "state"; "scope"; "pointfree"] then "tca"
  else if any ["swiftui"; "stateobject"; "observedobject"; "@state"]
  then "swiftui"
  else if any ["visionos"; "spatial"; "realitykit"; "shareplay"; "arkit"]
  then "visionos"
  else if any ["smith"; "agent"; "maxwell"; "skill"] then "smith"
  else if any ["error"; "compilation"; "debug"; "fix"] then "errors"
  else if any ["architecture"; "pattern"; "design"; "module"]
  then "architecture"
  else if any ["ios"; "macos"; "ipados"; "platform"] then "platform-specific"
  else "general".

Definition tag_patterns : list string :=
  ["#swiftui"; "#tca"; "#ios"; "#macos"; "#visionos"; "#ipados";
   "#stateobject"; "#observedobject"; "#shared"; "#reducer";
   "#compilation"; "#error"; "#fix"; "#solution"; "#pattern";
   "#architecture"; "#performance"; "#memory"; "#debugging";
   "#swift"; "#xcode"; "#testing"; "#navigation"; "#state"].

(** [re.search(pattern, content, re.IGNORECASE)] for one of the
    patterns above: each is a literal text of ASCII letters after a
    [#], so it matches where it occurs in the lower-cased content. *)
Definition search_ignorecase (pattern content : string) : bool :=
  contains pattern (lower content).

Definition tags_by_patterns (content : string) : list string :=
  fold_left
    (fun tags pattern =>
       if search_ignorecase pattern content
       then let tag := remove_char "#"%char pattern in
            if set_mem tag tags then tags else (tags ++ [tag])%list
       else tags)
    tag_patterns [].

Section Metadata.

(** The builtin [str.title]. *)
Variable str_title : string -> string.

(** [file_path] is the path of the file; nothing in the [try] block
    raises. *)
Definition _extract_metadata (content file_path : string)
  : string * string * list string :=
  let default_title :=
    str_title
      (replace_char "_"%char (replace_char "-"%char (path_stem file_path))) in
  let dashes := "---" ++ String nl "" in
  let parsed :=
    if startswith content dashes
    then match index 4 (String nl dashes) content with
         | Some frontmatter_end =>
             let frontmatter_content :=
               substring 4 (frontmatter_end - 4) content in
             let body_content := drop (frontmatter_end + 5) content in
             (fold_left frontmatter_line
                (split_on nl frontmatter_content) (default_title, "", []),
              body_content)
         | None => ((default_title, "", []), content)
         end
    else ((default_title, "", []), content) in
  let '(title, folder, tags, body_content) := parsed in
  let title :=
    if String.eqb title default_title
    then match
           find (fun line => startswith line "# ")
             (firstn 10 (split_on nl body_content))
         with
         | Some line => strip (drop 2 line)
         | None => title
         end
    else title in
  let folder :=
    if String.eqb folder ""
    then folder_by_terms (lower (path_name file_path)) (lower content)
    else folder in
  let tags :=
    match tags with
    | [] => tags_by_patterns content
    | _ => tags
    end in
  (title, folder, tags).

End Metadata.

End KnowledgeImport.

(** ** Vocabulary of the properties: queries and counters *)

(** The characters of a string. *)
Definition chars (s : string) : list ascii := list_ascii_of_string s.

(** A character the FTS5 tokenizer takes outside a quoted string. *)
Definition fts5_plain (c : ascii) : bool :=
  fts5_isbareword c || fts5_isspace c
  || match fts5_punctuation c with Some _ => true | None => false end.

(** A character of a word or white space, or one that [clean_query]
    turns into a space. *)
Definition word_or_listed (c : ascii) : bool :=
  fts5_isbareword c || fts5_isspace c || listed_char c.

(** A character that makes the tokenizer fail wherever it stands outside
    a quoted string, and that [clean_query] leaves in place. *)
Definition fts5_rejected (c : ascii) : bool :=
  negb (fts5_plain c) && negb (is_dquote c) && negb (is_nul c)
  && negb (listed_char c).

Definition no_quote_or_nul (c : ascii) : bool :=
  negb (is_dquote c) && negb (is_nul c).

(** The counters of a [MaxwellKnowledgeBase] add up: every query
    answered was either served from the cache or timed, and a hit in
    the knowledge table was timed. *)
Definition counters_add_up (kb : KnowledgeBase.KB) : Prop :=
  let st := KnowledgeBase.stats kb in
  (length (KnowledgeBase.response_times st) + KnowledgeBase.cache_hits st
   = KnowledgeBase.total_queries st)%nat
  /\ (KnowledgeBase.kb_hits st <= length (KnowledgeBase.response_times st))%nat.

(** The counters of a [MaxwellHybridKnowledgeBase]: one response time
    per hit, and no more hits than queries. *)
Definition hits_are_timed (kb : HybridSearch.KB) : Prop :=
  let st := HybridSearch.stats kb in
  (length (HybridSearch.response_times st)
   = HybridSearch.pattern_hits st + HybridSearch.reference_hits st)%nat
  /\ (HybridSearch.pattern_hits st + HybridSearch.reference_hits st
      <= HybridSearch.total_queries st)%nat.

(** How many lines open or close a code block. *)
Definition fence_lines (lines : list string) : nat :=
  length (filter (fun line => startswith line "```") lines).

(** The five prefixes of the ids of synthesized SQLiteData patterns. *)
Definition pattern_id_prefixes : list string :=
  ["sqlitedata-perf-"; "sqlitedata-migration-"; "sqlitedata-best-practice-";
   "sqlitedata-api-"; "sqlitedata-swift-"].

(** What [clean_query] does to one character. *)
Definition clean_char (c : ascii) : ascii :=
  if listed_char c then " "%char else c.

(** The state of the tokenizer outside a quoted string. *)
Definition unquoted (st : Fts5Lex) : Prop :=
  match st with
  | Between | InBareword _ => True
  | InQuoted _ | AfterQuote _ => False
  end.

(** A token that is a word: a bareword or one of the three operators a
    bareword can spell. *)
Definition is_word (t : Fts5Token) : bool :=
  match t with
  | FTS5_STRING _ | FTS5_OR | FTS5_NOT | FTS5_AND => true
  | _ => false
  end.

(** Facts about one character are checked on the 256 characters. *)
Ltac by_cases_on c :=
  destruct c as [[] [] [] [] [] [] [] []]; vm_compute;
  intros; try discriminate; try reflexivity; auto.

(** ** Vocabulary of the properties: imported rows *)

(** The document types the importer assigns. *)
Definition document_types : list string :=
  ["article"; "extension"; "api"; "tutorial"; "documentation"].

(** What holds of a row the importer writes for a library. *)
Definition imported_row (library_name : string) (r : ReferenceRow) : Prop :=
  ref_library r = library_name
  /\ In (ref_doc_type r) document_types
  /\ ref_folder_path r <> "."
  /\ ref_word_count r = length (split (ref_content r))
  /\ NoDup (ref_tags r)
  /\ In (lower library_name) (ref_tags r)
  /\ In (ref_doc_type r) (ref_tags r).

(** The ids, and the rowids, of a table are pairwise distinct. *)
Definition keys_unique (rows : list ReferenceRow) : Prop :=
  NoDup (map ref_id rows) /\ NoDup (map ref_rowid rows).

(** ** Further sample stores and documents *)

Module Samples.

(** The text of the given lines, each ended by a line feed. *)
Definition text_of (lines : list string) : string :=
  fold_right (fun line rest => line ++ String nl rest) "" lines.

(** An extension document with two Swift code blocks. *)
Definition two_fetch_blocks : string :=
  text_of ["Fetching rows."; "```swift"; "FetchAll(items)"; "```";
           "One row."; "```swift"; "FetchOne(item)"; "```"].

(** A stand-in for the builtin [hash]: what is shown with it holds for
    every hash function. *)
Definition stand_in_hash (s : string) : Z := Z.of_nat (String.length s).

(** A store with an empty patterns table that carries the uniqueness
    constraint on [id], its empty index, and no reference table. *)
Definition store_for_patterns : Store :=
  mkStore None None (Some []) true (Some []) None None.

End Samples.

(** ** Vocabulary of the properties: synthesized patterns *)

(** An id made of one of the five prefixes and a number below 10000. *)
Definition synthesized_id (x : string) : Prop :=
  exists prefix n,
    In prefix pattern_id_prefixes /\ (0 <= n < 10000)%Z
    /\ x = prefix ++ str_of_Z n.

(** How many lines of a document are headings for
    [_split_into_sections]. *)
Definition heading_lines (lines : list string) : nat :=
  length (filter (fun line => startswith line "#") lines).

(** A text without white space at either end. *)
Definition trimmed (s : string) : Prop := strip s = s.

(** ** Vocabulary of the properties: metadata *)

(** The folder of the triple [_extract_metadata] returns. *)
Definition metadata_folder (metadata : string * string * list string)
  : string :=
  snd (fst metadata).

(** The three labels [_extract_key_points] keeps whole. *)
Definition key_point_labels : list string :=
  ["Problem:"; "Solution:"; "Key Points:"].

(** * Properties *)

(** ** Loops and sets *)

Lemma for_each_keeps_state {A S : Type} (xs : list A)
  (body : A -> S -> S * option exn) (s : S) :
  (forall x s0, In x xs -> fst (body x s0) = s0) ->
  fst (for_each xs body s) = s.
Proof.
  revert s. induction xs as [|x xs IH]; intros s Hbody; simpl.
  - reflexivity.
  - pose proof (Hbody x s (or_introl eq_refl)) as Hx.
    destruct (body x s) as [s' [e|]]; simpl in Hx; subst s'.
    + reflexivity.
    + apply IH. intros y s0 Hy. apply Hbody. now right.
Qed.

Lemma set_mem_app (x : string) (s t : list string) :
  set_mem x (s ++ t) = set_mem x s || set_mem x t.
Proof. unfold set_mem. apply existsb_app. Qed.

Lemma set_mem_add (x y : string) (s : list string) :
  set_mem x (set_add y s) = String.eqb x y || set_mem x s.
Proof.
  unfold set_add. destruct (set_mem y s) eqn:Hy.
  - destruct (String.eqb_spec x y) as [->|_]; simpl; [now rewrite Hy | reflexivity].
  - rewrite set_mem_app. simpl. unfold set_mem at 2. simpl.
    rewrite orb_false_r. apply orb_comm.
Qed.


Lemma set_update_flat_map {A : Type} (g : A -> list string) (l : list A)
  (s : list string) :
  fold_left (fun acc a => set_update acc (g a)) l s
  = set_update s (flat_map g l).
Proof.
  revert s. induction l as [|a l IH]; intros s; simpl.
  - reflexivity.
  - rewrite IH. unfold set_update. now rewrite fold_left_app.
Qed.

Lemma fold_left_add_sum {A : Type} (f : A -> nat) (l : list A) (n : nat) :
  fold_left (fun acc a => (acc + f a)%nat) l n = (n + list_sum (map f l))%nat.
Proof.
  revert n. induction l as [|a l IH]; intros n; simpl.
  - lia.
  - rewrite IH. lia.
Qed.

(** ** The duplicate analyzer *)

Section DetectorFacts.

Import DuplicateDetector.

Variable md5_hex : string -> string.
Variable find_version_conflicts :
  Store -> list FileInfo -> string -> list VersionConflict.

(** A directory that does not exist yields no candidate file. *)
Lemma get_document_files_missing_path (fs : FileSystem) (docs_path : string) :
  rglob_md fs docs_path = None ->
  _get_document_files md5_hex fs docs_path = [].
Proof. intros H. unfold _get_document_files. now rewrite H. Qed.

(** Every row the exact-duplicate pass selects is a 4-tuple, so every
    value of the dict built from the rows is one. *)
Lemma dict_set_values {K V : Type} (eqb : K -> K -> bool) (P : V -> Prop)
  (k : K) (v : V) (d : list (K * V)) :
  P v -> Forall (fun kv => P (snd kv)) d ->
  Forall (fun kv => P (snd kv)) (dict_set eqb k v d).
Proof.
  intros Hv. induction 1 as [|[k' v'] d Hkv Hd IH]; simpl.
  - now constructor.
  - destruct (eqb k' k); constructor; auto.
Qed.

Lemma dict_by_title_content_values (rows : list (list string)) :
  Forall (fun row => length row = 4%nat) rows ->
  Forall (fun kv => length (snd kv) = 4%nat) (dict_by_title_content rows).
Proof.
  unfold dict_by_title_content.
  assert (G : forall d,
             Forall (fun kv : (string * string) * list string =>
                       length (snd kv) = 4%nat) d ->
             Forall (fun row => length row = 4%nat) rows ->
             Forall (fun kv => length (snd kv) = 4%nat)
               (fold_left
                  (fun d row =>
                     dict_set key_eqb (nth 0 row "", nth 1 row "") row d)
                  rows d)).
  { induction rows as [|row rows IH]; intros d Hd Hrows; simpl.
    - exact Hd.
    - inversion Hrows; subst. apply IH; [|assumption].
      now apply dict_set_values with (P := fun v => length v = 4%nat). }
  intros H. now apply G.
Qed.

Lemma unpack3_of_four {A : Type} (t : list A) :
  length t = 4%nat -> unpack3 t = Raise ValueError.
Proof.
  destruct t as [|a [|b [|c [|d [|e t]]]]]; simpl; intros H;
    try discriminate; reflexivity.
Qed.

(** The exact-duplicate pass appends nothing, whatever the store and
    the candidates: unpacking the first dict item raises. *)
Lemma find_exact_duplicates_nil (db : Store) (fs : FileSystem)
  (new_files : list FileInfo) :
  _find_exact_duplicates db fs new_files = [].
Proof.
  unfold _find_exact_duplicates, find_exact_duplicates_try,
    select_title_content_folder_library.
  destruct (reference db) as [rows|]; simpl; [|reflexivity].
  apply for_each_keeps_state. intros new_file dups _.
  destruct (read_text fs (path new_file)) as [content|e]; [|reflexivity].
  apply for_each_keeps_state. intros [key row] dups' Hin. simpl.
  assert (Hrow : length row = 4%nat).
  { assert (Hfour : Forall (fun row => length row = 4%nat)
                      (map (fun r => [ref_title r; ref_content r;
                                      ref_folder_path r; ref_library r])
                         rows)).
    { apply Forall_forall. intros x Hx. apply in_map_iff in Hx.
      destruct Hx as [r [<- _]]. reflexivity. }
    pose proof (dict_by_title_content_values _ Hfour) as Hall.
    rewrite Forall_forall in Hall. exact (Hall _ Hin). }
  now rewrite (unpack3_of_four row Hrow).
Qed.

End DetectorFacts.

Section UniquenessFacts.

Import DuplicateDetector DetectorSpec.


Lemma Q_of_nat_pos (n : nat) : (0 < n)%nat -> (0 < Q_of_nat n)%Q.
Proof. intros H. unfold Q_of_nat, Qlt. simpl. lia. Qed.




End UniquenessFacts.

Section DetectorClaims.

Import DuplicateDetector DetectorSpec Fixtures.

(** C1.  [analyze_content] returns no report: for every store, every
    directory (missing or not) and every library name it raises
    [UnboundLocalError], because the dict display that would become
    [analysis] reads [analysis]. *)
Theorem analyze_content_raises :
  forall (md5_hex : string -> string)
    (find_version_conflicts :
       Store -> list FileInfo -> string -> list VersionConflict)
    (db : Store) (fs : FileSystem) (docs_path library_name : string),
    analyze_content md5_hex find_version_conflicts db fs docs_path
      library_name
    = Raise UnboundLocalError.
Proof. intros. unfold analyze_content. simpl. reflexivity. Qed.

(** The missing directory of C1: the file scan reports no file, and
    the analysis still raises. *)
Lemma analyze_content_missing_directory :
  forall (md5_hex : string -> string)
    (find_version_conflicts :
       Store -> list FileInfo -> string -> list VersionConflict),
    _get_document_files md5_hex (one_file "a.md" "a") "missing" = []
    /\ analyze_content md5_hex find_version_conflicts empty_store
         (one_file "a.md" "a") "missing" "Lib"
       = Raise UnboundLocalError.
Proof. intros. split; reflexivity. Qed.

(** C4.  A candidate whose content equals a stored document's content
    after whitespace normalization is not reported: the exact-duplicate
    pass returns the empty list. *)
Theorem exact_duplicate_not_reported :
  forall (md5_hex : string -> string),
    let new_files := _get_document_files md5_hex (one_file "new.md" spaced_a_b) "docs" in
    map relative_path new_files = ["new.md"]
    /\ normalize_ws spaced_a_b = normalize_ws "a b"
    /\ _find_exact_duplicates (store_with "a b")
         (one_file "new.md" spaced_a_b) new_files = [].
Proof.
  intros md5_hex new_files.
  split; [reflexivity|]. split; [reflexivity|].
  apply find_exact_duplicates_nil.
Qed.


End DetectorClaims.

Section OverlapFacts.

Import DuplicateDetector DetectorSpec Fixtures.

Lemma Qeq_bool_Q_of_nat (n : nat) : Qeq_bool (Q_of_nat n) 0 = (n =? 0)%nat.
Proof.
  unfold Qeq_bool, Q_of_nat. simpl. rewrite Z.mul_1_r.
  destruct n; [reflexivity|]. simpl. reflexivity.
Qed.

Lemma Qgt_bool_iff (x y : Q) : Qgt_bool x y = true <-> (y < x)%Q.
Proof.
  unfold Qgt_bool. rewrite negb_true_iff. split.
  - intros H. apply Qnot_le_lt. intros Hle.
    apply Qle_bool_iff in Hle. congruence.
  - intros H. destruct (Qle_bool x y) eqn:E; [|reflexivity].
    apply Qle_bool_iff in E. exfalso. exact (Qlt_not_le _ _ H E).
Qed.

(** The floats of the three literals, as CPython reads them: [0.3] is
    5404319552844595 / 2^54, just below 3/10. *)
Lemma tenths_values :
  tenths 3 = S754_finite false 5404319552844595 (-54)
  /\ tenths 4 = S754_finite false 7205759403792794 (-54)
  /\ tenths 6 = S754_finite false 5404319552844595 (-53).
Proof. repeat split; vm_compute; reflexivity. Qed.

(** What the topic-overlap pass reports: a file against a library,
    exactly when the score the code computes for the pair exceeds the
    float [0.3]. *)
Lemma topic_overlaps_reported (db : Store) (new_files : list FileInfo)
  (library_name path lib : string) :
  In (path, lib)
    (reported_against (_find_topic_overlaps db new_files library_name))
  <-> exists f,
        In f new_files /\ relative_path f = path
        /\ In lib (existing_libraries db)
        /\ float_gt
             (_calculate_overlap_score db (content_preview f) (tags f) lib)
             (tenths 3)
           = true.
Proof.
  unfold reported_against, _find_topic_overlaps, existing_libraries,
    from_table.
  destruct (reference db) as [rows|].
  2:{ simpl. split; [intros []|]. intros (f & _ & _ & [] & _). }
  rewrite in_map_iff. split.
  - intros (o & Ho & Hin). apply in_flat_map in Hin.
    destruct Hin as (f & Hf & Hin). apply in_flat_map in Hin.
    destruct Hin as (l & Hl & Hin).
    destruct (float_gt _ _) eqn:Hgt; [|destruct Hin].
    destruct Hin as [<-|[]]. cbn [to_new_file to_existing_library] in Ho.
    injection Ho as <- <-. exists f. now repeat split.
  - intros (f & Hf & <- & Hlib & Hgt).
    eexists. split.
    2:{ apply in_flat_map. exists f. split; [exact Hf|].
        apply in_flat_map. exists lib. split; [exact Hlib|].
        rewrite Hgt. left. reflexivity. }
    reflexivity.
Qed.

(** The score follows Python's rounding.  Against a library whose one
    document names three technologies, a candidate with four tags,
    three of them found there, and no word in common scores
    [0.75 * 0.4 = 0.30000000000000004]: above the float [0.3], so it
    is reported. *)
Lemma three_of_four_tags_reported :
  let db := store_with "swift uikit metal" in
  let new_files :=
    _get_document_files stub_md5 (one_file "new.md" four_technologies)
      "docs" in
  map content_preview new_files = [four_technologies]
  /\ map (fun f => length (tags f)) new_files = [4%nat]
  /\ map (fun f =>
            _calculate_overlap_score db (content_preview f) (tags f) "Lib")
       new_files
     = [S754_finite false 5404319552844596 (-54)]
  /\ reported_against (_find_topic_overlaps db new_files "Lib")
     = [("new.md", "Lib")].
Proof. cbv zeta. repeat split; vm_compute; reflexivity. Qed.

End OverlapFacts.

Section OverlapClaims.

Import DuplicateDetector DetectorSpec Fixtures.

(** C8.  The topic-overlap score is not the claimed one, and a document
    the claim reports goes unreported.  The candidate is a copy of the
    one document of library [Lib], a note of 11 words, 4 of them
    distinct, without a technology tag.  Every word of the candidate
    occurs in that document, so the claimed content term is 1 and the
    claimed score is 0.6, whether the candidate's words are counted
    with their repeats or once each: above 0.3.  The code divides the
    number of distinct shared words by the number of all words:
    [(4 / 11) / 1 * 0.6 = 0.21818181818181817], below 0.3, and the pass
    reports nothing. *)
Theorem identical_document_not_reported :
  let db := store_with repeated_note in
  let new_files :=
    _get_document_files stub_md5 (one_file "new.md" repeated_note) "docs" in
  map content_preview new_files = [repeated_note]
  /\ map tags new_files = [[]]
  /\ existing_libraries db = ["Lib"]
  /\ sample_of db "Lib" = [repeated_note]
  /\ (claimed_overlap_score db repeated_note [] "Lib" == 6#10)%Q
  /\ (claimed_distinct_score db repeated_note [] "Lib" == 6#10)%Q
  /\ _calculate_overlap_score db repeated_note [] "Lib"
     = S754_finite false 7860828440501229 (-55)
  /\ float_gt (_calculate_overlap_score db repeated_note [] "Lib") (tenths 3)
     = false
  /\ (float_value (_calculate_overlap_score db repeated_note [] "Lib")
      < 3#10)%Q
  /\ _find_topic_overlaps db new_files "Lib" = [].
Proof.
  cbv zeta.
  split; [reflexivity|]. split; [reflexivity|]. split; [reflexivity|].
  split; [reflexivity|].
  split; [vm_compute; reflexivity|]. split; [vm_compute; reflexivity|].
  split; [vm_compute; reflexivity|]. split; [vm_compute; reflexivity|].
  split; [vm_compute; reflexivity|]. vm_compute. reflexivity.
Qed.

End OverlapClaims.

(** ** The full-text query *)

Lemma from_table_error {R : Type} (t : option (list R)) (e : exn) :
  from_table t = Raise e -> e = OperationalError.
Proof. destruct t; simpl; congruence. Qed.

Lemma fts5_match_error (E : Fts5Engine) (query : string)
  (index : list FtsEntry) (e : exn) :
  fts5_match E query index = Raise e -> e = OperationalError.
Proof.
  unfold fts5_match. destruct (fts5_tokens Between query); [|congruence].
  destruct (fts5_grammar_ok E l); congruence.
Qed.

(** The only exception a full-text query raises is
    [sqlite3.OperationalError]. *)
Lemma fts5_select_error {R : Type} (E : Fts5Engine) (rowid : R -> Z)
  (index : option (list FtsEntry)) (table : option (list R))
  (query : string) (limit : Z) (e : exn) :
  fts5_select E rowid index table query limit = Raise e ->
  e = OperationalError.
Proof.
  unfold fts5_select.
  destruct (from_table index) as [entries|e1] eqn:Hi; simpl.
  2:{ intros [= <-]. eapply from_table_error; eassumption. }
  destruct (from_table table) as [rows|e2] eqn:Ht; simpl.
  2:{ intros [= <-]. eapply from_table_error; eassumption. }
  destruct (fts5_match E query entries) as [hits|e3] eqn:Hm; simpl.
  - discriminate.
  - intros [= <-]. eapply fts5_match_error; eassumption.
Qed.

(** A query string the tokenizer rejects makes the query raise,
    whatever the store holds. *)
Lemma fts5_select_syntax_error {R : Type} (E : Fts5Engine) (rowid : R -> Z)
  (index : option (list FtsEntry)) (table : option (list R))
  (query : string) (limit : Z) :
  fts5_tokens Between query = None ->
  fts5_select E rowid index table query limit = Raise OperationalError.
Proof.
  intros Hq. unfold fts5_select, fts5_match. rewrite Hq.
  destruct index, table; reflexivity.
Qed.

Lemma fts5_select_missing_index {R : Type} (E : Fts5Engine) (rowid : R -> Z)
  (table : option (list R)) (query : string) (limit : Z) :
  fts5_select E rowid None table query limit = Raise OperationalError.
Proof. reflexivity. Qed.

(** ** Search over a store without its index tables *)

Section DegradationFacts.

(** The token-optimized front end: a missing index is an empty result,
    for patterns and for reference alike. *)
Lemma token_search_patterns_missing_index (E : Fts5Engine) (db : Store)
  (query : string) (limit : Z) :
  patterns_fts db = None ->
  TokenOptimized._search_patterns E db query limit = [].
Proof.
  intros H. unfold TokenOptimized._search_patterns. now rewrite H.
Qed.

Lemma token_search_reference_missing_index (E : Fts5Engine) (db : Store)
  (query : string) (limit : Z) :
  reference_fts db = None ->
  TokenOptimized._search_reference E db query limit = [].
Proof.
  intros H. unfold TokenOptimized._search_reference. now rewrite H.
Qed.

(** The archived front end: the reference search degrades the same
    way. *)
Lemma hybrid_search_reference_missing_index (E : Fts5Engine) (db : Store)
  (query : string) (limit : Z) :
  reference_fts db = None ->
  HybridSearch._search_reference E db query limit = Ok [].
Proof.
  intros H. unfold HybridSearch._search_reference. now rewrite H.
Qed.

(** Its legacy statement never yields rows. *)
Lemma select_legacy_raises (db : Store) (query : string) (limit : Z) :
  HybridSearch.select_legacy db query limit = Raise OperationalError.
Proof.
  unfold HybridSearch.select_legacy. destruct (knowledge db); reflexivity.
Qed.

(** So its pattern search raises whenever the full-text query does. *)
Lemma hybrid_search_patterns_raises (E : Fts5Engine) (db : Store)
  (query : string) (limit : Z) (e : exn) :
  fts5_select E pat_rowid (patterns_fts db) (patterns db) query limit
  = Raise e ->
  HybridSearch._search_patterns E db query limit = Raise OperationalError.
Proof.
  intros H. unfold HybridSearch._search_patterns. rewrite H.
  rewrite (fts5_select_error _ _ _ _ _ _ _ H).
  now rewrite select_legacy_raises.
Qed.

End DegradationFacts.

Section DegradationClaims.

Import Fixtures.

(** C2.  On a store in which no table exists, the pattern search of the
    archived hybrid front end raises [sqlite3.OperationalError], and so
    does its [search], for every query: the handler of the missing
    index runs the legacy statement, whose error nothing catches. *)
Theorem hybrid_search_raises_on_empty_store :
  forall (clock : Clock)
    (format_pattern : HybridSearch.PatternHit -> string)
    (format_reference : HybridSearch.ReferenceHit -> string)
    (E : Fts5Engine) (kb : HybridSearch.KB) (query : string) (limit : Z),
    HybridSearch._search_patterns E empty_store query limit
    = Raise OperationalError
    /\ HybridSearch.search clock format_pattern format_reference E
         empty_store kb query limit
       = Raise OperationalError.
Proof. intros. split; reflexivity. Qed.

(** X1.  The token-optimized front end does degrade: on the same store
    its [search] answers [no_knowledge_found] for every query and every
    detail level. *)
Lemma token_search_on_empty_store :
  forall (clock : Clock)
    (create_summary : TokenOptimized.PatternHit -> string)
    (extract_key_points extract_code_examples :
       TokenOptimized.PatternHit -> list string)
    (create_detailed_solution : TokenOptimized.PatternHit -> string)
    (extract_content_preview : TokenOptimized.ReferenceHit -> string)
    (E : Fts5Engine) (ticks : nat) (query : string) (max_tokens : Z)
    (detail_level : string),
    TokenOptimized.status
      (TokenOptimized.search clock create_summary extract_key_points
         extract_code_examples create_detailed_solution
         extract_content_preview E empty_store ticks query max_tokens
         detail_level)
    = "no_knowledge_found".
Proof. intros. reflexivity. Qed.

End DegradationClaims.

(** ** Patterns before reference *)

Section PrecedenceFacts.

Variable clock : Clock.

(** X5.  The archived front end answers from the best pattern as soon
    as the pattern search returns one, and never looks at the reference
    tables then. *)
Lemma hybrid_search_pattern_first
  (format_pattern : HybridSearch.PatternHit -> string)
  (format_reference : HybridSearch.ReferenceHit -> string)
  (E : Fts5Engine) (db : Store) (kb : HybridSearch.KB) (query : string)
  (limit : Z) (best : HybridSearch.PatternHit)
  (rest : list HybridSearch.PatternHit) :
  HybridSearch._search_patterns E db query limit = Ok (best :: rest) ->
  exists result kb',
    HybridSearch.search clock format_pattern format_reference E db kb query
      limit = Ok (result, kb')
    /\ HybridSearch.status result = "pattern_found"
    /\ HybridSearch.source result = Some (HybridSearch.ph_title best)
    /\ HybridSearch.solution result = Some (format_pattern best)
    /\ HybridSearch.reference_hits (HybridSearch.stats kb')
       = HybridSearch.reference_hits (HybridSearch.stats kb)
    /\ forall rows idx,
         HybridSearch.search clock format_pattern format_reference E
           (set_reference_fts (set_reference db rows) idx) kb query limit
         = Ok (result, kb').
Proof.
  intros H. unfold HybridSearch.search. rewrite H. simpl.
  eexists. eexists. repeat split. intros rows idx.
  assert (Hsame : HybridSearch._search_patterns E
                    (set_reference_fts (set_reference db rows) idx) query
                    limit
                  = HybridSearch._search_patterns E db query limit)
    by reflexivity.
  rewrite Hsame, H. reflexivity.
Qed.

Variable create_summary : TokenOptimized.PatternHit -> string.
Variables extract_key_points extract_code_examples :
  TokenOptimized.PatternHit -> list string.
Variable create_detailed_solution : TokenOptimized.PatternHit -> string.
Variable extract_content_preview : TokenOptimized.ReferenceHit -> string.

(** X2.  The status of the token-optimized search, in every case: a
    pattern hit answers at the three detail levels, a reference hit at
    two of them, and everything else ends in [no_knowledge_found]. *)
Lemma token_search_status (E : Fts5Engine) (db : Store) (ticks : nat)
  (query : string) (max_tokens : Z) (detail_level : string) :
  TokenOptimized.status
    (TokenOptimized.search clock create_summary extract_key_points
       extract_code_examples create_detailed_solution
       extract_content_preview E db ticks query max_tokens detail_level)
  = match TokenOptimized._search_patterns E db query 3,
          TokenOptimized._search_reference E db query 3 with
    | _ :: _, _ =>
        if known_for_patterns detail_level then "pattern_found"
        else "no_knowledge_found"
    | [], _ :: _ =>
        if known_for_reference detail_level then "reference_found"
        else "no_knowledge_found"
    | [], [] => "no_knowledge_found"
    end.
Proof.
  unfold TokenOptimized.search, TokenOptimized.search_reference_step,
    known_for_patterns, known_for_reference.
  destruct (TokenOptimized._search_patterns E db query 3) as [|best rest];
    destruct (TokenOptimized._search_reference E db query 3) as [|r rs];
    destruct (String.eqb_spec detail_level "summary") as [->|Hs];
    try reflexivity;
    destruct (String.eqb_spec detail_level "details") as [->|Hd];
    try reflexivity;
    destruct (String.eqb_spec detail_level "full") as [->|Hf];
    try reflexivity.
Qed.

(** X6.  At a detail level it knows, the token-optimized search answers
    from the best pattern. *)
Lemma token_search_pattern_first (E : Fts5Engine) (db : Store) (ticks : nat)
  (query : string) (max_tokens : Z) (detail_level : string)
  (best : TokenOptimized.PatternHit) (rest : list TokenOptimized.PatternHit) :
  TokenOptimized._search_patterns E db query 3 = best :: rest ->
  known_for_patterns detail_level = true ->
  let result :=
    TokenOptimized.search clock create_summary extract_key_points
      extract_code_examples create_detailed_solution extract_content_preview
      E db ticks query max_tokens detail_level in
  TokenOptimized.status result = "pattern_found"
  /\ TokenOptimized.source result = Some (TokenOptimized.ph_title best)
  /\ TokenOptimized.summary result = Some (create_summary best).
Proof.
  intros H Hknown result. subst result.
  unfold TokenOptimized.search. rewrite H.
  unfold known_for_patterns in Hknown.
  destruct (String.eqb detail_level "summary"); [repeat split|].
  destruct (String.eqb detail_level "details"); [repeat split|].
  destruct (String.eqb detail_level "full"); [repeat split|].
  discriminate.
Qed.

End PrecedenceFacts.

Section PrecedenceClaims.

Import Fixtures.

(** The archived search on a store with a matching pattern and a
    matching reference document answers from the pattern. *)
Lemma hybrid_search_pattern_first_witness :
  exists result kb',
    HybridSearch.search seconds title_only_pattern title_only_reference
      match_all store_with_pattern fresh_hybrid_kb "swift" 5
    = Ok (result, kb')
    /\ HybridSearch.status result = "pattern_found"
    /\ HybridSearch.source result = Some "Swift basics"
    /\ HybridSearch.solution result = Some "Swift basics"
    /\ HybridSearch.reference_hits (HybridSearch.stats kb')
       = HybridSearch.reference_hits (HybridSearch.stats fresh_hybrid_kb)
    /\ forall rows idx,
         HybridSearch.search seconds title_only_pattern title_only_reference
           match_all
           (set_reference_fts (set_reference store_with_pattern rows) idx)
           fresh_hybrid_kb "swift" 5
         = Ok (result, kb').
Proof.
  apply (hybrid_search_pattern_first seconds title_only_pattern
           title_only_reference match_all store_with_pattern
           fresh_hybrid_kb "swift" 5
           (HybridSearch.mkPatternHit "p1" "Swift basics" "Use structs."
              "swift" ["swift"] (Some ""))
           []).
  reflexivity.
Defined.

(** The token-optimized search on the same store, at the level
    [details]. *)
Lemma token_search_pattern_first_witness :
  let result :=
    TokenOptimized.search seconds title_only no_points no_points title_only
      no_preview match_all store_with_pattern 0 "swift" 500 "details" in
  TokenOptimized.status result = "pattern_found"
  /\ TokenOptimized.source result = Some "Swift basics"
  /\ TokenOptimized.summary result = Some "Swift basics".
Proof.
  apply (token_search_pattern_first seconds title_only no_points no_points
           title_only no_preview match_all store_with_pattern 0 "swift" 500
           "details"
           (TokenOptimized.mkPatternHit "p1" "Swift basics" "Use structs."
              ["swift"] "")
           []).
  - reflexivity.
  - reflexivity.
Defined.

(** C3.  The token-optimized search called with a detail level other
    than [summary], [details] and [full] does not answer from a pattern
    the pattern search found: no branch of the hit returns, the
    reference collection is searched as well, and the answer is
    [no_knowledge_found]. *)
Theorem token_search_drops_pattern_hit :
  forall (create_summary : TokenOptimized.PatternHit -> string)
    (extract_key_points extract_code_examples :
       TokenOptimized.PatternHit -> list string)
    (create_detailed_solution : TokenOptimized.PatternHit -> string)
    (extract_content_preview : TokenOptimized.ReferenceHit -> string),
    map TokenOptimized.ph_title
      (TokenOptimized._search_patterns match_all store_with_pattern "swift" 3)
    = ["Swift basics"]
    /\ TokenOptimized.status
         (TokenOptimized.search seconds create_summary extract_key_points
            extract_code_examples create_detailed_solution
            extract_content_preview match_all store_with_pattern 0 "swift"
            500 "brief")
       = "no_knowledge_found"
    /\ TokenOptimized.response_time
         (TokenOptimized.search seconds create_summary extract_key_points
            extract_code_examples create_detailed_solution
            extract_content_preview match_all store_with_pattern 0 "swift"
            500 "brief")
       = (seconds 3%nat - seconds 0%nat)%Q.
Proof. intros. repeat split. Qed.

End PrecedenceClaims.

(** ** Query strings the index cannot parse *)

Section SanitizingFacts.

Lemma replace_char_spec (c d : ascii) (s : string) :
  In d (list_ascii_of_string (replace_char c s)) ->
  d = " "%char \/ (d <> c /\ In d (list_ascii_of_string s)).
Proof.
  induction s as [|x s IH]; simpl; [intros []|].
  intros [<-|H].
  - destruct (Ascii.eqb_spec x c); [now left|]. right. split; auto.
  - destruct (IH H) as [->|[Hd Hin]]; [now left|]. right. split; auto.
Qed.

(** [clean_query] leaves none of the five characters it lists. *)
Lemma clean_query_removes_listed (query : string) (c : ascii) :
  In c (list_ascii_of_string (KnowledgeBase.clean_query query)) ->
  listed_char c = false.
Proof.
  unfold KnowledgeBase.clean_query. intros H.
  apply replace_char_spec in H. destruct H as [->|[H1 H]]; [reflexivity|].
  apply replace_char_spec in H. destruct H as [->|[H2 H]]; [reflexivity|].
  apply replace_char_spec in H. destruct H as [->|[H3 H]]; [reflexivity|].
  apply replace_char_spec in H. destruct H as [->|[H4 H]]; [reflexivity|].
  apply replace_char_spec in H. destruct H as [->|[H5 H]]; [reflexivity|].
  unfold listed_char. simpl.
  repeat match goal with
         | Hne : c <> ?x |- context [Ascii.eqb c ?x] =>
             destruct (Ascii.eqb_spec c x); [contradiction|]
         end.
  reflexivity.
Qed.

(** X4.  The query string handed to the index holds none of the five
    characters [clean_query] lists. *)
Lemma clean_query_no_listed_char (query : string) :
  forallb (fun c => negb (listed_char c))
    (list_ascii_of_string (KnowledgeBase.clean_query query)) = true.
Proof.
  apply forallb_forall. intros c Hc.
  now rewrite (clean_query_removes_listed query c Hc).
Qed.

(** It keeps every other character where it is. *)
Lemma clean_query_length (query : string) :
  String.length (KnowledgeBase.clean_query query) = String.length query.
Proof.
  unfold KnowledgeBase.clean_query.
  assert (H : forall c s, String.length (replace_char c s) = String.length s).
  { intros c s. induction s; simpl; congruence. }
  now rewrite !H.
Qed.

End SanitizingFacts.

Section SanitizingClaims.

Import Fixtures.

(** C6.  The query [@Dependency(\.client)] is cleaned to a string that
    still holds the backslash; the FTS5 tokenizer rejects it, and
    [_search_knowledge] raises [sqlite3.OperationalError] on every
    store, as does [solve_developer_problem] on a cache miss.  The
    archived pattern search hands the query to the index as it is and
    raises as well. *)
Theorem search_raises_on_dependency_query :
  forall (clock : Clock) (md5_hex : string -> string)
    (compilation_advice memory_advice tca_advice general_advice : string)
    (E : Fts5Engine) (db : Store) (limit : Z),
    let query := "@Dependency(\.client)" in
    KnowledgeBase.clean_query query = " Dependency \ client "
    /\ fts5_tokens Between (KnowledgeBase.clean_query query) = None
    /\ KnowledgeBase._search_knowledge E db query limit
       = Raise OperationalError
    /\ KnowledgeBase.solve_developer_problem clock md5_hex
         compilation_advice memory_advice tca_advice general_advice E db
         (KnowledgeBase.mkKB (KnowledgeBase.mkStats 0 0 0 []) [] 0) query
       = Raise OperationalError
    /\ HybridSearch._search_patterns E db query limit
       = Raise OperationalError.
Proof.
  intros. subst query. split; [reflexivity|]. split; [reflexivity|].
  assert (Hk : KnowledgeBase._search_knowledge E db "@Dependency(\.client)"
                 limit = Raise OperationalError).
  { intros. unfold KnowledgeBase._search_knowledge.
    now rewrite fts5_select_syntax_error. }
  split; [exact Hk|]. split.
  - unfold KnowledgeBase.solve_developer_problem. simpl dict_get.
    cbv iota. unfold KnowledgeBase._search_knowledge.
    now rewrite fts5_select_syntax_error.
  - apply (hybrid_search_patterns_raises E db _ limit OperationalError).
    now apply fts5_select_syntax_error.
Qed.

End SanitizingClaims.

(** ** The query cache *)

Section CacheFacts.

Import KnowledgeBase.

Lemma dict_get_set_same {V : Type} (k : string) (v : V)
  (d : list (string * V)) :
  dict_get String.eqb k (dict_set String.eqb k v d) = Some v.
Proof.
  induction d as [|[k' v'] d IH]; simpl.
  - now rewrite String.eqb_refl.
  - destruct (String.eqb k' k) eqn:E; simpl; rewrite E; [reflexivity|exact IH].
Qed.

Lemma dict_set_length {V : Type} (k : string) (v : V)
  (d : list (string * V)) :
  (length (dict_set String.eqb k v d) <= S (length d))%nat.
Proof.
  induction d as [|[k' v'] d IH]; simpl; [lia|].
  destruct (String.eqb k' k); simpl; lia.
Qed.

(** Storing under a key the dict does not hold appends the entry. *)
Lemma dict_set_fresh {V : Type} (k : string) (v : V)
  (d : list (string * V)) :
  dict_get String.eqb k d = None ->
  dict_set String.eqb k v d = (d ++ [(k, v)])%list.
Proof.
  induction d as [|[k' v'] d IH]; simpl; [reflexivity|].
  destruct (String.eqb k' k); [discriminate|]. intros H. now rewrite IH.
Qed.

Lemma dict_get_tail {V : Type} (k : string) (d : list (string * V)) :
  dict_get String.eqb k d = None -> dict_get String.eqb k (tl d) = None.
Proof.
  destruct d as [|[k' v'] d]; simpl; [auto|].
  destruct (String.eqb k' k); [discriminate|auto].
Qed.

(** Deleting the first key of a dict drops its first entry. *)
Lemma evict_oldest (cache : list (string * Result)) :
  match cache with
  | (oldest_key, _) :: _ => dict_del String.eqb oldest_key cache
  | [] => cache
  end = tl cache.
Proof.
  destruct cache as [|[k v] d]; simpl; [reflexivity|].
  now rewrite String.eqb_refl.
Qed.

(** The cache never grows past its limit. *)
Lemma cache_result_bounded (cache : list (string * Result)) (key : string)
  (result : Result) :
  (length cache <= cache_limit)%nat ->
  (length (_cache_result cache key result) <= cache_limit)%nat.
Proof.
  intros H. unfold _cache_result.
  destruct (Nat.leb_spec cache_limit (length cache)) as [Hfull|Hroom].
  - rewrite evict_oldest.
    pose proof (dict_set_length key result (tl cache)) as Hset.
    assert (Htl : S (length (tl cache)) = length cache).
    { destruct cache; simpl in *; [unfold cache_limit in Hfull; lia|lia]. }
    lia.
  - pose proof (dict_set_length key result cache) as Hset. lia.
Qed.

(** At the limit, a new key takes the place of the oldest entry. *)
Lemma cache_result_fifo (cache : list (string * Result)) (key : string)
  (result : Result) :
  (cache_limit <= length cache)%nat ->
  dict_get String.eqb key cache = None ->
  _cache_result cache key result = (tl cache ++ [(key, result)])%list.
Proof.
  intros Hfull Hnew. unfold _cache_result.
  apply Nat.leb_le in Hfull. rewrite Hfull, evict_oldest.
  apply dict_set_fresh. now apply dict_get_tail.
Qed.

Lemma cache_result_holds_key (cache : list (string * Result)) (key : string)
  (result : Result) :
  dict_get String.eqb key (_cache_result cache key result) = Some result.
Proof. unfold _cache_result. apply dict_get_set_same. Qed.

End CacheFacts.

Section CacheClaims.

Import KnowledgeBase Fixtures.

Variable clock : Clock.
Variable md5_hex : string -> string.
Variables compilation_advice memory_advice tca_advice general_advice : string.

(** After a call that returned, the cache holds the query's key, with
    an entry that agrees with the returned result on the five fields a
    cache hit copies. *)
Lemma solve_caches_result (E : Fts5Engine) (db : Store) (kb : KB)
  (query : string) (result : Result) (kb1 : KB) :
  solve_developer_problem clock md5_hex compilation_advice memory_advice
    tca_advice general_advice E db kb query = Ok (result, kb1) ->
  exists cached,
    dict_get String.eqb (md5_hex query) (cache kb1) = Some cached
    /\ status cached = status result
    /\ solution cached = solution result
    /\ source cached = source result
    /\ response_time cached = response_time result
    /\ reasoning cached = reasoning result.
Proof.
  unfold solve_developer_problem, _get_cache_key.
  destruct (dict_get String.eqb (md5_hex query) (cache kb)) as [cached|] eqn:Hc.
  - intros [= <- <-]. exists cached. simpl. repeat split. exact Hc.
  - destruct (_search_knowledge E db query 5) as [kb_results|e]; simpl;
      [|discriminate].
    intros [= <- <-]. simpl. eexists. split.
    + apply cache_result_holds_key.
    + repeat split.
Qed.

(** C10, as amended.  The cache holds at most 50 entries; at that size
    a new key replaces the oldest entry; and a query repeated right
    after a call that returned is answered from the cache, whatever the
    store holds by then: the answer has the status, solution, source,
    response time and reasoning of the first answer and no tags, the
    cache and the hit counter of the search stay as they were, and the
    cache-hit counter goes up by one. *)
Theorem cache_bounded_fifo_replay :
  forall (E : Fts5Engine) (db db' : Store) (kb : KB) (query : string)
    (result : Result) (kb1 : KB),
    (length (cache kb) <= cache_limit)%nat ->
    solve_developer_problem clock md5_hex compilation_advice memory_advice
      tca_advice general_advice E db kb query = Ok (result, kb1) ->
    cache_limit = 50%nat
    /\ (length (cache kb1) <= cache_limit)%nat
    /\ (dict_get String.eqb (md5_hex query) (cache kb) = None ->
        (cache_limit <= length (cache kb))%nat ->
        cache kb1 = (tl (cache kb) ++ [(md5_hex query, result)])%list)
    /\ exists replay kb2,
         solve_developer_problem clock md5_hex compilation_advice
           memory_advice tca_advice general_advice E db' kb1 query
         = Ok (replay, kb2)
         /\ status replay = status result
         /\ solution replay = solution result
         /\ source replay = source result
         /\ response_time replay = response_time result
         /\ reasoning replay = reasoning result
         /\ tags replay = None
         /\ cache kb2 = cache kb1
         /\ kb_hits (stats kb2) = kb_hits (stats kb1)
         /\ cache_hits (stats kb2) = S (cache_hits (stats kb1)).
Proof.
  intros E db db' kb query result kb1 Hbound Hcall.
  split; [reflexivity|].
  pose proof (solve_caches_result E db kb query result kb1 Hcall)
    as (cached & Hcached & Hst & Hsol & Hsrc & Hrt & Hre).
  split; [|split].
  - revert Hcall. unfold solve_developer_problem, _get_cache_key.
    destruct (dict_get String.eqb (md5_hex query) (cache kb)).
    + intros [= <- <-]. exact Hbound.
    + destruct (_search_knowledge E db query 5); simpl; [|discriminate].
      intros [= <- <-]. simpl. now apply cache_result_bounded.
  - intros Hnew Hfull. revert Hcall.
    unfold solve_developer_problem, _get_cache_key. rewrite Hnew.
    destruct (_search_knowledge E db query 5); simpl; [|discriminate].
    intros [= <- <-]. simpl. now apply cache_result_fifo.
  - unfold solve_developer_problem at 1, _get_cache_key. rewrite Hcached.
    eexists. eexists. split; [reflexivity|]. simpl. repeat split; assumption.
Qed.

End CacheClaims.

Section CacheExamples.

Import KnowledgeBase Fixtures.

(** The amended C10 at work on a full cache: the first call searches,
    finds the document and puts its answer in the place of the oldest
    entry; the second call, over a store that has lost its tables, is
    a cache hit. *)
Lemma cache_replay_witness :
  exists result kb1,
    solve_swift full_kb = Ok (result, kb1)
    /\ status result = "knowledge_found"
    /\ length (cache full_kb) = 50%nat
    /\ map fst (firstn 2 (cache kb1)) = ["1"; "2"]
    /\ cache_limit = 50%nat
    /\ (length (cache kb1) <= cache_limit)%nat
    /\ (dict_get String.eqb (stub_md5 "swift") (cache full_kb) = None ->
        (cache_limit <= length (cache full_kb))%nat ->
        cache kb1 = (tl (cache full_kb) ++ [(stub_md5 "swift", result)])%list)
    /\ exists replay kb2,
         solve_developer_problem seconds stub_md5 "" "" "" "" match_all
           empty_store kb1 "swift" = Ok (replay, kb2)
         /\ status replay = status result
         /\ solution replay = solution result
         /\ source replay = source result
         /\ response_time replay = response_time result
         /\ reasoning replay = reasoning result
         /\ tags replay = None
         /\ cache kb2 = cache kb1
         /\ kb_hits (stats kb2) = kb_hits (stats kb1)
         /\ cache_hits (stats kb2) = S (cache_hits (stats kb1)).
Proof.
  eexists. eexists. split; [reflexivity|]. split; [reflexivity|].
  split; [reflexivity|]. split; [reflexivity|].
  apply (cache_bounded_fifo_replay seconds stub_md5 "" "" "" "" match_all
           store_with_knowledge empty_store full_kb "swift").
  - unfold cache_limit. simpl. lia.
  - reflexivity.
Defined.

(** C10 as stated fails on the tags: the first answer carries the tags
    of the document, the answer from the cache carries none, so the two
    answers differ. *)
Lemma cache_hit_not_verbatim :
  exists first kb1 second kb2,
    solve_swift fresh_kb = Ok (first, kb1)
    /\ solve_swift kb1 = Ok (second, kb2)
    /\ tags first = Some ["swift"]
    /\ tags second = None
    /\ second <> first.
Proof.
  eexists. eexists. eexists. eexists.
  split; [reflexivity|]. split; [reflexivity|].
  split; [reflexivity|]. split; [reflexivity|]. discriminate.
Qed.

End CacheExamples.

(** ** Replace on conflict *)

Section UpsertFacts.

Context {R : Type}.
Variable id : R -> string.

Lemma occurrences_app (x : string) (a b : list R) :
  occurrences id x (a ++ b) = (occurrences id x a + occurrences id x b)%nat.
Proof. unfold occurrences. now rewrite filter_app, length_app. Qed.

Lemma occurrences_after_delete (x y : string) (rows : list R) :
  occurrences id x
    (filter (fun r => negb (String.eqb (id r) y)) rows)
  = if String.eqb x y then 0%nat else occurrences id x rows.
Proof.
  unfold occurrences. induction rows as [|r rows IH]; simpl.
  - now destruct (String.eqb x y).
  - destruct (String.eqb_spec (id r) y) as [Hy|Hy]; simpl.
    + rewrite IH. destruct (String.eqb_spec x y) as [->|Hx]; [reflexivity|].
      destruct (String.eqb_spec (id r) x); [congruence|reflexivity].
    + destruct (String.eqb_spec (id r) x) as [Hx|Hx]; simpl; rewrite IH.
      * destruct (String.eqb_spec x y); [congruence|reflexivity].
      * reflexivity.
Qed.

(** After [INSERT OR REPLACE] exactly one row holds the new id, and
    the rows of every other id are as before. *)
Lemma occurrences_upsert (x : string) (row : R) (rows : list R) :
  occurrences id x (insert_or_replace id row rows)
  = if String.eqb x (id row) then 1%nat else occurrences id x rows.
Proof.
  unfold insert_or_replace. rewrite occurrences_app, occurrences_after_delete.
  assert (Hone : occurrences id x [row]
                 = if String.eqb x (id row) then 1%nat else 0%nat).
  { unfold occurrences. simpl. rewrite (String.eqb_sym (id row) x).
    now destruct (String.eqb x (id row)). }
  rewrite Hone. destruct (String.eqb x (id row)); lia.
Qed.

Lemma length_upsert (row : R) (rows : list R) :
  (length (insert_or_replace id row rows) + occurrences id (id row) rows
   = S (length rows))%nat.
Proof.
  unfold insert_or_replace, occurrences. rewrite length_app. simpl.
  pose proof (filter_length (fun r => String.eqb (id r) (id row)) rows). lia.
Qed.

(** An id held by exactly one row stays so through a run of upserts. *)
Lemma upserts_keep_single (ids : list string) (rows rows' : list R)
  (x : string) :
  Upserts id ids rows rows' ->
  occurrences id x rows = 1%nat -> occurrences id x rows' = 1%nat.
Proof.
  induction 1 as [rows|row ids rows rows' _ IH]; intros Hone.
  - exact Hone.
  - apply IH. rewrite occurrences_upsert.
    now destruct (String.eqb x (id row)).
Qed.

(** Every id a run upserts is held by exactly one row afterwards. *)
Lemma upserts_occurrences (ids : list string) (rows rows' : list R)
  (x : string) :
  Upserts id ids rows rows' -> In x ids -> occurrences id x rows' = 1%nat.
Proof.
  induction 1 as [rows|row ids rows rows' Hrun IH]; intros Hin.
  - destruct Hin.
  - destruct Hin as [<-|Hin]; [|now apply IH].
    apply (upserts_keep_single ids _ rows' _ Hrun).
    rewrite occurrences_upsert. now rewrite String.eqb_refl.
Qed.

(** A run that upserts only ids the table holds once leaves the number
    of rows as it was. *)
Lemma upserts_length_stable (ids : list string) (rows rows' : list R) :
  Upserts id ids rows rows' ->
  (forall x, In x ids -> occurrences id x rows = 1%nat) ->
  length rows' = length rows.
Proof.
  induction 1 as [rows|row ids rows rows' _ IH]; intros Hheld.
  - reflexivity.
  - rewrite IH.
    + pose proof (length_upsert row rows) as Hlen.
      rewrite (Hheld (id row) (or_introl eq_refl)) in Hlen. lia.
    + intros x Hx. rewrite occurrences_upsert.
      destruct (String.eqb x (id row)); [reflexivity|].
      apply Hheld. now right.
Qed.

End UpsertFacts.

(** ** Importing a directory twice *)

Section ImportFacts.

Import Migrator.

Variable py_hash : string -> Z.
Variable fs : FileSystem.
Variable library_name : string.

(** Without a reference table, a file changes nothing. *)
Lemma import_file_without_table (db : Store) (md_file : string * string) :
  reference db = None ->
  import_file py_hash fs library_name db md_file = db.
Proof.
  intros H. unfold import_file.
  destruct (read_text fs (fst md_file)); [|reflexivity]. now rewrite H.
Qed.

(** With one, a file that can be read is one upsert under its id, and a
    file that cannot is skipped. *)
Lemma import_file_upserts (db : Store) (rows : list ReferenceRow)
  (md_file : string * string) :
  reference db = Some rows ->
  exists rows',
    reference (import_file py_hash fs library_name db md_file) = Some rows'
    /\ Upserts ref_id (imported_ids py_hash fs library_name [md_file])
         rows rows'.
Proof.
  intros H. unfold import_file, imported_ids. simpl.
  destruct (read_text fs (fst md_file)) as [content|e].
  - rewrite H. eexists. split.
    + destruct (reference_fts _); reflexivity.
    + simpl.
      match goal with
      | |- Upserts _ _ _ (insert_or_replace _ ?row _) =>
          apply (upserts_step ref_id row)
      end.
      constructor.
  - exists rows. split; [exact H|constructor].
Qed.

Lemma upserts_app {R : Type} (id : R -> string) (ids1 ids2 : list string)
  (rows rows1 rows2 : list R) :
  Upserts id ids1 rows rows1 -> Upserts id ids2 rows1 rows2 ->
  Upserts id (ids1 ++ ids2) rows rows2.
Proof.
  induction 1 as [rows|row ids rows rows1 _ IH]; intros H2; simpl.
  - exact H2.
  - constructor. now apply IH.
Qed.

Lemma import_run_upserts (found : list (string * string)) (db : Store)
  (rows : list ReferenceRow) :
  reference db = Some rows ->
  exists rows',
    reference (fold_left (import_file py_hash fs library_name) found db)
    = Some rows'
    /\ Upserts ref_id (imported_ids py_hash fs library_name found)
         rows rows'.
Proof.
  revert db rows. induction found as [|md_file found IH]; intros db rows H.
  - exists rows. split; [exact H|constructor].
  - destruct (import_file_upserts db rows md_file H) as (rows1 & H1 & U1).
    destruct (IH _ rows1 H1) as (rows2 & H2 & U2).
    exists rows2. split; [exact H2|].
    assert (Hids : imported_ids py_hash fs library_name (md_file :: found)
                   = (imported_ids py_hash fs library_name [md_file]
                      ++ imported_ids py_hash fs library_name found)%list).
    { unfold imported_ids. simpl. now rewrite app_nil_r. }
    rewrite Hids. now apply upserts_app with (rows1 := rows1).
Qed.

Lemma import_run_without_table (found : list (string * string)) (db : Store) :
  reference db = None ->
  fold_left (import_file py_hash fs library_name) found db = db.
Proof.
  intros H. induction found as [|md_file found IH]; simpl; [reflexivity|].
  now rewrite import_file_without_table.
Qed.

(** X3.  Within one process, importing a directory a second time leaves
    the number of reference documents as the first import left it. *)
Lemma reimport_same_process (db : Store) (docs_path : string) :
  let db1 :=
    snd (import_reference_documentation py_hash fs db docs_path
           library_name) in
  let db2 :=
    snd (import_reference_documentation py_hash fs db1 docs_path
           library_name) in
  reference_count db2 = reference_count db1.
Proof.
  unfold import_reference_documentation.
  destruct (rglob_md fs docs_path) as [found|]; simpl; [|reflexivity].
  destruct (reference db) as [rows|] eqn:Href.
  - destruct (import_run_upserts found db rows Href) as (rows1 & H1 & U1).
    destruct (import_run_upserts found _ rows1 H1) as (rows2 & H2 & U2).
    unfold reference_count. rewrite H2, H1. simpl. f_equal.
    apply (upserts_length_stable ref_id _ _ _ U2).
    intros x Hx. exact (upserts_occurrences ref_id _ _ _ x U1 Hx).
  - rewrite (import_run_without_table found db Href).
    now rewrite (import_run_without_table found db Href).
Qed.

End ImportFacts.

Section ImportClaims.

Import Migrator Fixtures.

(** C5.  Importing the directory twice, by two runs of the script,
    leaves two reference documents where the first run left one: the
    id of a file ends in [hash(relative_path) % 10000], and the two
    interpreters hash the path [guide.md] to 855 and to 9482. *)
Theorem reimport_in_new_process_adds_rows :
  let db1 :=
    snd (import_reference_documentation hash_seed_1 guide_directory
           store_without_documents "docs" "Lib") in
  let db2 :=
    snd (import_reference_documentation hash_seed_2 guide_directory db1
           "docs" "Lib") in
  reference_ids db1 = ["Lib_guide_855"]
  /\ reference_ids db2 = ["Lib_guide_855"; "Lib_guide_9482"]
  /\ reference_count db1 = Ok 1%nat
  /\ reference_count db2 = Ok 2%nat.
Proof. cbv zeta. repeat split; vm_compute; reflexivity. Qed.

End ImportClaims.

(** ** Synthesizing twice *)

Section SynthesisFacts.

Import Synthesizer.

(** Saving needs the patterns table and its index; over a table with
    the uniqueness constraint each pattern is one upsert under its id,
    and the reference table is left alone. *)
Lemma save_pattern_upserts (db : Store) (rows : list PatternRow)
  (idx : list FtsEntry) (pattern : Pattern) :
  patterns db = Some rows -> patterns_fts db = Some idx ->
  patterns_unique_id db = true ->
  exists db' rows' idx',
    save_pattern db pattern = Ok db'
    /\ patterns db' = Some rows' /\ patterns_fts db' = Some idx'
    /\ patterns_unique_id db' = true
    /\ reference db' = reference db
    /\ Upserts pat_id [id pattern] rows rows'.
Proof.
  intros Hp Hf Hu. unfold save_pattern. rewrite Hp. simpl. rewrite Hf, Hu.
  simpl. eexists. eexists. eexists. split; [reflexivity|]. simpl.
  repeat split; try assumption.
  match goal with
  | |- Upserts _ _ _ (insert_or_replace _ ?row _) =>
      apply (upserts_step pat_id row)
  end.
  constructor.
Qed.

Lemma save_patterns_upserts (found : list Pattern) (db : Store)
  (rows : list PatternRow) (idx : list FtsEntry) :
  patterns db = Some rows -> patterns_fts db = Some idx ->
  patterns_unique_id db = true ->
  exists db' rows' idx',
    save_synthesized_patterns db found = Ok db'
    /\ patterns db' = Some rows' /\ patterns_fts db' = Some idx'
    /\ patterns_unique_id db' = true
    /\ reference db' = reference db
    /\ Upserts pat_id (map id found) rows rows'.
Proof.
  revert db rows idx.
  induction found as [|pattern found IH]; intros db rows idx Hp Hf Hu.
  - exists db, rows, idx. simpl. repeat split; try assumption. constructor.
  - destruct (save_pattern_upserts db rows idx pattern Hp Hf Hu)
      as (db1 & rows1 & idx1 & Hs1 & Hp1 & Hf1 & Hu1 & Hr1 & U1).
    destruct (IH db1 rows1 idx1 Hp1 Hf1 Hu1)
      as (db2 & rows2 & idx2 & Hs2 & Hp2 & Hf2 & Hu2 & Hr2 & U2).
    exists db2, rows2, idx2. simpl. rewrite Hs1. simpl.
    repeat split; try assumption; [congruence|].
    exact (upserts_app pat_id [id pattern] (map id found) _ _ _ U1 U2).
Qed.

(** Saving fails as a whole, and on the first pattern, when one of the
    two tables is missing. *)
Lemma save_patterns_without_tables (found : list Pattern) (db : Store) :
  patterns db = None \/ patterns_fts db = None ->
  found <> [] ->
  exists e, save_synthesized_patterns db found = Raise e.
Proof.
  intros Hmissing Hfound. destruct found as [|pattern found]; [congruence|].
  simpl. unfold save_pattern.
  destruct (patterns db) as [rows|]; simpl.
  - destruct Hmissing as [Hp|Hf]; [discriminate|]. rewrite Hf. simpl.
    now eexists.
  - now eexists.
Qed.

(** What is extracted depends on the reference table alone. *)
Lemma extract_reads_reference_only (py_hash : string -> Z) (re : Regex)
  (db db' : Store) :
  reference db' = reference db ->
  extract_patterns_from_reference py_hash re db'
  = extract_patterns_from_reference py_hash re db.
Proof.
  intros H. unfold extract_patterns_from_reference. now rewrite H.
Qed.

(** X7.  Within one process, and over a patterns table with the
    uniqueness constraint, synthesizing a second time leaves the number
    of patterns as the first run left it. *)
Lemma resynthesis_same_process (py_hash : string -> Z) (re : Regex)
  (db : Store) :
  patterns_unique_id db = true ->
  let db1 := committed db (synthesize py_hash re db) in
  let db2 := committed db1 (synthesize py_hash re db1) in
  patterns_count db2 = patterns_count db1.
Proof.
  intros Hu. cbv zeta.
  destruct (synthesize py_hash re db) as [db1|e] eqn:Hrun; simpl committed.
  2:{ now rewrite Hrun. }
  unfold synthesize in Hrun.
  destruct (extract_patterns_from_reference py_hash re db)
    as [found|e] eqn:Hx; cbn [bind] in Hrun; [|discriminate].
  destruct found as [|pattern found].
  { injection Hrun as <-. unfold synthesize. now rewrite Hx. }
  assert (Hall : pattern :: found <> []) by discriminate.
  destruct (patterns db) as [rows|] eqn:Hp.
  2:{ destruct (save_patterns_without_tables _ db (or_introl Hp) Hall)
        as (e & He). congruence. }
  destruct (patterns_fts db) as [idx|] eqn:Hf.
  2:{ destruct (save_patterns_without_tables _ db (or_intror Hf) Hall)
        as (e & He). congruence. }
  destruct (save_patterns_upserts (pattern :: found) db rows idx Hp Hf Hu)
    as (db1' & rows1 & idx1 & Hs1 & Hp1 & Hf1 & Hu1 & Hr1 & U1).
  assert (db1' = db1) by congruence. subst db1'.
  destruct (save_patterns_upserts (pattern :: found) db1 rows1 idx1 Hp1 Hf1
              Hu1)
    as (db2 & rows2 & idx2 & Hs2 & Hp2 & Hf2 & Hu2 & Hr2 & U2).
  unfold synthesize.
  rewrite (extract_reads_reference_only py_hash re db db1 Hr1), Hx.
  cbn [bind]. rewrite Hs2. simpl committed.
  unfold patterns_count. rewrite Hp2, Hp1.
  simpl. f_equal. apply (upserts_length_stable pat_id _ _ _ U2).
  intros x Hin. exact (upserts_occurrences pat_id _ _ _ x U1 Hin).
Qed.

(** Without the uniqueness constraint every saved pattern is a new
    row. *)
Lemma save_pattern_appends (db : Store) (rows : list PatternRow)
  (idx : list FtsEntry) (pattern : Pattern) :
  patterns db = Some rows -> patterns_fts db = Some idx ->
  patterns_unique_id db = false ->
  patterns_count (committed db (save_pattern db pattern))
  = Ok (S (length rows)).
Proof.
  intros Hp Hf Hu. unfold save_pattern. rewrite Hp. simpl. rewrite Hf, Hu.
  simpl. unfold patterns_count. simpl. rewrite length_app. simpl.
  f_equal. lia.
Qed.

End SynthesisFacts.

Section SynthesisClaims.

Import Synthesizer Fixtures.

(** Two runs in one process over the article store: one pattern after
    the first run and after the second. *)
Lemma resynthesis_same_process_witness :
  patterns_unique_id store_with_article = true
  /\ patterns_count
       (committed store_with_article
          (synthesize hash_seed_1 finds_nothing store_with_article))
     = Ok 1%nat
  /\ (let db1 :=
        committed store_with_article
          (synthesize hash_seed_1 finds_nothing store_with_article) in
      let db2 := committed db1 (synthesize hash_seed_1 finds_nothing db1) in
      patterns_count db2 = patterns_count db1).
Proof.
  split; [reflexivity|]. split; [reflexivity|].
  apply (resynthesis_same_process hash_seed_1 finds_nothing
           store_with_article).
  reflexivity.
Defined.

(** C9.  Synthesizing twice, by two runs of the script, leaves two
    patterns for the one section of the one article: the id of a
    pattern ends in [hash(title) % 10000], and the two interpreters
    hash the title [Queries: Introduction] to 2696 and to 7081; the
    same holds for the id of a conceptual pattern. *)
Theorem resynthesis_in_new_process_adds_patterns :
  let db1 :=
    committed store_with_article
      (synthesize hash_seed_1 finds_nothing store_with_article) in
  let db2 := committed db1 (synthesize hash_seed_2 finds_nothing db1) in
  pattern_ids db1 = ["sqlitedata-perf-2696"]
  /\ pattern_ids db2 = ["sqlitedata-perf-2696"; "sqlitedata-perf-7081"]
  /\ patterns_count db1 = Ok 1%nat
  /\ patterns_count db2 = Ok 2%nat
  /\ ComposableSynthesizer.id
       (ComposableSynthesizer._create_conceptual_pattern hash_seed_1
          "Managing State" "" "Articles") = "tca-concept-8104"
  /\ ComposableSynthesizer.id
       (ComposableSynthesizer._create_conceptual_pattern hash_seed_2
          "Managing State" "" "Articles") = "tca-concept-8748".
Proof. cbv zeta. repeat split; vm_compute; reflexivity. Qed.

End SynthesisClaims.

(** ** Words, white space and substrings *)

Section StringFacts.

Lemma append_nil_r (s : string) : s ++ "" = s.
Proof. induction s; simpl; congruence. Qed.

Lemma append_assoc (a b c : string) : (a ++ b) ++ c = a ++ (b ++ c).
Proof. induction a; simpl; congruence. Qed.

Lemma append_length (a b : string) :
  String.length (a ++ b) = (String.length a + String.length b)%nat.
Proof. induction a; simpl; congruence. Qed.

Lemma eqb_append_char (w : string) (c : ascii) :
  String.eqb (w ++ String c "") "" = false.
Proof. destruct w; reflexivity. Qed.

Lemma rstrip_cons_nonspace (c : ascii) (s : string) :
  isspace c = false -> rstrip (String c s) = String c (rstrip s).
Proof. intros H. simpl. rewrite H. now destruct (rstrip s). Qed.

Lemma rstrip_cons_space (c : ascii) (s : string) :
  isspace c = true ->
  rstrip (String c s)
  = if String.eqb (rstrip s) "" then "" else String c (rstrip s).
Proof. intros H. simpl. rewrite H. now destruct (rstrip s). Qed.

(** A text splits into no word exactly when it is white space only. *)
Lemma split_ws_nil (w s : string) :
  split_ws w s = [] <-> w = "" /\ rstrip s = "".
Proof.
  revert w. induction s as [|c s IH]; intros w.
  - simpl. destruct (String.eqb_spec w ""); split; try tauto; try discriminate.
  - cbn [split_ws]. destruct (isspace c) eqn:Hc.
    + rewrite (rstrip_cons_space c s Hc).
      destruct (String.eqb_spec w "") as [->|Hw].
      * rewrite IH. split; intros [_ H]; split; try reflexivity.
        -- now rewrite H.
        -- destruct (String.eqb_spec (rstrip s) ""); [assumption|discriminate].
      * split; [discriminate|]. intros [Hw' _]. contradiction.
    + rewrite (rstrip_cons_nonspace c s Hc), IH. split.
      * intros [Hw _]. destruct w; discriminate.
      * intros [_ H]. discriminate.
Qed.

(** The words joined by single spaces, in terms of the text with its
    white space runs collapsed and its trailing white space removed. *)
Lemma join_split_ws (w s : string) :
  join " " (split_ws w s)
  = if String.eqb w "" then collapse_ws true (rstrip s)
    else w ++ collapse_ws false (rstrip s).
Proof.
  revert w. induction s as [|c s IH]; intros w.
  - simpl. destruct (String.eqb_spec w ""); simpl; [reflexivity|].
    now rewrite append_nil_r.
  - cbn [split_ws]. destruct (isspace c) eqn:Hc.
    + rewrite (rstrip_cons_space c s Hc).
      pose proof (IH "") as IH0. simpl String.eqb in IH0.
      pose proof (split_ws_nil "" s) as Hnil.
      destruct (String.eqb_spec w "") as [->|Hw].
      * rewrite IH0. destruct (String.eqb_spec (rstrip s) "") as [->|Hr].
        -- reflexivity.
        -- simpl. now rewrite Hc.
      * destruct (String.eqb_spec (rstrip s) "") as [Hr|Hr].
        -- assert (Hs : split_ws "" s = []) by (apply Hnil; auto).
           rewrite Hs. simpl. now rewrite append_nil_r.
        -- destruct (split_ws "" s) as [|p rest] eqn:Hs.
           ++ exfalso. apply Hr. now apply Hnil.
           ++ change (join " " (w :: p :: rest))
                with (w ++ " " ++ join " " (p :: rest)).
              rewrite IH0. simpl. now rewrite Hc.
    + rewrite IH, eqb_append_char, (rstrip_cons_nonspace c s Hc).
      simpl. rewrite Hc. rewrite append_assoc. simpl.
      destruct (String.eqb_spec w "") as [->|Hw]; reflexivity.
Qed.

Lemma collapse_after_lstrip (s : string) :
  collapse_ws false (rstrip (lstrip s)) = collapse_ws true (rstrip s).
Proof.
  induction s as [|c s IH]; [reflexivity|].
  cbn [lstrip]. destruct (isspace c) eqn:Hc.
  - rewrite IH, (rstrip_cons_space c s Hc).
    destruct (String.eqb_spec (rstrip s) "") as [->|Hr]; [reflexivity|].
    simpl. now rewrite Hc.
  - rewrite (rstrip_cons_nonspace c s Hc). simpl. now rewrite Hc.
Qed.

(** [re.sub(r'\s+', ' ', s.strip())] is [' '.join(s.split())]. *)
Lemma normalize_ws_words (s : string) :
  normalize_ws s = join " " (split s).
Proof.
  unfold normalize_ws, strip, split.
  now rewrite join_split_ws, collapse_after_lstrip.
Qed.

Lemma prefix_spec (p s : string) :
  String.prefix p s = true <-> exists rest, s = p ++ rest.
Proof.
  revert s. induction p as [|c p IH]; intros s.
  - split; [intros _; now exists s|intros _; now destruct s].
  - destruct s as [|d s]; simpl.
    + split; [discriminate|]. intros [rest H]. discriminate.
    + destruct (Ascii.ascii_dec c d) as [->|Hcd].
      * rewrite IH. split; intros [rest H]; exists rest; congruence.
      * split; [discriminate|]. intros [rest H]. congruence.
Qed.

(** [sub in s]: the text [s] holds [sub] somewhere. *)
Lemma contains_spec (sub s : string) :
  contains sub s = true <-> exists before after, s = before ++ sub ++ after.
Proof.
  induction s as [|c s IH].
  - cbn [contains]. rewrite prefix_spec. split.
    + intros [rest H]. exists "", rest. exact H.
    + intros [before [after H]]. destruct before; [|discriminate].
      now exists after.
  - cbn [contains]. rewrite orb_true_iff, prefix_spec, IH. split.
    + intros [[rest H]|[before [after H]]].
      * exists "", rest. exact H.
      * exists (String c before), after. simpl. now rewrite H.
    + intros [before [after H]]. destruct before as [|d before].
      * left. now exists after.
      * right. simpl in H. injection H as _ H. now exists before, after.
Qed.

(** A text that holds [q] holds every text that [q] holds. *)
Lemma contains_trans (p q s : string) :
  contains p q = true -> contains q s = true -> contains p s = true.
Proof.
  rewrite !contains_spec.
  intros [b1 [a1 ->]] [b2 [a2 ->]].
  exists (b2 ++ b1), (a1 ++ a2).
  now rewrite !append_assoc.
Qed.

Lemma take_length (n : nat) (s : string) :
  (String.length (take n s) <= n)%nat.
Proof.
  revert s. induction n as [|n IH]; intros [|c s]; simpl; try lia.
  specialize (IH s). lia.
Qed.

Lemma take_all (n : nat) (s : string) :
  (String.length s <= n)%nat -> take n s = s.
Proof.
  revert s. induction n as [|n IH]; intros [|c s]; simpl; intros H;
    try reflexivity; try lia.
  rewrite IH; [reflexivity|lia].
Qed.

End StringFacts.

(** ** Sets *)

Section SetFacts.

Lemma set_mem_In (x : string) (s : list string) :
  set_mem x s = true <-> In x s.
Proof.
  unfold set_mem. rewrite existsb_exists. split.
  - intros [y [Hy Heq]]. apply String.eqb_eq in Heq. now subst.
  - intros H. exists x. split; [exact H|apply String.eqb_refl].
Qed.

Lemma set_add_NoDup (x : string) (s : list string) :
  NoDup s -> NoDup (set_add x s).
Proof.
  intros H. unfold set_add. destruct (set_mem x s) eqn:Hx; [exact H|].
  apply NoDup_app; [exact H | repeat constructor; intros [] |].
  intros y Hy [<-|[]]. apply set_mem_In in Hy. congruence.
Qed.

Lemma set_update_NoDup (s xs : list string) :
  NoDup s -> NoDup (set_update s xs).
Proof.
  revert s. unfold set_update.
  induction xs as [|x xs IH]; intros s H; simpl; [exact H|].
  apply IH. now apply set_add_NoDup.
Qed.

Lemma set_of_NoDup (xs : list string) : NoDup (set_of xs).
Proof. apply set_update_NoDup. constructor. Qed.

Lemma set_update_In (x : string) (s xs : list string) :
  In x (set_update s xs) <-> In x s \/ In x xs.
Proof.
  revert s. unfold set_update.
  induction xs as [|y xs IH]; intros s; simpl; [tauto|].
  rewrite IH, <- !set_mem_In, set_mem_add, orb_true_iff, String.eqb_eq.
  rewrite set_mem_In. intuition congruence.
Qed.

Lemma set_of_In (x : string) (xs : list string) :
  In x (set_of xs) <-> In x xs.
Proof. unfold set_of. rewrite set_update_In. simpl. tauto. Qed.

Lemma set_inter_In (x : string) (a b : list string) :
  In x (set_inter a b) <-> In x a /\ In x b.
Proof. unfold set_inter. now rewrite filter_In, set_mem_In. Qed.

(** The two ways round, an intersection of sets has one size. *)
Lemma set_inter_length_comm (a b : list string) :
  NoDup a -> NoDup b -> length (set_inter a b) = length (set_inter b a).
Proof.
  intros Ha Hb.
  assert (H1 : (length (set_inter a b) <= length (set_inter b a))%nat).
  { apply NoDup_incl_length; [now apply NoDup_filter|].
    intros x. rewrite !set_inter_In. tauto. }
  assert (H2 : (length (set_inter b a) <= length (set_inter a b))%nat).
  { apply NoDup_incl_length; [now apply NoDup_filter|].
    intros x. rewrite !set_inter_In. tauto. }
  lia.
Qed.

Lemma set_inter_self (a : list string) : set_inter a a = a.
Proof.
  unfold set_inter. apply forallb_filter_id. apply forallb_forall.
  intros x. apply set_mem_In.
Qed.

End SetFacts.

(** ** The duplicate analyzer: hashes, tags, candidate files, titles *)

Section DetectorHelpers.

Import DuplicateDetector DetectorVersions.

Variable md5_hex : string -> string.

(** X8.  The content hash of a document is taken over its words: it is
    the first 16 characters of the digest of the words of the content
    (as [str.split] separates them) joined by single spaces, so two
    contents that differ in white space only have one hash. *)
Theorem content_hash_of_words (content : string) :
  _calculate_content_hash md5_hex content
  = take 16 (md5_hex (join " " (split content))).
Proof.
  unfold _calculate_content_hash. now rewrite normalize_ws_words.
Qed.

(** X9.  The tags extracted from a content are technology tags of the
    fixed list, without repeats; and since a tag is searched as a
    substring, a content that is tagged [swiftui] is always tagged
    [swift] as well. *)
Theorem extract_tags_of_tech_tags (content : string) :
  NoDup (_extract_tags content)
  /\ incl (_extract_tags content) tech_tags
  /\ (In "swiftui" (_extract_tags content) ->
      In "swift" (_extract_tags content)).
Proof.
  unfold _extract_tags. split; [|split].
  - apply NoDup_filter. unfold tech_tags.
    repeat (constructor; [simpl; intuition discriminate|]). constructor.
  - apply incl_filter.
  - rewrite !filter_In. intros [_ H]. split.
    + simpl. auto.
    + apply (contains_trans "swift" "swiftui"); [reflexivity|exact H].
Qed.

(** X10.  The candidate list holds at most one entry per [*.md] file
    found (a file that cannot be read has none), the preview of an
    entry is never longer than 503 characters, and it is the whole
    content when the content has at most 500 characters. *)
Theorem document_files_bounded (fs : FileSystem) (docs_path : string) :
  let files := _get_document_files md5_hex fs docs_path in
  (length files
   <= match rglob_md fs docs_path with
      | Some found => length found
      | None => 0
      end)%nat
  /\ Forall
       (fun f =>
          (String.length (content_preview f) <= 503)%nat
          /\ ((size f <= 500)%nat ->
              read_text fs (path f) = Ok (content_preview f)))
       files.
Proof.
  unfold _get_document_files. cbv zeta.
  destruct (rglob_md fs docs_path) as [found|]; [|split; [simpl; lia|constructor]].
  induction found as [|md_file found [IHlen IHall]]; [split; [simpl; lia|constructor]|].
  cbn [flat_map]. destruct (read_text fs (fst md_file)) as [content|e] eqn:Hread.
  - split; [cbn [app length]; lia|]. cbn [app]. constructor; [|exact IHall].
    cbn [content_preview size path]. split.
    + rewrite append_length. pose proof (take_length 500 content).
      destruct (500 <? String.length content)%nat;
        [change (String.length "...") with 3%nat
        |change (String.length "") with 0%nat]; lia.
    + intros Hsize. rewrite Hread. f_equal.
      destruct (500 <? String.length content)%nat eqn:Hlt.
      * apply Nat.ltb_lt in Hlt. lia.
      * now rewrite append_nil_r, take_all.
  - split; [cbn [app length]; lia|exact IHall].
Qed.

(** [_is_same_content_type] never divides by zero, and it gives one
    answer for a pair of titles whichever comes first. *)
Lemma same_content_type_symmetric (title1 title2 : string) :
  exists answer : bool,
    _is_same_content_type title1 title2 = Ok answer
    /\ _is_same_content_type title2 title1 = Ok answer.
Proof.
  unfold _is_same_content_type.
  set (w1 := title_words title1). set (w2 := title_words title2).
  assert (Hcomm : length (set_inter w2 w1) = length (set_inter w1 w2)).
  { apply set_inter_length_comm; apply set_of_NoDup. }
  rewrite Hcomm, (Nat.min_comm (length w2)).
  destruct (3 <=? length (set_inter w1 w2))%nat; [now exists true|].
  destruct (0 <? length (set_inter w1 w2))%nat eqn:Hpos; [|now exists false].
  apply Nat.ltb_lt in Hpos.
  assert (Hmin : (0 < Nat.min (length w1) (length w2))%nat).
  { destruct (set_inter w1 w2) as [|x rest] eqn:Hx; [simpl in Hpos; lia|].
    assert (Hin : In x (set_inter w1 w2)) by (rewrite Hx; now left).
    apply set_inter_In in Hin. destruct Hin as [H1 H2].
    destruct w1; [destruct H1|]. destruct w2; [destruct H2|]. simpl. lia. }
  unfold truediv. rewrite Qeq_bool_Q_of_nat.
  destruct (Nat.min (length w1) (length w2) =? 0)%nat eqn:Hz.
  - apply Nat.eqb_eq in Hz. lia.
  - simpl. eexists. split; reflexivity.
Qed.

(** A title is of its own content type exactly when it holds a word. *)
Lemma same_content_type_reflexive (title : string) :
  _is_same_content_type title title
  = Ok (negb (length (title_words title) =? 0)%nat).
Proof.
  unfold _is_same_content_type. rewrite set_inter_self, Nat.min_id.
  set (n := length (title_words title)).
  destruct (3 <=? n)%nat eqn:H3.
  - apply Nat.leb_le in H3. destruct n; [lia|reflexivity].
  - destruct n as [|n]; [reflexivity|].
    change (0 <? S n)%nat with true. cbv iota.
    unfold truediv. rewrite Qeq_bool_Q_of_nat.
    change (S n =? 0)%nat with false. cbv iota.
    cbn [bind negb]. f_equal. apply Qgt_bool_iff.
    assert (Hpos : (0 < Q_of_nat (S n))%Q) by (apply Q_of_nat_pos; lia).
    apply Qlt_shift_div_l; [exact Hpos|].
    apply Qlt_le_trans with (y := (1 * Q_of_nat (S n))%Q).
    + apply Qmult_lt_compat_r; [exact Hpos|reflexivity].
    + rewrite Qmult_1_l. apply Qle_refl.
Qed.

(** X11.  [_is_same_content_type] always returns (its division is
    never by zero); it gives one answer for a pair of titles whichever
    comes first; and a title is of its own content type exactly when it
    holds a word. *)
Theorem same_content_type_relation (title1 title2 : string) :
  (exists answer : bool,
     _is_same_content_type title1 title2 = Ok answer
     /\ _is_same_content_type title2 title1 = Ok answer)
  /\ _is_same_content_type title1 title1
     = Ok (negb (length (title_words title1) =? 0)%nat).
Proof.
  split.
  - apply same_content_type_symmetric.
  - apply same_content_type_reflexive.
Qed.

End DetectorHelpers.

(** ** Which query strings the tokenizer takes *)

Section TokenizerFacts.

Lemma between_bareword (c : ascii) :
  fts5_isbareword c = true ->
  fts5_between c = Some (inl ([], InBareword (String c ""))).
Proof. by_cases_on c. Qed.

Lemma between_space (c : ascii) :
  fts5_isspace c = true ->
  fts5_isbareword c = false /\ fts5_between c = Some (inl ([], Between)).
Proof. by_cases_on c. Qed.

Lemma between_rejected (c : ascii) :
  fts5_plain c = false -> is_dquote c = false -> is_nul c = false ->
  fts5_isbareword c = false /\ fts5_between c = None.
Proof. by_cases_on c. Qed.

(** Outside a quoted string, a character other than the quote and NUL
    is rejected or leaves the tokenizer outside a quoted string. *)
Lemma between_unquoted (c : ascii) :
  no_quote_or_nul c = true ->
  fts5_between c = None
  \/ (exists emitted, fts5_between c = Some (inl (emitted, Between)))
  \/ (exists emitted w,
        fts5_between c = Some (inl (emitted, InBareword w))).
Proof.
  destruct c as [[] [] [] [] [] [] [] []]; vm_compute; intros;
    try discriminate;
    first [ now left
          | right; left; eexists; reflexivity
          | right; right; eexists; eexists; reflexivity ].
Qed.

Lemma clean_query_chars (query : string) :
  chars (KnowledgeBase.clean_query query) = map clean_char (chars query).
Proof.
  unfold KnowledgeBase.clean_query, chars.
  induction query as [|c query IH]; [reflexivity|].
  cbn [replace_char list_ascii_of_string map]. rewrite IH. f_equal.
  by_cases_on c.
Qed.

Lemma clean_char_word (c : ascii) :
  word_or_listed c = true ->
  fts5_isbareword (clean_char c) || fts5_isspace (clean_char c) = true.
Proof. by_cases_on c. Qed.

Lemma clean_char_rejected (c : ascii) :
  fts5_rejected c = true ->
  fts5_plain (clean_char c) = false /\ is_dquote (clean_char c) = false
  /\ is_nul (clean_char c) = false.
Proof. by_cases_on c. Qed.

Lemma clean_char_unquoted (c : ascii) :
  no_quote_or_nul c = true -> no_quote_or_nul (clean_char c) = true.
Proof. by_cases_on c. Qed.

Lemma fts5_word_is_word (w : string) : is_word (fts5_word w) = true.
Proof.
  unfold fts5_word.
  destruct (String.eqb w "OR"); [reflexivity|].
  destruct (String.eqb w "NOT"); [reflexivity|].
  destruct (String.eqb w "AND"); reflexivity.
Qed.

Lemma chars_cons (c : ascii) (s : string) : chars (String c s) = c :: chars s.
Proof. reflexivity. Qed.

(** A text of bareword characters and white space is a sequence of
    words. *)
Lemma tokens_of_words (s : string) (st : Fts5Lex) :
  unquoted st ->
  forallb (fun c => fts5_isbareword c || fts5_isspace c) (chars s) = true ->
  exists toks,
    fts5_tokens st s = Some toks /\ forallb is_word toks = true.
Proof.
  revert st. induction s as [|c s IH]; intros st Hst Hall.
  - destruct st as [|w| |]; try destruct Hst; simpl.
    + now exists [].
    + exists [fts5_word w]. simpl. now rewrite fts5_word_is_word.
  - rewrite chars_cons in Hall. cbn [forallb] in Hall.
    apply andb_true_iff in Hall. destruct Hall as [Hc Hall].
    apply orb_true_iff in Hc. cbn [fts5_tokens].
    destruct Hc as [Hword|Hspace].
    + rewrite (between_bareword c Hword), Hword.
      destruct st as [|w| |]; try destruct Hst.
      * destruct (IH (InBareword (String c "")) I Hall) as [toks [-> Hw]].
        exists toks. now split.
      * exact (IH (InBareword (w ++ String c "")) I Hall).
    + destruct (between_space c Hspace) as [Hnot ->]. rewrite Hnot.
      destruct (IH Between I Hall) as [toks [-> Hw]].
      destruct st as [|w| |]; try destruct Hst.
      * exists toks. now split.
      * exists (fts5_word w :: toks). split; [reflexivity|].
        simpl. now rewrite fts5_word_is_word.
Qed.

(** A text that holds, outside any quoted string, a character the
    tokenizer does not know is a syntax error. *)
Lemma tokens_rejected (s : string) (st : Fts5Lex) :
  unquoted st ->
  forallb no_quote_or_nul (chars s) = true ->
  existsb
    (fun c => negb (fts5_plain c) && negb (is_dquote c) && negb (is_nul c))
    (chars s) = true ->
  fts5_tokens st s = None.
Proof.
  revert st. induction s as [|c s IH]; intros st Hst Hall Hbad.
  - discriminate.
  - rewrite chars_cons in Hall, Hbad. cbn [forallb existsb] in Hall, Hbad.
    apply andb_true_iff in Hall. destruct Hall as [Hc Hall].
    cbn [fts5_tokens].
    destruct (negb (fts5_plain c) && negb (is_dquote c) && negb (is_nul c))
      eqn:Hhere.
    + apply andb_true_iff in Hhere. destruct Hhere as [Hhere Hn].
      apply andb_true_iff in Hhere. destruct Hhere as [Hp Hq].
      apply negb_true_iff in Hp, Hq, Hn.
      destruct (between_rejected c Hp Hq Hn) as [Hnot ->]. rewrite Hnot.
      destruct st as [|w| |]; try destruct Hst; reflexivity.
    + simpl in Hbad.
      assert (Hrest : forall st', unquoted st' -> fts5_tokens st' s = None)
        by (intros st' Hst'; now apply IH).
      assert (Hcont :
        forall done : list Fts5Token,
          match fts5_between c with
          | None => None
          | Some (inr _) => Some done
          | Some (inl (emitted, st')) =>
              option_map (fun rest => (done ++ emitted ++ rest)%list)
                (fts5_tokens st' s)
          end = None).
      { intros done.
        destruct (between_unquoted c Hc) as [->|[[e ->]|[e [w ->]]]].
        - reflexivity.
        - now rewrite (Hrest Between I).
        - now rewrite (Hrest (InBareword w) I). }
      destruct st as [|w| |]; try destruct Hst.
      * apply Hcont.
      * destruct (fts5_isbareword c); [now apply Hrest|apply Hcont].
Qed.

End TokenizerFacts.

(** ** Queries of the knowledge base *)

Section QueryClaims.

Import KnowledgeBase.

(** X12.  A query made of bareword characters (letters, digits, the
    underscore, non-ASCII characters), white space and the five
    characters [clean_query] replaces is, once cleaned, a sequence of
    words for the FTS5 tokenizer: the tokenizer accepts it, and no
    token is a punctuation token. *)
Theorem clean_query_of_words_tokenizes (query : string) :
  forallb word_or_listed (chars query) = true ->
  exists toks,
    fts5_tokens Between (clean_query query) = Some toks
    /\ forallb is_word toks = true.
Proof.
  intros Hall. apply tokens_of_words; [exact I|].
  rewrite clean_query_chars, forallb_forall. intros c Hc.
  apply in_map_iff in Hc. destruct Hc as [d [<- Hd]].
  apply clean_char_word. rewrite forallb_forall in Hall. now apply Hall.
Qed.

(** The query of a developer about a SwiftUI property wrapper. *)
Lemma clean_query_of_words_witness :
  forallb word_or_listed (chars "@State var count: Int") = true
  /\ exists toks,
       fts5_tokens Between (clean_query "@State var count: Int") = Some toks
       /\ forallb is_word toks = true.
Proof.
  split; [reflexivity|].
  apply (clean_query_of_words_tokenizes "@State var count: Int"). reflexivity.
Defined.

(** X13.  A query that holds no double quote and no NUL, and holds a
    character that is neither a bareword character, white space, FTS5
    punctuation nor one of the five characters [clean_query] replaces
    (an apostrophe, a question mark, a slash, ...), makes
    [_search_knowledge] raise [OperationalError], whatever the store
    holds and whatever the engine. *)
Theorem search_knowledge_rejects_stray_character (E : Fts5Engine)
  (db : Store) (query : string) (limit : Z) :
  forallb no_quote_or_nul (chars query) = true ->
  existsb fts5_rejected (chars query) = true ->
  _search_knowledge E db query limit = Raise OperationalError.
Proof.
  intros Hall Hbad. unfold _search_knowledge.
  rewrite fts5_select_syntax_error; [reflexivity|].
  apply tokens_rejected; [exact I| |].
  - rewrite clean_query_chars, forallb_forall. intros c Hc.
    apply in_map_iff in Hc. destruct Hc as [d [<- Hd]].
    apply clean_char_unquoted. rewrite forallb_forall in Hall. now apply Hall.
  - rewrite clean_query_chars. apply existsb_exists.
    apply existsb_exists in Hbad. destruct Hbad as [c [Hc Hrej]].
    exists (clean_char c). split; [now apply in_map|].
    destruct (clean_char_rejected c Hrej) as [Hp [Hq Hn]].
    now rewrite Hp, Hq, Hn.
Qed.

(** A question with an apostrophe and a question mark. *)
Lemma search_knowledge_stray_witness :
  forallb no_quote_or_nul (chars "what's new in swift?") = true
  /\ existsb fts5_rejected (chars "what's new in swift?") = true
  /\ _search_knowledge Fixtures.match_all Fixtures.store_with_knowledge
       "what's new in swift?" 5
     = Raise OperationalError.
Proof.
  split; [reflexivity|]. split; [reflexivity|].
  apply (search_knowledge_rejects_stray_character Fixtures.match_all
           Fixtures.store_with_knowledge "what's new in swift?" 5);
    reflexivity.
Defined.

End QueryClaims.

(** ** The counters of a session *)

Section CounterClaims.

Variable clock : Clock.

(** X14.  Every call of [solve_developer_problem] that returns counts
    one query, and keeps the counters of the session in step: each
    query was either served from the cache or timed, and no more hits
    in the knowledge table are counted than response times. *)
Theorem solve_keeps_counters (md5_hex : string -> string)
  (a1 a2 a3 a4 : string) (E : Fts5Engine) (db : Store)
  (kb kb' : KnowledgeBase.KB) (query : string) (r : KnowledgeBase.Result) :
  counters_add_up kb ->
  KnowledgeBase.solve_developer_problem clock md5_hex a1 a2 a3 a4 E db kb query
  = Ok (r, kb') ->
  counters_add_up kb'
  /\ KnowledgeBase.total_queries (KnowledgeBase.stats kb')
     = S (KnowledgeBase.total_queries (KnowledgeBase.stats kb)).
Proof.
  unfold counters_add_up, KnowledgeBase.solve_developer_problem.
  intros [Hsum Hhits].
  destruct (dict_get String.eqb (KnowledgeBase._get_cache_key md5_hex query)
              (KnowledgeBase.cache kb)) as [cached|].
  - intros [= _ <-]. simpl. repeat split; lia.
  - destruct (KnowledgeBase._search_knowledge E db query 5) as [hits|e];
      [|discriminate].
    cbn [bind]. intros [= _ <-].
    destruct hits as [|best rest]; simpl; rewrite length_app; simpl;
      repeat split; lia.
Qed.

End CounterClaims.

Section CounterExamples.

Import Fixtures.

(** The first query of a session, answered from the knowledge table. *)
Lemma solve_keeps_counters_witness :
  counters_add_up fresh_kb
  /\ exists r kb',
       solve_swift fresh_kb = Ok (r, kb')
       /\ counters_add_up kb'
       /\ KnowledgeBase.total_queries (KnowledgeBase.stats kb') = 1%nat.
Proof.
  assert (H0 : counters_add_up fresh_kb) by (split; simpl; lia).
  split; [exact H0|].
  destruct (solve_swift fresh_kb) as [[r kb']|e] eqn:Hrun;
    [|vm_compute in Hrun; discriminate].
  exists r, kb'. split; [reflexivity|].
  exact (solve_keeps_counters seconds stub_md5 "" "" "" "" match_all
           store_with_knowledge fresh_kb kb' "swift" r H0 Hrun).
Defined.

End CounterExamples.

Section HybridCounters.

Variable clock : Clock.
Variable _format_pattern_response : HybridSearch.PatternHit -> string.
Variable _format_reference_response : HybridSearch.ReferenceHit -> string.

(** The reference search of the archived hybrid front end never
    raises: it returns a list for every store, engine and query. *)
Lemma hybrid_search_reference_returns (E : Fts5Engine) (db : Store)
  (query : string) (limit : Z) :
  exists hits, HybridSearch._search_reference E db query limit = Ok hits.
Proof.
  unfold HybridSearch._search_reference.
  destruct (fts5_select E ref_rowid (reference_fts db) (reference db) query
              limit) as [rows|e] eqn:Hsel.
  - eexists. reflexivity.
  - rewrite (fts5_select_error _ _ _ _ _ _ _ Hsel). now exists [].
Qed.

(** X15.  Every call of the archived hybrid [search] that returns
    counts one query and keeps one response time per hit: a pattern or
    reference answer adds a hit and its response time, and an answer
    [no_knowledge_found] adds neither. *)
Theorem hybrid_search_keeps_hits_timed (E : Fts5Engine) (db : Store)
  (kb kb' : HybridSearch.KB) (query : string) (limit : Z)
  (r : HybridSearch.Result) :
  hits_are_timed kb ->
  HybridSearch.search clock _format_pattern_response
    _format_reference_response E db kb query limit = Ok (r, kb') ->
  hits_are_timed kb'
  /\ HybridSearch.total_queries (HybridSearch.stats kb')
     = S (HybridSearch.total_queries (HybridSearch.stats kb))
  /\ (HybridSearch.status r = "no_knowledge_found" ->
      HybridSearch.response_times (HybridSearch.stats kb')
      = HybridSearch.response_times (HybridSearch.stats kb)).
Proof.
  unfold hits_are_timed, HybridSearch.search. intros [Hlen Hle].
  destruct (HybridSearch._search_patterns E db query limit) as [ps|e];
    [|discriminate].
  cbn [bind]. destruct ps as [|best ps].
  - destruct (HybridSearch._search_reference E db query limit) as [rs|e];
      [|discriminate].
    cbn [bind]. destruct rs as [|result rs]; intros [= <- <-]; simpl.
    + repeat split; lia.
    + rewrite length_app. simpl. repeat split; try lia. discriminate.
  - intros [= <- <-]. simpl. rewrite length_app. simpl.
    repeat split; try lia. discriminate.
Qed.

End HybridCounters.

Section HybridCounterExamples.

Import Fixtures.

(** The first query of a session over the store with one pattern. *)
Lemma hybrid_search_counters_witness :
  hits_are_timed fresh_hybrid_kb
  /\ exists r kb',
       HybridSearch.search seconds title_only_pattern title_only_reference
         match_all store_with_pattern fresh_hybrid_kb "swift" 5
       = Ok (r, kb')
       /\ hits_are_timed kb'
       /\ HybridSearch.total_queries (HybridSearch.stats kb') = 1%nat.
Proof.
  assert (H0 : hits_are_timed fresh_hybrid_kb) by (split; simpl; lia).
  split; [exact H0|].
  destruct (HybridSearch.search seconds title_only_pattern
              title_only_reference match_all store_with_pattern
              fresh_hybrid_kb "swift" 5) as [[r kb']|e] eqn:Hrun;
    [|vm_compute in Hrun; discriminate].
  exists r, kb'. split; [reflexivity|].
  destruct (hybrid_search_keeps_hits_timed seconds title_only_pattern
              title_only_reference match_all store_with_pattern
              fresh_hybrid_kb kb' "swift" 5 r H0 Hrun) as [H1 [H2 _]].
  split; [exact H1|exact H2].
Defined.

End HybridCounterExamples.

(** ** What an import writes *)

Section KeyFacts.

Context {R : Type}.
Variable id : R -> string.
Variable rowid : R -> Z.

Lemma insert_or_replace_In (row r : R) (rows : list R) :
  In r (insert_or_replace id row rows) -> r = row \/ In r rows.
Proof.
  unfold insert_or_replace. rewrite in_app_iff, filter_In. simpl.
  intros [[H _]|[H|[]]]; auto.
Qed.

Lemma insert_or_replace_holds (row : R) (rows : list R) :
  In (id row) (map id (insert_or_replace id row rows)).
Proof.
  unfold insert_or_replace. rewrite map_app, in_app_iff. right. now left.
Qed.

Lemma insert_or_replace_keeps (row : R) (rows : list R) (x : string) :
  In x (map id rows) -> In x (map id (insert_or_replace id row rows)).
Proof.
  unfold insert_or_replace. rewrite map_app, in_app_iff.
  intros Hx. apply in_map_iff in Hx. destruct Hx as [r [<- Hr]].
  destruct (String.eqb_spec (id r) (id row)) as [Heq|Hne].
  - right. simpl. left. now symmetry.
  - left. apply in_map. apply filter_In. split; [exact Hr|].
    now apply negb_true_iff, String.eqb_neq.
Qed.

Lemma NoDup_map_filter {A B : Type} (f : A -> B) (keep : A -> bool)
  (l : list A) :
  NoDup (map f l) -> NoDup (map f (filter keep l)).
Proof.
  induction l as [|a l IH]; simpl; intros H; [constructor|].
  inversion H as [|? ? Hnot Hrest]; subst.
  destruct (keep a); simpl; [|now apply IH].
  constructor; [|now apply IH].
  intros Hin. apply Hnot. apply in_map_iff in Hin.
  destruct Hin as [b [Hb Hin]]. apply filter_In in Hin.
  apply in_map_iff. exists b. tauto.
Qed.

(** An upsert keeps the ids of a table distinct. *)
Lemma insert_or_replace_ids (row : R) (rows : list R) :
  NoDup (map id rows) -> NoDup (map id (insert_or_replace id row rows)).
Proof.
  intros H. unfold insert_or_replace. rewrite map_app.
  apply NoDup_app.
  - now apply NoDup_map_filter.
  - repeat constructor. intros [].
  - intros x Hx [<-|[]]. apply in_map_iff in Hx.
    destruct Hx as [r [Hid Hr]]. apply filter_In in Hr.
    destruct Hr as [_ Hne]. apply negb_true_iff, String.eqb_neq in Hne.
    contradiction.
Qed.

Lemma rowid_below_next (rows : list R) (r : R) :
  In r rows -> (rowid r < next_rowid rowid rows)%Z.
Proof.
  unfold next_rowid.
  induction rows as [|a rows IH]; cbn [map fold_right In]; [intros []|].
  intros [->|H]; [lia|]. specialize (IH H). lia.
Qed.

(** A row inserted under the next rowid keeps the rowids distinct. *)
Lemma insert_or_replace_rowids (row : R) (rows : list R) :
  rowid row = next_rowid rowid rows ->
  NoDup (map rowid rows) ->
  NoDup (map rowid (insert_or_replace id row rows)).
Proof.
  intros Hnext H. unfold insert_or_replace. rewrite map_app.
  apply NoDup_app.
  - now apply NoDup_map_filter.
  - repeat constructor. intros [].
  - intros x Hx [<-|[]]. apply in_map_iff in Hx.
    destruct Hx as [r [Hid Hr]]. apply filter_In in Hr.
    destruct Hr as [Hr _]. pose proof (rowid_below_next rows r Hr). lia.
Qed.

End KeyFacts.

Section ImportedRows.

Import Migrator.

Variable py_hash : string -> Z.
Variable fs : FileSystem.
Variable library_name : string.

Lemma classify_document_type_range (folder_path content : string) :
  In (_classify_document_type folder_path content) document_types.
Proof.
  unfold _classify_document_type, document_types.
  repeat match goal with
         | |- context [if ?b then _ else _] => destruct b
         end; simpl; auto 6.
Qed.

Lemma lower_document_type (t : string) :
  In t document_types -> lower t = t.
Proof.
  unfold document_types. simpl.
  intros [<-|[<-|[<-|[<-|[<-|[]]]]]]; reflexivity.
Qed.

Lemma extract_tags_shape (content doc_type : string) :
  NoDup (_extract_tags content library_name doc_type)
  /\ In (lower library_name) (_extract_tags content library_name doc_type)
  /\ In (lower doc_type) (_extract_tags content library_name doc_type).
Proof.
  unfold _extract_tags. split; [apply set_of_NoDup|].
  split; apply set_of_In; simpl; auto.
Qed.

(** The row one readable file is stored as. *)
Lemma import_file_row (db : Store) (rows : list ReferenceRow)
  (md_file : string * string) (content : string) :
  reference db = Some rows ->
  read_text fs (fst md_file) = Ok content ->
  exists row,
    reference (import_file py_hash fs library_name db md_file)
    = Some (insert_or_replace ref_id row rows)
    /\ imported_row library_name row
    /\ ref_id row = doc_id py_hash library_name (snd md_file)
    /\ ref_rowid row = next_rowid ref_rowid rows.
Proof.
  intros Href Hread. unfold import_file. rewrite Hread, Href.
  eexists. split.
  - cbn [set_reference reference reference_fts].
    destruct (reference_fts db); reflexivity.
  - split; [|split; reflexivity].
    unfold imported_row. cbn.
    set (folder :=
           if String.eqb (path_parent (snd md_file)) "." then "root"
           else path_parent (snd md_file)).
    pose proof (classify_document_type_range folder content) as Htype.
    destruct (extract_tags_shape content
                (_classify_document_type folder content)) as [Hnd [Hlib Hdoc]].
    rewrite (lower_document_type _ Htype) in Hdoc.
    repeat split; try assumption.
    subst folder.
    destruct (String.eqb_spec (path_parent (snd md_file)) ".");
      [discriminate|assumption].
Qed.

Lemma import_file_unreadable (db : Store) (md_file : string * string)
  (e : exn) :
  read_text fs (fst md_file) = Raise e ->
  import_file py_hash fs library_name db md_file = db.
Proof. intros H. unfold import_file. now rewrite H. Qed.

(** What one file leaves untouched. *)
Lemma import_file_frame (db : Store) (md_file : string * string) :
  let db' := import_file py_hash fs library_name db md_file in
  knowledge db' = knowledge db /\ knowledge_fts db' = knowledge_fts db
  /\ patterns db' = patterns db
  /\ patterns_unique_id db' = patterns_unique_id db
  /\ patterns_fts db' = patterns_fts db.
Proof.
  unfold import_file.
  destruct (read_text fs (fst md_file)); [|now repeat split].
  destruct (reference db); [|now repeat split].
  cbn [set_reference reference_fts].
  destruct (reference_fts db); now repeat split.
Qed.

(** A property of the rows of the table that every imported row has
    holds of the table after the run. *)
Lemma import_run_rows (Q : ReferenceRow -> Prop)
  (found : list (string * string)) (db : Store)
  (current : list ReferenceRow) :
  (forall r, imported_row library_name r -> Q r) ->
  reference db = Some current ->
  Forall Q current ->
  exists rows',
    reference (fold_left (import_file py_hash fs library_name) found db)
    = Some rows'
    /\ Forall Q rows'.
Proof.
  intros HQ. revert db current.
  induction found as [|md_file found IH]; intros db current Href Hall.
  - exists current. now split.
  - cbn [fold_left].
    destruct (read_text fs (fst md_file)) as [content|e] eqn:Hread.
    + destruct (import_file_row db current md_file content Href Hread)
        as [row [Hnew [Hshape _]]].
      apply (IH _ _ Hnew).
      apply Forall_forall. intros r Hr.
      apply insert_or_replace_In in Hr. destruct Hr as [->|Hr].
      * now apply HQ.
      * rewrite Forall_forall in Hall. now apply Hall.
    + rewrite (import_file_unreadable db md_file e Hread).
      now apply (IH db current).
Qed.

(** X16.  An import reads and writes the reference table and its index
    only: the knowledge table, the patterns table and their indexes
    are after the run what they were before it. *)
Theorem import_touches_reference_only (db : Store)
  (docs_path : string) :
  let db' :=
    snd (import_reference_documentation py_hash fs db docs_path library_name)
  in
  knowledge db' = knowledge db /\ knowledge_fts db' = knowledge_fts db
  /\ patterns db' = patterns db
  /\ patterns_unique_id db' = patterns_unique_id db
  /\ patterns_fts db' = patterns_fts db.
Proof.
  unfold import_reference_documentation.
  destruct (rglob_md fs docs_path) as [found|]; [|now repeat split].
  cbn [snd]. revert db. induction found as [|md_file found IH]; intros db.
  - now repeat split.
  - cbn [fold_left].
    destruct (IH (import_file py_hash fs library_name db md_file))
      as [H1 [H2 [H3 [H4 H5]]]].
    destruct (import_file_frame db md_file) as [F1 [F2 [F3 [F4 F5]]]].
    cbv zeta in *. repeat split; congruence.
Qed.

(** X17.  Over a store that has no reference table, an import of an
    existing directory reports success and leaves the store as it was:
    the failure of every insert is caught file by file. *)
Theorem import_without_reference_table (db : Store) (docs_path : string)
  (found : list (string * string)) :
  reference db = None ->
  rglob_md fs docs_path = Some found ->
  import_reference_documentation py_hash fs db docs_path library_name
  = (true, db).
Proof.
  intros Href Hfound. unfold import_reference_documentation. rewrite Hfound.
  f_equal. now apply import_run_without_table.
Qed.

(** X18.  After an import every row of the reference table is a row
    that was there before or a row of the imported library whose
    document type is one of the five types, whose folder is not ["."],
    whose word count is that of its content, and whose tags have no
    repeats and hold the lower-cased library name and the document
    type. *)
Theorem import_writes_library_rows (db : Store) (docs_path : string)
  (rows : list ReferenceRow) :
  reference db = Some rows ->
  exists rows',
    reference
      (snd (import_reference_documentation py_hash fs db docs_path
              library_name))
    = Some rows'
    /\ Forall (fun r => In r rows \/ imported_row library_name r) rows'.
Proof.
  intros Href. unfold import_reference_documentation.
  destruct (rglob_md fs docs_path) as [found|].
  2:{ exists rows. split; [exact Href|]. apply Forall_forall. auto. }
  cbn [snd]. apply import_run_rows with (current := rows).
  - auto.
  - exact Href.
  - apply Forall_forall. auto.
Qed.

(** X19.  An import keeps the keys of the reference table distinct: if
    no two rows share an id or a rowid before the run, none do after
    it; and every file that could be read is then stored under its
    id. *)
Theorem import_keeps_keys_unique (db : Store) (docs_path : string)
  (rows : list ReferenceRow) (found : list (string * string)) :
  reference db = Some rows ->
  rglob_md fs docs_path = Some found ->
  keys_unique rows ->
  exists rows',
    reference
      (snd (import_reference_documentation py_hash fs db docs_path
              library_name))
    = Some rows'
    /\ keys_unique rows'
    /\ incl (imported_ids py_hash fs library_name found) (map ref_id rows')
    /\ incl (map ref_id rows) (map ref_id rows').
Proof.
  intros Href Hfound. unfold import_reference_documentation.
  rewrite Hfound. cbn [snd]. clear Hfound.
  revert db rows Href. induction found as [|md_file found IH];
    intros db rows Href Hkeys.
  - exists rows. repeat split; try apply Hkeys; try exact Href.
    + intros x [].
    + apply incl_refl.
  - cbn [fold_left]. unfold imported_ids. cbn [flat_map].
    fold (imported_ids py_hash fs library_name found).
    destruct (read_text fs (fst md_file)) as [content|e] eqn:Hread.
    + destruct (import_file_row db rows md_file content Href Hread)
        as [row [Hnew [_ [Hid Hrowid]]]].
      destruct Hkeys as [Hids Hrowids].
      destruct (IH _ _ Hnew) as [rows' [Hrows' [Hkeys' [Hin Hold]]]].
      { split.
        - now apply insert_or_replace_ids.
        - now apply insert_or_replace_rowids. }
      exists rows'. split; [exact Hrows'|]. split; [exact Hkeys'|]. split.
      * intros x [<-|Hx]; [|now apply Hin].
        apply Hold. rewrite <- Hid. apply insert_or_replace_holds.
      * intros x Hx. apply Hold. now apply insert_or_replace_keeps.
    + rewrite (import_file_unreadable db md_file e Hread).
      now apply (IH db rows).
Qed.

End ImportedRows.

Section ImportedRowExamples.

Import Migrator Fixtures.

(** The guide directory imported into a store without any table. *)
Lemma import_without_reference_table_witness :
  reference empty_store = None
  /\ rglob_md guide_directory "docs" = Some [("docs/guide.md", "guide.md")]
  /\ import_reference_documentation hash_seed_1 guide_directory empty_store
       "docs" "Lib"
     = (true, empty_store).
Proof.
  split; [reflexivity|]. split; [reflexivity|].
  apply (import_without_reference_table hash_seed_1 guide_directory "Lib"
           empty_store "docs" [("docs/guide.md", "guide.md")]);
    reflexivity.
Defined.

(** The guide directory imported into the store of one document. *)
Lemma import_writes_library_rows_witness :
  reference (store_with "a b")
  = Some [reference_row 1 "Lib_a_1" "A" "a b" "Lib" "a.md"]
  /\ exists rows',
       reference
         (snd (import_reference_documentation hash_seed_1 guide_directory
                 (store_with "a b") "docs" "Guides"))
       = Some rows'
       /\ Forall
            (fun r =>
               In r [reference_row 1 "Lib_a_1" "A" "a b" "Lib" "a.md"]
               \/ imported_row "Guides" r)
            rows'.
Proof.
  split; [reflexivity|].
  apply (import_writes_library_rows hash_seed_1 guide_directory "Guides"
           (store_with "a b") "docs"
           [reference_row 1 "Lib_a_1" "A" "a b" "Lib" "a.md"]).
  reflexivity.
Defined.

Lemma import_keeps_keys_unique_witness :
  reference (store_with "a b")
  = Some [reference_row 1 "Lib_a_1" "A" "a b" "Lib" "a.md"]
  /\ rglob_md guide_directory "docs" = Some [("docs/guide.md", "guide.md")]
  /\ keys_unique [reference_row 1 "Lib_a_1" "A" "a b" "Lib" "a.md"]
  /\ exists rows',
       reference
         (snd (import_reference_documentation hash_seed_1 guide_directory
                 (store_with "a b") "docs" "Lib"))
       = Some rows'
       /\ keys_unique rows'
       /\ incl
            (imported_ids hash_seed_1 guide_directory "Lib"
               [("docs/guide.md", "guide.md")])
            (map ref_id rows')
       /\ incl
            (map ref_id [reference_row 1 "Lib_a_1" "A" "a b" "Lib" "a.md"])
            (map ref_id rows').
Proof.
  assert (Hkeys : keys_unique [reference_row 1 "Lib_a_1" "A" "a b" "Lib" "a.md"]).
  { split; simpl; repeat constructor; intros []. }
  split; [reflexivity|]. split; [reflexivity|]. split; [exact Hkeys|].
  apply (import_keeps_keys_unique hash_seed_1 guide_directory "Lib"
           (store_with "a b") "docs"
           [reference_row 1 "Lib_a_1" "A" "a b" "Lib" "a.md"]
           [("docs/guide.md", "guide.md")]);
    [reflexivity|reflexivity|exact Hkeys].
Defined.

End ImportedRowExamples.

(** ** Trimmed texts *)

Section TrimFacts.

Lemma rstrip_idempotent (s : string) : rstrip (rstrip s) = rstrip s.
Proof.
  induction s as [|c s IH]; [reflexivity|].
  destruct (isspace c) eqn:Hc.
  - rewrite (rstrip_cons_space c s Hc).
    destruct (String.eqb_spec (rstrip s) "") as [Hr|Hr]; [reflexivity|].
    rewrite (rstrip_cons_space c _ Hc), IH.
    destruct (String.eqb_spec (rstrip s) ""); [contradiction|reflexivity].
  - rewrite (rstrip_cons_nonspace c s Hc), (rstrip_cons_nonspace c _ Hc).
    now rewrite IH.
Qed.

Lemma lstrip_rstrip_lstrip (s : string) :
  lstrip (rstrip (lstrip s)) = rstrip (lstrip s).
Proof.
  induction s as [|c s IH]; [reflexivity|].
  cbn [lstrip]. destruct (isspace c) eqn:Hc; [exact IH|].
  rewrite (rstrip_cons_nonspace c s Hc). cbn [lstrip]. now rewrite Hc.
Qed.

Lemma strip_trimmed (s : string) : trimmed (strip s).
Proof.
  unfold trimmed, strip.
  now rewrite lstrip_rstrip_lstrip, rstrip_idempotent.
Qed.

End TrimFacts.

(** ** The parts of a document the synthesizer reads *)

Section DocumentParts.

Import Synthesizer.

Lemma heading_lines_cons (line : string) (lines : list string) :
  heading_lines (line :: lines)
  = ((if startswith line "#" then 1 else 0) + heading_lines lines)%nat.
Proof.
  unfold heading_lines. cbn [filter]. now destruct (startswith line "#").
Qed.

Lemma fence_lines_cons (line : string) (lines : list string) :
  fence_lines (line :: lines)
  = ((if startswith line "```" then 1 else 0) + fence_lines lines)%nat.
Proof.
  unfold fence_lines. cbn [filter]. now destruct (startswith line "```").
Qed.

Lemma sections_scan_bounded (current_title current_section : string)
  (lines : list string) :
  (length (sections_scan current_title current_section lines)
   <= S (heading_lines lines))%nat
  /\ Forall (fun section => snd section <> "" /\ trimmed (snd section))
       (sections_scan current_title current_section lines).
Proof.
  revert current_title current_section.
  induction lines as [|line lines IH]; intros current_title current_section.
  - cbn [sections_scan].
    destruct (String.eqb_spec (strip current_section) "") as [He|Hne].
    + split; [simpl; lia|constructor].
    + split; [simpl; lia|]. repeat constructor; [exact Hne|].
      apply strip_trimmed.
  - cbn [sections_scan]. rewrite heading_lines_cons.
    assert (Hhead : startswith line "##" || startswith line "#"
                    = startswith line "#").
    { destruct (startswith line "##") eqn:H2; [|reflexivity].
      symmetry. apply prefix_spec. apply prefix_spec in H2.
      destruct H2 as [rest ->]. now exists ("#" ++ rest). }
    rewrite Hhead. destruct (startswith line "#").
    + destruct (IH (strip (strip_hash line)) "") as [Hlen Hall].
      destruct (String.eqb_spec (strip current_section) "") as [He|Hne].
      * split; [cbn [app length]; lia|exact Hall].
      * split; [cbn [app length]; lia|].
        constructor; [|exact Hall]. split; [exact Hne|apply strip_trimmed].
    + destruct (IH current_title (current_section ++ line ++ String nl ""))
        as [Hlen Hall].
      split; [lia|exact Hall].
Qed.

(** X20.  [_split_into_sections] returns no section without text: the
    content of every section is non-empty and has no white space at
    either end; and there is at most one section more than the
    document has lines that start with [#]. *)
Theorem sections_have_text (content : string) :
  (length (_split_into_sections content)
   <= S (heading_lines (split_on nl content)))%nat
  /\ Forall (fun section => snd section <> "" /\ trimmed (snd section))
       (_split_into_sections content).
Proof. apply sections_scan_bounded. Qed.

Lemma code_blocks_scan_count (in_code_block : bool) (current_block : string)
  (lines : list string) :
  length (code_blocks_scan in_code_block current_block lines)
  = Nat.div2 (fence_lines lines + if in_code_block then 1 else 0)
  /\ Forall trimmed (code_blocks_scan in_code_block current_block lines).
Proof.
  revert in_code_block current_block.
  induction lines as [|line lines IH]; intros in_code_block current_block.
  - split; [now destruct in_code_block|constructor].
  - cbn [code_blocks_scan]. rewrite fence_lines_cons.
    destruct (startswith line "```"), in_code_block.
    + destruct (IH false "") as [Hlen Hall]. split.
      * cbn [length]. rewrite Hlen, Nat.add_0_r.
        replace (1 + fence_lines lines + 1)%nat
          with (S (S (fence_lines lines))) by lia.
        reflexivity.
      * constructor; [apply strip_trimmed|exact Hall].
    + destruct (IH true current_block) as [Hlen Hall]. split; [|exact Hall].
      rewrite Hlen. f_equal. lia.
    + apply IH.
    + apply IH.
Qed.

(** X21.  A code block needs its opening and its closing fence: the
    number of blocks [_extract_code_blocks] returns is half the number
    of lines that start with three backquotes, rounded down, so the
    block after an unpaired last fence is dropped; and every block is
    returned without white space at either end. *)
Theorem code_blocks_pair_fences (content : string) :
  length (_extract_code_blocks content)
  = Nat.div2 (fence_lines (split_on nl content))
  /\ Forall trimmed (_extract_code_blocks content).
Proof.
  unfold _extract_code_blocks.
  destruct (code_blocks_scan_count false "" (split_on nl content))
    as [Hlen Hall].
  rewrite Nat.add_0_r in Hlen. now split.
Qed.

End DocumentParts.

(** ** Ids of synthesized patterns *)

Section PatternIds.

Import Synthesizer.

Variable py_hash : string -> Z.
Variable re : Regex.

Lemma synthetic_id_shape (prefix title : string) :
  In prefix pattern_id_prefixes ->
  synthesized_id (synthetic_id py_hash prefix title)
  /\ startswith (synthetic_id py_hash prefix title) "sqlitedata-" = true.
Proof.
  intros Hin. split.
  - exists prefix, (py_hash title mod 10000)%Z.
    split; [exact Hin|]. split; [|reflexivity].
    apply Z.mod_pos_bound. lia.
  - unfold synthetic_id, pattern_id_prefixes in *. simpl in Hin.
    destruct Hin as [<-|[<-|[<-|[<-|[<-|[]]]]]]; reflexivity.
Qed.

Lemma article_pattern_ids (doc_id title content folder_path : string) :
  Forall
    (fun p =>
       synthesized_id (id p) /\ startswith (id p) "sqlitedata-" = true)
    (_extract_article_patterns py_hash re doc_id title content folder_path).
Proof.
  unfold _extract_article_patterns. apply Forall_flat_map.
  apply Forall_forall. intros section _.
  repeat match goal with
         | |- context [if ?b then _ else _] => destruct b
         end;
    repeat (constructor; try (apply synthetic_id_shape; simpl; auto 6)).
Qed.

Lemma extension_pattern_ids (doc_id title content folder_path : string) :
  Forall (fun p => id p = synthetic_id py_hash "sqlitedata-api-" title)
    (_extract_extension_patterns py_hash re doc_id title content folder_path).
Proof.
  unfold _extract_extension_patterns. apply Forall_map.
  apply Forall_forall. reflexivity.
Qed.

(** X22.  Extracting patterns fails exactly when the reference table
    is missing; otherwise the id of every extracted pattern is one of
    the five prefixes [sqlitedata-perf-], [sqlitedata-migration-],
    [sqlitedata-best-practice-], [sqlitedata-api-], [sqlitedata-swift-]
    followed by a number from 0 to 9999. *)
Theorem extracted_pattern_ids (db : Store) :
  match extract_patterns_from_reference py_hash re db with
  | Ok found =>
      reference db <> None
      /\ Forall
           (fun p =>
              synthesized_id (id p)
              /\ startswith (id p) "sqlitedata-" = true)
           found
  | Raise e => e = OperationalError /\ reference db = None
  end.
Proof.
  unfold extract_patterns_from_reference.
  destruct (reference db) as [rows|]; [|now split].
  cbn [from_table bind]. split; [discriminate|].
  apply Forall_flat_map. apply Forall_forall. intros r _.
  destruct (String.eqb (ref_doc_type r) "article");
    [apply article_pattern_ids|].
  destruct (String.eqb (ref_doc_type r) "extension").
  - eapply Forall_impl; [|apply extension_pattern_ids].
    intros p ->. apply synthetic_id_shape. simpl. auto 6.
  - unfold _extract_general_patterns.
    destruct (contains "```swift" (ref_content r)); constructor;
      [|constructor].
    apply synthetic_id_shape. simpl. auto 6.
Qed.

(** X23.  A run over a reference table that holds no document of the
    library [SQLiteData] extracts nothing, saves nothing and leaves the
    store as it was, whether or not the patterns table exists. *)
Theorem synthesis_without_documents (db : Store)
  (rows : list ReferenceRow) :
  reference db = Some rows ->
  forallb (fun r => negb (String.eqb (ref_library r) "SQLiteData")) rows
  = true ->
  extract_patterns_from_reference py_hash re db = Ok []
  /\ synthesize py_hash re db = Ok db.
Proof.
  intros Href Hnone.
  assert (Hextract : extract_patterns_from_reference py_hash re db = Ok []).
  { unfold extract_patterns_from_reference. rewrite Href. cbn [from_table bind].
    assert (Hfilter :
      filter (fun r => String.eqb (ref_library r) "SQLiteData") rows = []).
    { clear Href. induction rows as [|r rows' IH]; [reflexivity|].
      cbn [forallb] in Hnone. apply andb_true_iff in Hnone.
      destruct Hnone as [Hr Hrest]. apply negb_true_iff in Hr.
      cbn [filter]. rewrite Hr. now apply IH. }
    now rewrite Hfilter. }
  split; [exact Hextract|].
  unfold synthesize. now rewrite Hextract.
Qed.

End PatternIds.

(** ** Saving under a uniqueness constraint *)

Section SavedIds.

Import Synthesizer.

Lemma upserts_ids {R : Type} (key : R -> string) (ids : list string)
  (rows rows' : list R) :
  Upserts key ids rows rows' ->
  NoDup (map key rows) ->
  NoDup (map key rows') /\ incl ids (map key rows')
  /\ incl (map key rows) (map key rows').
Proof.
  induction 1 as [rows|row ids rows rows' _ IH]; intros Hnd.
  - split; [exact Hnd|]. split; [intros x []|apply incl_refl].
  - destruct (IH (insert_or_replace_ids key row rows Hnd))
      as [Hnd' [Hids Hold]].
    split; [exact Hnd'|]. split.
    + intros x [<-|Hx]; [|now apply Hids].
      apply Hold. apply insert_or_replace_holds.
    + intros x Hx. apply Hold. now apply insert_or_replace_keeps.
Qed.

(** Upserts under one id leave one row at most in a table that held
    rows of that id only, and no more than one. *)
Lemma upserts_one_id {R : Type} (key : R -> string) (x : string)
  (ids : list string) (rows rows' : list R) :
  Upserts key ids rows rows' ->
  Forall (eq x) ids ->
  Forall (fun r => key r = x) rows -> (length rows <= 1)%nat ->
  (length rows' <= 1)%nat.
Proof.
  induction 1 as [rows|row ids rows rows' _ IH]; intros Hids Hrows Hlen.
  - exact Hlen.
  - inversion Hids as [|? ? Hrow Hrest]; subst.
    assert (Hgone :
      filter (fun r => negb (String.eqb (key r) (key row))) rows = []).
    { clear IH Hlen. induction rows as [|r rows IHr]; [reflexivity|].
      inversion Hrows as [|? ? Hr Hrs]; subst. cbn [filter].
      rewrite Hr, String.eqb_refl. cbn [negb]. now apply IHr. }
    apply IH; [exact Hrest| |].
    + unfold insert_or_replace. rewrite Hgone. now repeat constructor.
    + unfold insert_or_replace. rewrite Hgone. simpl. lia.
Qed.

(** X24.  Saving patterns into a patterns table with the uniqueness
    constraint, whose ids are distinct, succeeds when the index exists,
    leaves the ids distinct, keeps every id that was there and stores
    every saved pattern under its id. *)
Theorem save_keeps_ids_unique (found : list Pattern) (db : Store)
  (rows : list PatternRow) (idx : list FtsEntry) :
  patterns db = Some rows -> patterns_fts db = Some idx ->
  patterns_unique_id db = true ->
  NoDup (map pat_id rows) ->
  exists db' rows',
    save_synthesized_patterns db found = Ok db'
    /\ patterns db' = Some rows'
    /\ NoDup (map pat_id rows')
    /\ incl (map id found) (map pat_id rows')
    /\ incl (map pat_id rows) (map pat_id rows').
Proof.
  intros Hp Hf Hu Hnd.
  destruct (save_patterns_upserts found db rows idx Hp Hf Hu)
    as (db' & rows' & idx' & Hsave & Hp' & _ & _ & _ & Hup).
  exists db', rows'. split; [exact Hsave|]. split; [exact Hp'|].
  now apply upserts_ids.
Qed.

(** X25.  The API patterns of one extension document all carry one id,
    made from the title of the document, so saving them into an empty
    patterns table with the uniqueness constraint leaves one row at
    most, however many code blocks the document has. *)
Theorem extension_patterns_share_row (py_hash : string -> Z) (re : Regex)
  (db : Store) (idx : list FtsEntry)
  (doc_id title content folder_path : string) :
  patterns db = Some [] -> patterns_fts db = Some idx ->
  patterns_unique_id db = true ->
  let found :=
    _extract_extension_patterns py_hash re doc_id title content folder_path
  in
  Forall (fun p => id p = synthetic_id py_hash "sqlitedata-api-" title) found
  /\ exists db' rows',
       save_synthesized_patterns db found = Ok db'
       /\ patterns db' = Some rows'
       /\ (length rows' <= 1)%nat.
Proof.
  intros Hp Hf Hu found.
  pose proof (extension_pattern_ids py_hash re doc_id title content
                folder_path) as Hids.
  fold found in Hids. split; [exact Hids|].
  destruct (save_patterns_upserts found db [] idx Hp Hf Hu)
    as (db' & rows' & idx' & Hsave & Hp' & _ & _ & _ & Hup).
  exists db', rows'. split; [exact Hsave|]. split; [exact Hp'|].
  apply (upserts_one_id pat_id
           (synthetic_id py_hash "sqlitedata-api-" title)
           (map id found) [] rows' Hup).
  - apply Forall_map. eapply Forall_impl; [|exact Hids].
    intros p Hp0. now symmetry.
  - constructor.
  - simpl. lia.
Qed.

End SavedIds.

Section SynthesisExamples.

Import Synthesizer Fixtures Samples.

(** The store of one document of library [Lib]. *)
Lemma synthesis_without_documents_witness :
  reference (store_with "a b")
  = Some [reference_row 1 "Lib_a_1" "A" "a b" "Lib" "a.md"]
  /\ forallb (fun r => negb (String.eqb (ref_library r) "SQLiteData"))
       [reference_row 1 "Lib_a_1" "A" "a b" "Lib" "a.md"] = true
  /\ extract_patterns_from_reference hash_seed_1 finds_nothing
       (store_with "a b") = Ok []
  /\ synthesize hash_seed_1 finds_nothing (store_with "a b")
     = Ok (store_with "a b").
Proof.
  split; [reflexivity|]. split; [reflexivity|].
  apply (synthesis_without_documents hash_seed_1 finds_nothing
           (store_with "a b")
           [reference_row 1 "Lib_a_1" "A" "a b" "Lib" "a.md"]);
    reflexivity.
Defined.

(** One pattern saved into the empty patterns table. *)
Lemma save_keeps_ids_unique_witness :
  patterns store_for_patterns = Some []
  /\ patterns_fts store_for_patterns = Some []
  /\ patterns_unique_id store_for_patterns = true
  /\ NoDup (map pat_id (@nil PatternRow))
  /\ exists db' rows',
       save_synthesized_patterns store_for_patterns
         [_create_swift_pattern stand_in_hash "Queries" "let x = 1" "root"]
       = Ok db'
       /\ patterns db' = Some rows'
       /\ NoDup (map pat_id rows')
       /\ incl
            (map id
               [_create_swift_pattern stand_in_hash "Queries" "let x = 1"
                  "root"])
            (map pat_id rows')
       /\ incl (map pat_id (@nil PatternRow)) (map pat_id rows').
Proof.
  split; [reflexivity|]. split; [reflexivity|]. split; [reflexivity|].
  split; [constructor|].
  apply (save_keeps_ids_unique
           [_create_swift_pattern stand_in_hash "Queries" "let x = 1" "root"]
           store_for_patterns [] []); try reflexivity.
  constructor.
Defined.

(** An extension document with two code blocks: two patterns are
    extracted, and one row is left. *)
Lemma extension_patterns_share_row_witness :
  patterns store_for_patterns = Some []
  /\ patterns_fts store_for_patterns = Some []
  /\ patterns_unique_id store_for_patterns = true
  /\ length
       (_extract_extension_patterns stand_in_hash finds_nothing "d1" "Fetching"
          two_fetch_blocks "Extensions") = 2%nat
  /\ Forall
       (fun p => id p = synthetic_id stand_in_hash "sqlitedata-api-" "Fetching")
       (_extract_extension_patterns stand_in_hash finds_nothing "d1" "Fetching"
          two_fetch_blocks "Extensions")
  /\ exists db' rows',
       save_synthesized_patterns store_for_patterns
         (_extract_extension_patterns stand_in_hash finds_nothing "d1"
            "Fetching" two_fetch_blocks "Extensions")
       = Ok db'
       /\ patterns db' = Some rows'
       /\ (length rows' <= 1)%nat.
Proof.
  split; [reflexivity|]. split; [reflexivity|]. split; [reflexivity|].
  split; [reflexivity|].
  apply (extension_patterns_share_row stand_in_hash finds_nothing
           store_for_patterns [] "d1" "Fetching" two_fetch_blocks
           "Extensions"); reflexivity.
Defined.

End SynthesisExamples.

(** ** Progressive disclosure *)

Section ListFacts.

Lemma Forall_firstn_of {A : Type} (P : A -> Prop) (n : nat) (l : list A) :
  Forall P l -> Forall P (firstn n l).
Proof.
  revert l. induction n as [|n IH]; intros l H; [constructor|].
  destruct H; simpl; constructor; auto.
Qed.

Lemma find_upsert {R : Type} (key : R -> string) (row : R) (rows : list R) :
  find (fun r => String.eqb (key r) (key row))
    (insert_or_replace key row rows)
  = Some row.
Proof.
  unfold insert_or_replace. induction rows as [|r rows IH]; simpl.
  - now rewrite String.eqb_refl.
  - destruct (String.eqb (key r) (key row)) eqn:He; simpl; [exact IH|].
    now rewrite He.
Qed.

End ListFacts.

Section KeyPoints.

Import TokenDetails.

(** X26.  [_extract_key_points] returns five points at most, and every
    point is 80 characters long at most unless it starts with one of
    the labels [Problem:], [Solution:] and [Key Points:], which are
    kept whole. *)
Theorem key_points_bounded (content : string) :
  (length (_extract_key_points content) <= 5)%nat
  /\ Forall
       (fun point =>
          (String.length point <= 80)%nat
          \/ startswith_any point key_point_labels = true)
       (_extract_key_points content).
Proof.
  unfold _extract_key_points. split; [apply firstn_le_length|].
  apply Forall_firstn_of. apply Forall_flat_map. apply Forall_forall.
  intros line _.
  destruct (startswith_any (strip line) ["1."; "2."; "3."; "-"]).
  - constructor; [|constructor]. left.
    destruct (80 <? String.length (strip line))%nat eqn:Hlong.
    + rewrite append_length. pose proof (take_length 77 (strip line)).
      change (String.length "...") with 3%nat. lia.
    + apply Nat.ltb_ge in Hlong. exact Hlong.
  - destruct (startswith_any (strip line)
                ["Problem:"; "Solution:"; "Key Points:"]) eqn:Hlabel;
      constructor; [|constructor]. right. exact Hlabel.
Qed.

End KeyPoints.

Section ExpandDetails.

Import TokenDetails.

Variable swift_blocks : string -> list string.

(** X27.  Details the search advertises and [expand_details] never
    serves.  The detail types [full_pattern] and [section_highlights],
    which a summary answer lists as available, are answered with
    [Detail not found] for every source id and store.  And the key
    points and code examples of a conceptual TCA pattern cannot be
    expanded: its id starts with [tca-concept-], and only ids that
    start with [sqlitedata-] or [structured-queries-] are looked up,
    so the answer is [Detail not found] whatever the patterns table
    holds. *)
Theorem details_never_served (py_hash : string -> Z)
  (title content folder_path : string) (db : Store)
  (query source_id : string) :
  let pattern :=
    ComposableSynthesizer._create_conceptual_pattern py_hash title content
      folder_path in
  expand_details swift_blocks db query "full_pattern" source_id
  = Ok (not_found "full_pattern")
  /\ expand_details swift_blocks db query "section_highlights" source_id
     = Ok (not_found "section_highlights")
  /\ expand_details swift_blocks db query "key_points"
       (ComposableSynthesizer.id pattern)
     = Ok (not_found "key_points")
  /\ expand_details swift_blocks db query "code_examples"
       (ComposableSynthesizer.id pattern)
     = Ok (not_found "code_examples").
Proof. repeat split. Qed.

(** The row a pattern is saved as, under the uniqueness constraint. *)
Lemma save_pattern_row (db db' : Store) (pattern : Synthesizer.Pattern) :
  patterns_unique_id db = true ->
  Synthesizer.save_pattern db pattern = Ok db' ->
  exists rows row,
    patterns db' = Some (insert_or_replace pat_id row rows)
    /\ pat_id row = Synthesizer.id pattern
    /\ pat_content row = Synthesizer._format_pattern_content pattern.
Proof.
  intros Hu. unfold Synthesizer.save_pattern.
  destruct (patterns db) as [rows|] eqn:Hp; [|discriminate].
  cbn [from_table bind]. rewrite Hu.
  cbn [set_patterns patterns_fts].
  destruct (patterns_fts db) as [idx|]; [|discriminate].
  cbn [from_table bind]. intros [= <-].
  eexists. eexists. split; [reflexivity|]. split; reflexivity.
Qed.

(** X28.  A synthesized pattern that was saved can be expanded: right
    after [save_pattern] stored a pattern whose id starts with
    [sqlitedata-] in a patterns table with the uniqueness constraint,
    [expand_details] returns for that id the detailed key points of the
    text the pattern was saved as. *)
Theorem saved_pattern_expands (db db' : Store)
  (pattern : Synthesizer.Pattern) (query : string) :
  patterns_unique_id db = true ->
  startswith (Synthesizer.id pattern) "sqlitedata-" = true ->
  Synthesizer.save_pattern db pattern = Ok db' ->
  expand_details swift_blocks db' query "key_points"
    (Synthesizer.id pattern)
  = Ok (mkDetail "key_points"
          (Some (Lines (_extract_detailed_key_points
                          (Synthesizer._format_pattern_content pattern))))
          (Some (Synthesizer.id pattern)) None).
Proof.
  intros Hu Hid Hsave.
  destruct (save_pattern_row db db' pattern Hu Hsave)
    as (rows & row & Hp' & Hrid & Hcontent).
  unfold expand_details. rewrite String.eqb_refl.
  unfold startswith_any. cbn [existsb]. rewrite Hid. cbn [orb].
  unfold _get_pattern_by_id. rewrite Hp'. cbn [from_table bind].
  rewrite <- Hrid, find_upsert, Hcontent. reflexivity.
Qed.

End ExpandDetails.

Section ExpandExamples.

Import TokenDetails Fixtures Samples.

(** A Swift pattern saved into the empty patterns table. *)
Lemma saved_pattern_expands_witness :
  let pattern :=
    Synthesizer._create_swift_pattern stand_in_hash "Queries"
      "## Use an index"
      "root" in
  patterns_unique_id store_for_patterns = true
  /\ startswith (Synthesizer.id pattern) "sqlitedata-" = true
  /\ exists db',
       Synthesizer.save_pattern store_for_patterns pattern = Ok db'
       /\ expand_details (fun _ => []) db' "index" "key_points"
            (Synthesizer.id pattern)
          = Ok (mkDetail "key_points"
                  (Some (Lines (_extract_detailed_key_points
                                  (Synthesizer._format_pattern_content
                                     pattern))))
                  (Some (Synthesizer.id pattern)) None).
Proof.
  intros pattern. split; [reflexivity|]. split; [reflexivity|].
  destruct (Synthesizer.save_pattern store_for_patterns pattern)
    as [db'|e] eqn:Hsave; [|vm_compute in Hsave; discriminate].
  exists db'. split; [reflexivity|].
  exact (saved_pattern_expands (fun _ => []) store_for_patterns db' pattern
           "index" eq_refl eq_refl Hsave).
Defined.

End ExpandExamples.

(** ** Metadata of a knowledge document *)

Section MetadataFacts.

Import KnowledgeImport.

Variable str_title : string -> string.

Lemma folder_by_terms_not_empty (filename_lower content_lower : string) :
  folder_by_terms filename_lower content_lower <> "".
Proof.
  unfold folder_by_terms.
  repeat match goal with
         | |- context [if ?b then _ else _] => destruct b
         end; discriminate.
Qed.

(** The folder of a document: the category of its front matter, and
    the folder chosen by the terms when it has none. *)
Lemma metadata_folder_cases (content file_path : string) :
  let folder := metadata_folder (_extract_metadata str_title content file_path)
  in
  (folder <> ""
   /\ (startswith content ("---" ++ String nl "") = false ->
       folder
       = folder_by_terms (lower (path_name file_path)) (lower content))).
Proof.
  unfold _extract_metadata, metadata_folder.
  set (default_title := str_title _).
  set (by_terms :=
         folder_by_terms (lower (path_name file_path)) (lower content)).
  assert (Hby : by_terms <> "") by apply folder_by_terms_not_empty.
  destruct (startswith content ("---" ++ String nl "")) eqn:Hstart.
  - destruct (index 4 (String nl ("---" ++ String nl "")) content)
      as [frontmatter_end|].
    + destruct (fold_left frontmatter_line _ _) as [[title folder] tags].
      cbn [fst snd]. split; [|discriminate].
      destruct (String.eqb_spec folder ""); assumption.
    + cbn [fst snd String.eqb]. split; [exact Hby|discriminate].
  - cbn [fst snd String.eqb]. split; [exact Hby|reflexivity].
Qed.

(** X29.  [_extract_metadata] always names a folder: the folder of the
    triple it returns is never the empty text, with or without front
    matter and whatever the front matter says. *)
Theorem metadata_folder_not_empty (content file_path : string) :
  metadata_folder (_extract_metadata str_title content file_path) <> "".
Proof. apply metadata_folder_cases. Qed.

(** X30.  A document without front matter that mentions [StateObject]
    or [@State], in any casing, is filed under [tca], not under
    [swiftui]: the term [state] of the first group is found in both, so
    the two terms of the [swiftui] group never decide. *)
Theorem state_wrappers_filed_under_tca (content file_path : string) :
  startswith content ("---" ++ String nl "") = false ->
  contains "stateobject" (lower content)
  || contains "@state" (lower content) = true ->
  metadata_folder (_extract_metadata str_title content file_path) = "tca".
Proof.
  intros Hstart Hmention.
  destruct (metadata_folder_cases content file_path) as [_ Hfolder].
  cbv zeta in Hfolder. rewrite (Hfolder Hstart).
  assert (Hstate : contains "state" (lower content) = true).
  { apply orb_true_iff in Hmention. destruct Hmention as [H|H].
    - apply (contains_trans "state" "stateobject"); [reflexivity|exact H].
    - apply (contains_trans "state" "@state"); [reflexivity|exact H]. }
  unfold folder_by_terms, any_term. cbn [existsb].
  rewrite Hstate. now rewrite !orb_true_r.
Qed.

End MetadataFacts.

Section MetadataExamples.

Import KnowledgeImport.

(** A note on a SwiftUI property wrapper, with the identity for
    [str.title]. *)
Lemma state_wrappers_witness :
  startswith "Use @State for local values." ("---" ++ String nl "") = false
  /\ contains "stateobject" (lower "Use @State for local values.")
     || contains "@state" (lower "Use @State for local values.") = true
  /\ metadata_folder
       (_extract_metadata (fun s => s) "Use @State for local values."
          "notes/wrappers.md")
     = "tca".
Proof.
  split; [reflexivity|]. split; [reflexivity|].
  apply (state_wrappers_filed_under_tca (fun s => s)
           "Use @State for local values." "notes/wrappers.md");
    reflexivity.
Defined.

End MetadataExamples.
